(** * rfc2texi: a shallow embedding of the orchestration script

    The script [rfc2texi.py] reads a line-oriented configuration file,
    downloads the XML sources it lists, hands each of them to the xml2rfc
    library and to [makeinfo], and writes an Info [dir] file.

    Python values are embedded as follows.
    - [str] is [string]; a character is a code point below 256, so that
      [str.isspace] and the regular-expression class [\d] are the restrictions
      of the Unicode predicates to that range.
    - Exceptions are the [Raise] results of the type [Exc]; [SystemExit] is
      kept apart from [Exception] because [except Exception] lets it through.
    - Printing, the file system, the network and the index file are fields of
      an explicit [World]; the external collaborators (the network, xml2rfc,
      makeinfo, the working directory) are the fields of an [Env] record.

    What the embedding leaves out: a collaborator fails with an exception of
    class [Exception] only; creating the cache directory and writing the
    index succeed; what goes to the standard error (the traceback printed by
    [convert_file]) is not recorded. *)

From Stdlib Require Import Bool Arith Lia List Ascii String.
From Stdlib Require Import Sorting.Sorted Sorting.Permutation.
From Stdlib Require Import Numbers.DecimalString.
From Stdlib Require Import Structures.OrderedTypeEx.
Import ListNotations.

Open Scope list_scope.
Open Scope string_scope.

(** ** Python string primitives *)

Module PyStr.

(** [str.isspace] on one character: TAB..CR, FS..US, SPACE, NEL, NBSP. *)
Definition isspace (c : ascii) : bool :=
  let n := nat_of_ascii c in
  (((9 <=? n) && (n <=? 13)) || ((28 <=? n) && (n <=? 32))
   || (n =? 133) || (n =? 160))%nat.

(** The class [\d] of [re] on code points below 256: the ten ASCII digits. *)
Definition isdigit (c : ascii) : bool :=
  let n := nat_of_ascii c in ((48 <=? n) && (n <=? 57))%nat.

Definition is_empty (s : string) : bool :=
  match s with "" => true | String _ _ => false end.

Fixpoint all (p : ascii -> bool) (s : string) : bool :=
  match s with
  | "" => true
  | String c r => p c && all p r
  end.

Fixpoint lstrip (s : string) : string :=
  match s with
  | "" => ""
  | String c r => if isspace c then lstrip r else s
  end.

Fixpoint rstrip (s : string) : string :=
  match s with
  | "" => ""
  | String c r =>
      match rstrip r with
      | "" => if isspace c then "" else String c ""
      | r' => String c r'
      end
  end.

(** [s.strip()] *)
Definition strip (s : string) : string := rstrip (lstrip s).

(** [s.startswith(p)] *)
Definition startswith (p s : string) : bool := String.prefix p s.

(** [c in s] for a one-character needle. *)
Fixpoint contains (c : ascii) (s : string) : bool :=
  match s with
  | "" => false
  | String d r => Ascii.eqb d c || contains c r
  end.

(** [s.find(c)] for a one-character needle, [None] for -1. *)
Fixpoint find (c : ascii) (s : string) : option nat :=
  match s with
  | "" => None
  | String d r =>
      if Ascii.eqb d c then Some 0
      else match find c r with Some i => Some (S i) | None => None end
  end.

(** The slice [s[:n]]. *)
Fixpoint take (n : nat) (s : string) : string :=
  match n, s with
  | S k, String c r => String c (take k r)
  | _, _ => ""
  end.

(** The slice [s[n:]]. *)
Fixpoint drop (n : nat) (s : string) : string :=
  match n, s with
  | S k, String _ r => drop k r
  | _, _ => s
  end.

Definition starts_nonspace (s : string) : bool :=
  match s with
  | "" => false
  | String c _ => negb (isspace c)
  end.

(** [s.split()]: the maximal runs of non-whitespace characters. *)
Fixpoint split (s : string) : list string :=
  match s with
  | "" => []
  | String c r =>
      if isspace c then split r
      else if starts_nonspace r then
        match split r with
        | t :: ts => String c t :: ts
        | [] => [String c ""]
        end
      else String c "" :: split r
  end.

(** [s.split(sep)] for a one-character separator: never empty. *)
Fixpoint split_on (sep : ascii) (s : string) : list string :=
  match s with
  | "" => [""]
  | String c r =>
      if Ascii.eqb c sep then "" :: split_on sep r
      else match split_on sep r with
           | t :: ts => String c t :: ts
           | [] => [String c ""]
           end
  end.

(** [sep.join(l)] *)
Definition join (sep : string) (l : list string) : string :=
  String.concat sep l.

(** [s.replace(old, new)] for a non-empty [old]: the occurrences of [old]
    are found from the left and do not overlap; [skip] counts the
    characters of the occurrence being replaced that are still to pass. *)
Fixpoint replace_from (skip : nat) (old new s : string) : string :=
  match s with
  | "" => ""
  | String c r =>
      match skip with
      | S k => replace_from k old new r
      | O =>
          if String.prefix old s
          then new ++ replace_from (Nat.pred (String.length old)) old new r
          else String c (replace_from 0 old new r)
      end
  end.

Definition replace (old new s : string) : string :=
  replace_from 0 old new s.

(** [str(n)] for a natural number. *)
Definition of_nat (n : nat) : string :=
  NilEmpty.string_of_uint (Nat.to_uint n).

(** [a <= b] and [a < b] on strings: lexicographic on code points. *)
Definition le (a b : string) : bool := String.leb a b.
Definition lt (a b : string) : bool := String.ltb a b.

End PyStr.

(** ** Exceptions *)

Inductive exn : Type :=
| Exception (msg : string)
| SystemExit (code : nat).

Inductive Exc (A : Type) : Type :=
| Return (a : A)
| Raise (e : exn).
Arguments Return {A} a.
Arguments Raise {A} e.

Definition exc_bind {A B} (x : Exc A) (k : A -> Exc B) : Exc B :=
  match x with
  | Return a => k a
  | Raise e => Raise e
  end.

(** [l[i]], an [IndexError] out of range. *)
Definition getitem {A} (l : list A) (i : nat) : Exc A :=
  match nth_error l i with
  | Some a => Return a
  | None => Raise (Exception "IndexError: list index out of range")
  end.

(** [s.index(c)], a [ValueError] when [c] does not occur. *)
Definition str_index (c : ascii) (s : string) : Exc nat :=
  match PyStr.find c s with
  | Some i => Return i
  | None => Raise (Exception "ValueError: substring not found")
  end.

(** [template.format(kw=value)] for a template whose replacement fields are
    plain names and that has no doubled brace.  [field] holds the name being
    read between the braces. *)
Fixpoint format_from (field : option string) (template kw value : string)
  : Exc string :=
  match template with
  | "" =>
      match field with
      | None => Return ""
      | Some _ => Raise (Exception "ValueError: expected '}' before end of string")
      end
  | String c r =>
      match field with
      | None =>
          if Ascii.eqb c "{" then format_from (Some "") r kw value
          else exc_bind (format_from None r kw value)
                        (fun t => Return (String c t))
      | Some f =>
          if Ascii.eqb c "}" then
            if String.eqb f kw
            then exc_bind (format_from None r kw value)
                          (fun t => Return (value ++ t))
            else Raise (Exception ("KeyError: " ++ f))
          else format_from (Some (f ++ String c "")) r kw value
      end
  end.

Definition format (template kw value : string) : Exc string :=
  format_from None template kw value.

(** ** The world the script runs in *)

(** [fs] lists the paths that exist, [stdout] the arguments of the [print]
    calls in order, [net_calls] the [(url, destination)] pairs handed to
    [urllib.request.urlretrieve] in order, and [dir_writes] the
    [(path, content)] pairs written by [generate_dir_file] in order. *)
Record World : Type := mkWorld {
  fs : list string;
  stdout : list string;
  net_calls : list (string * string);
  dir_writes : list (string * string)
}.

Definition path_exists (p : string) (w : World) : bool :=
  existsb (String.eqb p) (fs w).

Definition w_print (msg : string) (w : World) : World :=
  mkWorld (fs w) (stdout w ++ [msg])%list (net_calls w) (dir_writes w).

Definition w_create (p : string) (w : World) : World :=
  mkWorld (if path_exists p w then fs w else fs w ++ [p])%list
          (stdout w) (net_calls w) (dir_writes w).

Definition w_net_call (url dest : string) (w : World) : World :=
  mkWorld (fs w) (stdout w) (net_calls w ++ [(url, dest)])%list (dir_writes w).

Definition w_write_dir (p content : string) (w : World) : World :=
  w_create p
    (mkWorld (fs w) (stdout w) (net_calls w) (dir_writes w ++ [(p, content)])%list).

(** ** A state and exception monad *)

Definition M (A : Type) : Type := World -> Exc A * World.

Definition ret {A} (a : A) : M A := fun w => (Return a, w).

Definition bind {A B} (m : M A) (k : A -> M B) : M B :=
  fun w =>
    match m w with
    | (Return a, w') => k a w'
    | (Raise e, w') => (Raise e, w')
    end.

Definition lift {A} (x : Exc A) : M A := fun w => (x, w).

Definition raise {A} (e : exn) : M A := lift (Raise e).

(** [try: m  except Exception as e: h e]; a [SystemExit] passes through. *)
Definition try_except {A} (m : M A) (h : string -> M A) : M A :=
  fun w =>
    match m w with
    | (Raise (Exception msg), w') => h msg w'
    | r => r
    end.

Definition print (msg : string) : M unit :=
  fun w => (Return tt, w_print msg w).

Definition get_world : M World := fun w => (Return w, w).

(** [sys.exit(code)] *)
Definition sys_exit {A} (code : nat) : M A := raise (SystemExit code).

Declare Scope monad_scope.
Delimit Scope monad_scope with monad.
Notation "x <- m ;; k" := (bind m (fun x => k))
  (at level 61, m at next level, right associativity) : monad_scope.
Notation "m ;; k" := (bind m (fun _ => k))
  (at level 61, right associativity) : monad_scope.
Open Scope monad_scope.

(** [for x in l: acc = body acc x] *)
Fixpoint for_each {A S} (body : S -> A -> M S) (l : list A) (acc : S) : M S :=
  match l with
  | [] => ret acc
  | x :: r => acc' <- body acc x ;; for_each body r acc'
  end.

(** ** [os.path] on POSIX paths *)

Module OsPath.

(** The part of [p] after its last slash, and whether a slash was seen. *)
Fixpoint after_last_slash (p : string) : string * bool :=
  match p with
  | "" => ("", false)
  | String c r =>
      match after_last_slash r with
      | (t, true) => (t, true)
      | (t, false) => if Ascii.eqb c "/" then (t, true) else (String c t, false)
      end
  end.

(** [os.path.basename] *)
Definition basename (p : string) : string := fst (after_last_slash p).

(** [os.path.join(a, b)] *)
Definition join (a b : string) : string :=
  if PyStr.startswith "/" b then b
  else if PyStr.is_empty a then b
  else if Ascii.eqb (match get (String.length a - 1) a with
                     | Some c => c | None => "/"%char end) "/"
       then a ++ b
       else a ++ "/" ++ b.

(** The stem of a name without slash: what precedes its last dot, unless
    only dots precede that dot.  [seen] tells whether a character other
    than a dot was passed. *)
Fixpoint stem (seen : bool) (name : string) : string :=
  match name with
  | "" => ""
  | String c r =>
      if Ascii.eqb c "." then
        if seen && negb (PyStr.contains "." r) then ""
        else String c (stem seen r)
      else String c (stem true r)
  end.

(** [os.path.splitext(name)[0]] for a name without slash. *)
Definition splitext_root (name : string) : string := stem false name.

(** The part of [p] up to and including its last slash. *)
Fixpoint upto_last_slash (p : string) : string * bool :=
  match p with
  | "" => ("", false)
  | String c r =>
      match upto_last_slash r with
      | (h, true) => (String c h, true)
      | (_, false) => if Ascii.eqb c "/" then ("/", true) else ("", false)
      end
  end.

Fixpoint rstrip_slash (s : string) : string :=
  match s with
  | "" => ""
  | String c r =>
      match rstrip_slash r with
      | "" => if Ascii.eqb c "/" then "" else String c ""
      | r' => String c r'
      end
  end.

(** [os.path.dirname] *)
Definition dirname (p : string) : string :=
  let head := fst (upto_last_slash p) in
  if PyStr.all (fun c => Ascii.eqb c "/") head then head
  else rstrip_slash head.

End OsPath.

(** ** The external collaborators *)

(** What [urlretrieve] does: the content arrives, or an exception is raised,
    after which a partial destination file may be left behind. *)
Inductive NetOutcome : Type :=
| Retrieved
| NetError (msg : string) (partial : bool).

Record SeriesInfo : Type := mkSeriesInfo {
  si_name : option string;
  si_value : option string
}.

(** The attributes and children of the root element that the script reads;
    [front_title] holds the text pieces of [./front/title]. *)
Record Root : Type := mkRoot {
  prepTime : option string;
  number : option string;
  docName : option string;
  front_title : option (list string);
  front_seriesInfo : list SeriesInfo
}.

(** What a call into a collaborator comes to: a value, or an exception of
    class [Exception] with its message. *)
Inductive Outcome (A : Type) : Type :=
| Ok (a : A)
| Fails (msg : string).
Arguments Ok {A} a.
Arguments Fails {A} msg.

Definition of_outcome {A} (o : Outcome A) : Exc A :=
  match o with
  | Ok a => Return a
  | Fails msg => Raise (Exception msg)
  end.

(** The collaborators answer as functions of the world at the time of the
    call.
    - [open_lines w p]: the lines of the text file [p], as iterating over
      the open file yields them.
    - [urlretrieve w url dest]: see [NetOutcome].
    - [glob_info w]: the paths [glob] finds for [*.info] in [script_dir].
    - [xml_parse w path names]: the root of the tree xml2rfc parses, [names]
      being the option [local_info_files].
    - [v2v3_prep w root names]: the tree after the conversion to v3 and the
      preparation, [None] when the prep tool returns no tree.
    - [texinfo_write w root path names]: the Texinfo writer.
    - [makeinfo w info_path texi_path]: the standard error of [makeinfo] and
      whether it produced [info_path]. *)
Record Env : Type := mkEnv {
  argv : list string;
  script_dir : string;
  abspath : string -> string;
  open_lines : World -> string -> Outcome (list string);
  urlretrieve : World -> string -> string -> NetOutcome;
  glob_info : World -> list string;
  xml_parse : World -> string -> list string -> Outcome Root;
  v2v3_prep : World -> Root -> list string -> Outcome (option Root);
  texinfo_write : World -> Root -> string -> list string -> Outcome unit;
  makeinfo : World -> string -> string -> Outcome (string * bool)
}.

(** [d.get(key, default)] on an attribute that may be absent. *)
Definition attr_get (a : option string) (default : string) : string :=
  match a with Some v => v | None => default end.

(** ** The build pipeline *)

Definition RFC_URL : string := "https://www.rfc-editor.org/rfc/rfc{number}.xml".
Definition DRAFT_URL : string := "https://www.ietf.org/archive/id/{name}.xml".

Section Pipeline.

Variable env : Env.

Definition call_urlretrieve (url output_path : string) : M unit :=
  fun w =>
    let w1 := w_net_call url output_path w in
    match urlretrieve env w url output_path with
    | Retrieved => (Return tt, w_create output_path w1)
    | NetError msg partial =>
        (Raise (Exception msg),
         if partial then w_create output_path w1 else w1)
    end.

Definition fetch_xml (url output_path : string) : M string :=
  fun w =>
    if path_exists output_path w then
      (print ("  [cached] " ++ OsPath.basename output_path) ;;
       ret output_path) w
    else
      (print ("  Fetching " ++ url ++ " ...") ;;
       call_urlretrieve url output_path ;;
       ret output_path) w.

(** Lines 62 and 63 of [parse_specs_conf]: strip an inline comment. *)
Definition strip_inline_comment (line : string) : Exc string :=
  if PyStr.contains "#" line
  then exc_bind (str_index "#" line)
                (fun i => Return (PyStr.strip (PyStr.take i line)))
  else Return line.

(** Lines 65 to 79 of [parse_specs_conf]: the dispatch on the first field.
    [line] is the text the warning shows. *)
Definition parse_fields (specs : list (string * string)) (line : string)
           (parts : list string) : M (list (string * string)) :=
  kind <- lift (getitem parts 0) ;;
  if (kind =? "rfc") && (2 <=? List.length parts)%nat then
    num <- lift (getitem parts 1) ;;
    url <- lift (format RFC_URL "number" num) ;;
    ret (specs ++ [(url, ("rfc" ++ num)%string)])%list
  else if (kind =? "draft") && (2 <=? List.length parts)%nat then
    name <- lift (getitem parts 1) ;;
    url <- lift (format DRAFT_URL "name" name) ;;
    ret (specs ++ [(url, name)])%list
  else if (kind =? "url") && (3 <=? List.length parts)%nat then
    url <- lift (getitem parts 1) ;;
    name <- lift (getitem parts 2) ;;
    ret (specs ++ [(url, name)])%list
  else
    print ("  Warning: skipping unrecognized line: " ++ line) ;;
    ret specs.

(** Whether the loop of [parse_specs_conf] passes over [line], already
    stripped, at its [continue]. *)
Definition skipped (line : string) : bool :=
  PyStr.is_empty line || PyStr.startswith "#" line.

(** The body of the loop of [parse_specs_conf] over the lines of the file;
    [specs] is the list built so far. *)
Definition parse_specs_line (specs : list (string * string)) (line : string)
  : M (list (string * string)) :=
  let line := PyStr.strip line in
  if skipped line then ret specs
  else
    line <- lift (strip_inline_comment line) ;;
    let parts := PyStr.split line in
    parse_fields specs line parts.

Definition parse_specs_conf (conf_path : string) : M (list (string * string)) :=
  lines <- (fun w => (of_outcome (open_lines env w conf_path), w)) ;;
  for_each parse_specs_line lines [].

(** *** The converter *)

(** The loop of [convert_file] over the [seriesInfo] elements of the front
    matter: it stops at the first one named RFC.  The result is the pair
    [(rfc_num, doc_id)]. *)
Fixpoint series_info_loop (sis : list SeriesInfo) (rfc_num doc_id : string)
  : string * string :=
  match sis with
  | [] => (rfc_num, doc_id)
  | si :: rest =>
      match si_name si with
      | Some n =>
          if n =? "RFC" then
            let rfc_num := attr_get (si_value si) "" in
            (rfc_num, "RFC " ++ rfc_num)
          else series_info_loop rest rfc_num doc_id
      | None => series_info_loop rest rfc_num doc_id
      end
  end.

Fixpoint take_digits (s : string) : string :=
  match s with
  | "" => ""
  | String c r => if PyStr.isdigit c then String c (take_digits r) else ""
  end.

(** [re.match(r'^rfc(\d+)$', s)]: the first group, [None] without a match.
    The digits are taken greedily and [$] also matches before one final
    newline. *)
Definition rfc_basename_match (s : string) : option string :=
  if PyStr.startswith "rfc" s then
    let rest := PyStr.drop 3 s in
    let digits := take_digits rest in
    let tail := PyStr.drop (String.length digits) rest in
    if PyStr.is_empty digits then None
    else if PyStr.is_empty tail || (tail =? String "010" "") then Some digits
    else None
  else None.

(** Lines 131 to 153 of [convert_file]: the identifier of the document with
    root [root] read from the file whose base name is [basename]. *)
Definition doc_id_of (root : Root) (basename : string) : string :=
  let rfc_num := attr_get (number root) "" in
  let doc_name := attr_get (docName root) "" in
  let doc_id := "" in
  let doc_id :=
    if negb (PyStr.is_empty rfc_num) then "RFC " ++ rfc_num
    else if negb (PyStr.is_empty doc_name) then doc_name
    else doc_id in
  let '(rfc_num, doc_id) :=
    if PyStr.is_empty rfc_num
    then series_info_loop (front_seriesInfo root) rfc_num doc_id
    else (rfc_num, doc_id) in
  match rfc_basename_match basename with
  | Some digits =>
      if PyStr.is_empty rfc_num then "RFC " ++ digits else doc_id
  | None => doc_id
  end.

(** Lines 126 to 129 of [convert_file]. *)
Definition title_of (root : Root) : string :=
  match front_title root with
  | Some pieces => PyStr.strip (PyStr.join "" pieces)
  | None => ""
  end.

(** The [try] block of [convert_file]; [None] stands for the early
    [return None], otherwise the pair [(doc_id, title)] is passed on. *)
Definition convert_try (filepath basename texi_path : string)
           (local_info_files : list string) : M (option (string * string)) :=
  root <- (fun w => (of_outcome (xml_parse env w filepath local_info_files), w)) ;;
  tree <- (if PyStr.is_empty (attr_get (prepTime root) "")
           then fun w => (of_outcome (v2v3_prep env w root local_info_files), w)
           else ret (Some root)) ;;
  match tree with
  | None =>
      print ("  FAILED: prep tool returned no tree for " ++ basename) ;;
      ret None
  | Some root =>
      let title := title_of root in
      let doc_id := doc_id_of root basename in
      (fun w =>
         match texinfo_write env w root texi_path local_info_files with
         | Ok _ => (Return tt, w_create texi_path w)
         | Fails msg => (Raise (Exception msg), w)
         end) ;;
      ret (Some (doc_id, title))
  end.

Definition call_makeinfo (info_path texi_path : string) : M string :=
  fun w =>
    match makeinfo env w info_path texi_path with
    | Ok (stderr, created) =>
        (Return stderr, if created then w_create info_path w else w)
    | Fails msg => (Raise (Exception msg), w)
    end.

Definition print_warnings (stderr : string) : M unit :=
  if negb (PyStr.is_empty (PyStr.strip stderr)) then
    let warnings := PyStr.split_on "010" (PyStr.strip stderr) in
    let shown := firstn 5 warnings in
    for_each (fun _ line => print ("    " ++ line)) shown tt ;;
    if (5 <? List.length warnings)%nat
    then print ("    ... and " ++ PyStr.of_nat (List.length warnings - 5)
                  ++ " more warnings")
    else ret tt
  else ret tt.

Definition convert_file (filepath : string) (output_dir : option string)
           (local_info_files : option (list string))
  : M (option (string * string * string)) :=
  print ("  Parsing " ++ OsPath.basename filepath ++ " ...") ;;
  let basename := OsPath.splitext_root (OsPath.basename filepath) in
  let output_dir :=
    match output_dir with
    | None => OsPath.dirname filepath
    | Some d => d
    end in
  let texi_path := OsPath.join output_dir (basename ++ ".texi") in
  let info_path := OsPath.join output_dir (basename ++ ".info") in
  let local_info_files :=
    match local_info_files with Some l => l | None => [] end in
  r <- try_except
         (convert_try filepath basename texi_path local_info_files)
         (fun e => print ("  ERROR in xml2rfc processing: " ++ e) ;;
                   ret None) ;;
  match r with
  | None => ret None
  | Some (doc_id, title) =>
      stderr <- call_makeinfo info_path texi_path ;;
      print_warnings stderr ;;
      w <- get_world ;;
      if path_exists info_path w then
        print ("  -> " ++ OsPath.basename info_path) ;;
        ret (Some (OsPath.basename info_path, doc_id, title))
      else
        print ("  FAILED: " ++ OsPath.basename info_path) ;;
        ret None
  end.

(** *** The index generator *)

(** [sorted(l, key=key)]: a stable sort by [<] on the keys, here by
    insertion from the right, so that among equal keys the input order is
    kept. *)
Fixpoint insert_by {A} (key : A -> string) (x : A) (l : list A) : list A :=
  match l with
  | [] => [x]
  | y :: r => if PyStr.lt (key y) (key x) then y :: insert_by key x r
              else x :: l
  end.

Definition sorted {A} (key : A -> string) (l : list A) : list A :=
  fold_right (insert_by key) [] l.

Definition entry_key (e : string * string * string) : string := snd (fst e).

(** The body of the loop of [generate_dir_file]. *)
Definition menu_line (e : string * string * string) : string :=
  let '(info_basename, doc_id, title) := e in
  let name := PyStr.replace ".info" "" info_basename in
  let label := if negb (PyStr.is_empty doc_id) then doc_id else name in
  "* " ++ label ++ ": (" ++ name ++ ").  " ++ title ++ ".".

Definition dir_header : list string :=
  [ "This is the file .../info/dir, which contains the";
    "topmost node of the Info hierarchy, called (dir)Top.";
    "";
    String "031" "";
    "File: dir," ++ String "009" "Node: Top" ++ String "009"
      "This is the top of the INFO tree";
    "";
    "* Menu:";
    "";
    "RFC and Internet-Draft Specifications" ].

Definition dir_lines (entries : list (string * string * string))
  : list string :=
  (dir_header ++ map menu_line (sorted entry_key entries) ++ [""])%list.

(** What [generate_dir_file] writes. *)
Definition dir_content (entries : list (string * string * string)) : string :=
  PyStr.join (String "010" "") (dir_lines entries).

Definition generate_dir_file (directory : string)
           (entries : list (string * string * string)) : M unit :=
  let dir_path := OsPath.join directory "dir" in
  (fun w => (Return tt, w_write_dir dir_path (dir_content entries) w)) ;;
  print (String "010" "Generated dir file: " ++ dir_path).

(** *** The orchestrator *)

(** The module docstring, printed by [--help]. *)
Definition module_doc : string :=
"Convert RFC/Internet-Draft XML files to Texinfo Info format.

Uses xml2rfc's TexinfoWriter for rendering, with this script handling
orchestration: fetching XML, invoking the writer, running makeinfo,
and generating the Emacs Info dir file.

Usage:
    rfc2texi.py                Fetch and convert all specs listed in specs.conf
    rfc2texi.py --sync         Same as above (explicit)
    rfc2texi.py <file.xml>     Convert specific XML file(s)

The specs.conf file lists specs to fetch, one per line:
    rfc 9126                                  # Fetch RFC by number
    draft draft-ietf-oauth-browser-based-apps-26  # Fetch IETF draft
    url https://example.com/spec.xml name     # Fetch from arbitrary URL

Downloaded XML files are cached in xml/ subdirectory.
Generated .texi and .info files are placed alongside the script.
A dir file is generated for Emacs Info directory integration.
".

Definition is_nil {A} (l : list A) : bool :=
  match l with [] => true | _ :: _ => false end.

(** The body of the fetch loop of [main]; [files] is the list built so
    far. *)
Definition fetch_loop_body (xml_dir : string) (files : list string)
           (spec : string * string) : M (list string) :=
  let '(url, name) := spec in
  let output_path := OsPath.join xml_dir (name ++ ".xml") in
  try_except
    (fetch_xml url output_path ;;
     ret (files ++ [output_path])%list)
    (fun e => print ("  FAILED to fetch " ++ name ++ ": " ++ e) ;;
              ret files).

(** The body of the conversion loop of [main]. *)
Definition convert_loop_body (local_info_files : list string)
           (entries : list (string * string * string)) (f : string)
  : M (list (string * string * string)) :=
  try_except
    (result <- convert_file f (Some (script_dir env))
                            (Some local_info_files) ;;
     match result with
     | Some r => ret (entries ++ [r])%list
     | None => ret entries
     end)
    (fun e => print ("  ERROR converting " ++ OsPath.basename f ++ ": " ++ e) ;;
              ret entries).

(** The [else] branch of the mode selection of [main]: read specs.conf,
    fetch every entry. *)
Definition sync_files (xml_dir : string) : M (list string) :=
  let conf_path := OsPath.join (script_dir env) "specs.conf" in
  w <- get_world ;;
  (if negb (path_exists conf_path w) then
     print ("No specs.conf found at " ++ conf_path) ;;
     print "Create one or pass XML files as arguments." ;;
     sys_exit 1
   else ret tt) ;;
  specs <- parse_specs_conf conf_path ;;
  (if is_nil specs then
     print "No specs found in specs.conf" ;;
     sys_exit 1
   else ret tt) ;;
  (fun w => (Return tt, w_create xml_dir w)) ;;
  print ("Found " ++ PyStr.of_nat (List.length specs)
           ++ " specs in specs.conf" ++ String "010" "") ;;
  for_each (fetch_loop_body xml_dir) specs [].

(** Lines 253 to 258 of [main]: the base names of the files to convert and
    of the Info files already in the script directory.  The set is passed on
    to xml2rfc only, so a list stands for it. *)
Definition local_info_names (files : list string) (w : World) : list string :=
  let stem_of := fun f => OsPath.splitext_root (OsPath.basename f) in
  (map stem_of files ++ map stem_of (glob_info env w))%list.

(** The part of [main] that follows the mode selection. *)
Definition convert_all (files : list string) : M unit :=
  (if is_nil files then
     print "No files to convert." ;;
     sys_exit 1
   else ret tt) ;;
  w <- get_world ;;
  let local_info_files := local_info_names files w in
  entries <- for_each (convert_loop_body local_info_files) files [] ;;
  (if negb (is_nil entries)
   then generate_dir_file (script_dir env) entries
   else ret tt) ;;
  print (String "010" "Converted " ++ PyStr.of_nat (List.length entries)
           ++ "/" ++ PyStr.of_nat (List.length files) ++ " files.").

Definition main : M unit :=
  let xml_dir := OsPath.join (script_dir env) "xml" in
  let argv1 := nth 1 (argv env) "" in
  (if (2 <=? List.length (argv env))%nat && (argv1 =? "--help") then
     print module_doc ;;
     sys_exit 0
   else ret tt) ;;
  files <- (if (2 <=? List.length (argv env))%nat && negb (argv1 =? "--sync")
            then ret (map (abspath env) (skipn 1 (argv env)))
            else sync_files xml_dir) ;;
  convert_all files.

End Pipeline.

(** ** Vocabulary of the statements *)

Definition empty_world : World := mkWorld [] [] [] [].

Definition w_prints (msgs : list string) (w : World) : World :=
  fold_left (fun w msg => w_print msg w) msgs w.

(** A string of whitespace characters. *)
Definition spaces (s : string) : bool := PyStr.all PyStr.isspace s.

Definition field_char (c : ascii) : bool :=
  negb (PyStr.isspace c) && negb (Ascii.eqb c "#").

(** A field of a configuration line: a non-empty run of characters with
    neither whitespace nor a hash sign. *)
Definition is_field (s : string) : bool :=
  negb (PyStr.is_empty s) && PyStr.all field_char s.

(** A run of characters without whitespace: what [split] calls a word. *)
Definition is_word (s : string) : bool :=
  negb (PyStr.is_empty s) && PyStr.all (fun c => negb (PyStr.isspace c)) s.

(** What may follow the last field: whitespace, then nothing or a comment. *)
Definition is_trailer (s : string) : bool :=
  skipped (PyStr.lstrip s).

(** Where a field may end: at the end of the line, before whitespace or
    before a comment. *)
Definition field_end (rest : string) : bool :=
  match rest with
  | "" => true
  | String c _ => PyStr.isspace c || Ascii.eqb c "#"
  end.

(** The text of [s] before the first [c], all of [s] without one. *)
Definition before (c : ascii) (s : string) : string :=
  match PyStr.find c s with
  | Some i => PyStr.take i s
  | None => s
  end.

(** The fields of a configuration line, in the words of the configuration
    format: the text after a hash sign is a comment, the rest is split at
    whitespace. *)
Definition fields_of (line : string) : list string :=
  PyStr.split (before "#" line).

(** The three recognized shapes: [rfc] or [draft] followed by a field, [url]
    followed by two fields. *)
Definition recognized_fields (parts : list string) : bool :=
  match parts with
  | kw :: _ :: rest =>
      (kw =? "rfc") || (kw =? "draft") || ((kw =? "url") && negb (is_nil rest))
  | _ => false
  end.

Definition recognized_shape (line : string) : bool :=
  recognized_fields (fields_of line).

(** The warning printed for a line, [line] being what is left of it once
    stripped and without its comment. *)
Definition warning_for (line : string) : string :=
  "  Warning: skipping unrecognized line: " ++ line.

(** The entries and the warnings one line of the file gives rise to. *)
Definition line_entries (line : string) : list (string * string) :=
  match fst (parse_specs_line [] line empty_world) with
  | Return specs => specs
  | Raise _ => []
  end.

Definition line_warnings (line : string) : list string :=
  stdout (snd (parse_specs_line [] line empty_world)).

(** *** The identifier as a list of strategies *)

(** The identifier a number gives: none for an empty number. *)
Definition rfc_label (n : string) : string :=
  if PyStr.is_empty n then "" else "RFC " ++ n.

(** The first non-empty result of a list of strategies, in order. *)
Fixpoint first_nonempty (l : list string) : string :=
  match l with
  | [] => ""
  | s :: r => if PyStr.is_empty s then first_nonempty r else s
  end.

(** The value of the first series-info element whose name is RFC. *)
Fixpoint series_rfc_value (sis : list SeriesInfo) : option string :=
  match sis with
  | [] => None
  | si :: rest =>
      match si_name si with
      | Some n => if n =? "RFC" then Some (attr_get (si_value si) "")
                  else series_rfc_value rest
      | None => series_rfc_value rest
      end
  end.

Definition by_number (root : Root) : string :=
  rfc_label (attr_get (number root) "").

Definition by_doc_name (root : Root) : string :=
  attr_get (docName root) "".

Definition by_series_info (root : Root) : string :=
  match series_rfc_value (front_seriesInfo root) with
  | Some v => rfc_label v
  | None => ""
  end.

Definition by_file_name (basename : string) : string :=
  match rfc_basename_match basename with
  | Some digits => rfc_label digits
  | None => ""
  end.

(** The order of the strategies in the words of the specification. *)
Definition stated_strategies (root : Root) (basename : string) : list string :=
  [by_number root; by_doc_name root; by_series_info root; by_file_name basename].

(** The order of the strategies [convert_file] follows. *)
Definition strategies (root : Root) (basename : string) : list string :=
  [by_number root; by_series_info root; by_file_name basename; by_doc_name root].

(** A draft that was published as an RFC, as [convert_file] meets it when
    rfc6749.xml holds the XML of draft-ietf-oauth-v2-31. *)
Definition oauth_draft_root : Root :=
  mkRoot None None (Some "draft-ietf-oauth-v2-31")
         (Some ["The OAuth 2.0 Authorization Framework"]) [].

(** A prepared RFC whose root has a document name and whose front matter has
    the series-info element of the RFC. *)
Definition series_info_root : Root :=
  mkRoot (Some "2021-09-01T00:00:00Z") None (Some "draft-ietf-oauth-par-10")
         (Some ["OAuth 2.0 Pushed Authorization Requests"])
         [mkSeriesInfo (Some "RFC") (Some "9126")].

(** *** The order of the menu *)

(** [a] comes no later than [b] in the order of their keys. *)
Definition by_key {A} (key : A -> string) (a b : A) : Prop :=
  PyStr.le (key a) (key b) = true.

(** Two documents without identifier. *)
Definition entry_a : string * string * string := ("a.info", "", "Document A").
Definition entry_b : string * string * string := ("b.info", "", "Document B").

(** *** Runs *)

(** [m] leaves the index file alone and does not leave through
    [sys.exit]. *)
Definition quiet {A} (m : M A) : Prop :=
  forall w, dir_writes (snd (m w)) = dir_writes w
            /\ forall code, fst (m w) <> Raise (SystemExit code).

(** What the conversion of [f] in the world [w] adds to the entries: the
    result of [convert_file] when there is one. *)
Definition converted (env : Env) (names : list string) (f : string) (w : World)
  : list (string * string * string) :=
  match fst (convert_file env f (Some (script_dir env)) (Some names) w) with
  | Return (Some r) => [r]
  | _ => []
  end.

(** The world after the conversion of [f] in the loop of [main]. *)
Definition after_convert (env : Env) (names : list string) (f : string)
           (w : World) : World :=
  snd (convert_loop_body env names [] f w).

(** The results of the conversions that succeed when [files] are converted
    in turn from the world [w]. *)
Fixpoint run_results (env : Env) (names : list string) (files : list string)
         (w : World) : list (string * string * string) :=
  match files with
  | [] => []
  | f :: rest =>
      (converted env names f w
       ++ run_results env names rest (after_convert env names f w))%list
  end.

(** The last line of a run. *)
Definition summary (succeeded total : nat) : string :=
  String "010" "Converted " ++ PyStr.of_nat succeeded ++ "/"
    ++ PyStr.of_nat total ++ " files.".



(** The run of the first end-to-end scenario: specs.conf lists RFC 9126, its
    XML is in the cache, and xml2rfc parses a prepared document with the
    number 9126. *)
Definition rar_root : Root :=
  mkRoot (Some "2023-05-01T00:00:00Z") (Some "9126") None
         (Some ["OAuth 2.0 Rich Authorization Requests"]) [].

Definition rar_env : Env :=
  mkEnv ["rfc2texi.py"] "/opt/rfc" (fun p => p)
        (fun _ _ => Ok ["rfc 9126" ++ String "010" ""])
        (fun _ _ _ => NetError "no network" false)
        (fun _ => [])
        (fun _ _ _ => Ok rar_root)
        (fun _ _ _ => Ok None)
        (fun _ _ _ _ => Ok tt)
        (fun _ _ _ => Ok ("", true)).

Definition rar_world : World :=
  mkWorld ["/opt/rfc/specs.conf"; "/opt/rfc/xml"; "/opt/rfc/xml/rfc9126.xml"]
          [] [] [].

(** A configuration file and an environment to run the script in: nothing is
    cached, every download succeeds, and xml2rfc fails on every file. *)
Definition sample_conf : list string :=
  [ "# specs to fetch" ++ String "010" "";
    "rfc 9126                 # Fetch RFC by number" ++ String "010" "";
    String "010" "";
    "bogus foo" ++ String "010" "";
    "url https://example.com/spec.xml name" ++ String "010" "" ].

Definition sample_env (args : list string) : Env :=
  mkEnv args "/opt/rfc" (fun p => p)
        (fun _ _ => Ok sample_conf)
        (fun _ _ _ => Retrieved)
        (fun _ => [])
        (fun _ _ _ => Fails "not well-formed")
        (fun _ _ _ => Ok None)
        (fun _ _ _ _ => Ok tt)
        (fun _ _ _ => Ok ("", true)).

(** *** The configuration reader, by fields *)

(** The entry the fields of a line stand for: [rfc] and [draft] read one
    field, [url] reads two, further fields are not looked at, and the
    keywords are compared as they are written. *)
Definition entry_of_fields (parts : list string) : option (string * string) :=
  match parts with
  | kind :: f1 :: rest =>
      if kind =? "rfc" then
        Some ("https://www.rfc-editor.org/rfc/rfc" ++ f1 ++ ".xml", "rfc" ++ f1)
      else if kind =? "draft" then
        Some ("https://www.ietf.org/archive/id/" ++ f1 ++ ".xml", f1)
      else if kind =? "url" then
        match rest with
        | f2 :: _ => Some (f1, f2)
        | [] => None
        end
      else None
  | _ => None
  end.

(** The text a warning shows: the line without its comment, stripped. *)
Definition shown_line (line : string) : string :=
  PyStr.strip (before "#" (PyStr.strip line)).

(** *** What a run leaves in place *)

(** [m] takes every world to a world related to it by [R], whether it
    returns or raises. *)
Definition frames (R : World -> World -> Prop) {A} (m : M A) : Prop :=
  forall w, R w (snd (m w)).

(** Nothing that existed is gone. *)
Definition fs_grows (w w' : World) : Prop :=
  forall p, path_exists p w = true -> path_exists p w' = true.

(** No call to [urlretrieve] was made. *)
Definition same_net (w w' : World) : Prop := net_calls w' = net_calls w.

(** The output was only appended to. *)
Definition stdout_grows (w w' : World) : Prop :=
  exists out, stdout w' = (stdout w ++ out)%list.

(** [l1] is [l2] with some elements left out. *)
Inductive subseq {A : Type} : list A -> list A -> Prop :=
| subseq_nil : subseq [] []
| subseq_skip (x : A) (l1 l2 : list A) : subseq l1 l2 -> subseq l1 (x :: l2)
| subseq_keep (x : A) (l1 l2 : list A) : subseq l1 l2 -> subseq (x :: l1) (x :: l2).

(** Where the fetch loop of [main] puts the XML of an entry. *)
Definition xml_target (xml_dir : string) (spec : string * string) : string :=
  OsPath.join xml_dir (snd spec ++ ".xml").

(** *** The converter, step by step *)

(** The lines [convert_file] prints for the standard error of [makeinfo]:
    the first five lines of the stripped text, indented, and the count of
    the others. *)
Definition warning_lines (stderr : string) : list string :=
  if PyStr.is_empty (PyStr.strip stderr) then []
  else
    let warnings := PyStr.split_on "010" (PyStr.strip stderr) in
    let more := "    ... and " ++ PyStr.of_nat (List.length warnings - 5)
                  ++ " more warnings" in
    (map (String.append "    ") (firstn 5 warnings)
     ++ (if (5 <? List.length warnings)%nat then [more] else []))%list.

(** The names [convert_file] derives from its arguments. *)
Definition stem_of (filepath : string) : string :=
  OsPath.splitext_root (OsPath.basename filepath).

Definition out_dir_of (filepath : string) (output_dir : option string) : string :=
  match output_dir with
  | None => OsPath.dirname filepath
  | Some d => d
  end.

Definition texi_path_of (filepath : string) (output_dir : option string) : string :=
  OsPath.join (out_dir_of filepath output_dir) (stem_of filepath ++ ".texi").

Definition info_path_of (filepath : string) (output_dir : option string) : string :=
  OsPath.join (out_dir_of filepath output_dir) (stem_of filepath ++ ".info").

(** An environment in which xml2rfc renders every file and [makeinfo]
    complains and produces nothing. *)
Definition stale_env : Env :=
  mkEnv ["rfc2texi.py"; "/opt/rfc/xml/rfc9126.xml"] "/opt/rfc" (fun p => p)
        (fun _ _ => Fails "No such file or directory")
        (fun _ _ _ => NetError "no network" false)
        (fun _ => [])
        (fun _ _ _ => Ok rar_root)
        (fun _ _ _ => Ok None)
        (fun _ _ _ _ => Ok tt)
        (fun _ _ _ => Ok ("rfc9126.texi:12: misplaced {" ++ String "010" "", false)).

Definition stale_world : World :=
  mkWorld ["/opt/rfc/xml/rfc9126.xml"; "/opt/rfc/rfc9126.info"] [] [] [].

(** The same for a document in the older vocabulary: xml2rfc parses a tree
    without preparation time, converts and prepares it, and the Info file of
    an earlier run is still there. *)
Definition oauth_prepared_root : Root :=
  mkRoot (Some "2024-01-01T00:00:00Z") None (Some "draft-ietf-oauth-v2-31")
         (Some ["The OAuth 2.0 Authorization Framework"]) [].

Definition stale_v2_env : Env :=
  mkEnv ["rfc2texi.py"; "/opt/rfc/xml/rfc6749.xml"] "/opt/rfc" (fun p => p)
        (fun _ _ => Fails "No such file or directory")
        (fun _ _ _ => NetError "no network" false)
        (fun _ => [])
        (fun _ _ _ => Ok oauth_draft_root)
        (fun _ _ _ => Ok (Some oauth_prepared_root))
        (fun _ _ _ _ => Ok tt)
        (fun _ _ _ => Ok ("", false)).

Definition stale_v2_world : World :=
  mkWorld ["/opt/rfc/xml/rfc6749.xml"; "/opt/rfc/rfc6749.info"] [] [] [].

(** *** Names in the index *)

(** Whether [old] occurs in [s]. *)
Fixpoint occurs_in (old s : string) : bool :=
  String.prefix old s
  || match s with
     | "" => false
     | String _ r => occurs_in old r
     end.

(** The entries of [l] whose identifier is [k], in the order of [l]. *)
Definition with_key (k : string) (l : list (string * string * string))
  : list (string * string * string) :=
  filter (fun e => entry_key e =? k) l.

(** An environment without network and without cache. *)
Definition offline_env : Env :=
  mkEnv ["rfc2texi.py"; "--sync"] "/opt/rfc" (fun p => p)
        (fun _ _ => Ok [ "rfc 9126"; "draft draft-ietf-oauth-v2-1-13" ])
        (fun _ _ _ => NetError "Temporary failure in name resolution" false)
        (fun _ => [])
        (fun _ _ _ => Ok rar_root)
        (fun _ _ _ => Ok None)
        (fun _ _ _ _ => Ok tt)
        (fun _ _ _ => Ok ("", true)).

Definition offline_world : World := mkWorld ["/opt/rfc/specs.conf"] [] [] [].

(** An entry none of whose parts holds a newline. *)
Definition one_line_entry (e : string * string * string) : bool :=
  let '(info_basename, doc_id, title) := e in
  negb (PyStr.contains "010" info_basename)
  && negb (PyStr.contains "010" doc_id)
  && negb (PyStr.contains "010" title).

(** *** Runs the counterexamples are read from *)

(** A specs.conf whose only line gives a URL with a fragment. *)
Definition hash_env : Env :=
  mkEnv ["rfc2texi.py"; "--sync"] "/opt/rfc" (fun p => p)
        (fun _ _ => Ok ["url https://example.com/spec.xml#section-2 name"])
        (fun _ _ _ => Retrieved)
        (fun _ => [])
        (fun _ _ _ => Fails "not well-formed")
        (fun _ _ _ => Ok None)
        (fun _ _ _ _ => Ok tt)
        (fun _ _ _ => Ok ("", true)).

(** rfc6749.xml holds the XML of draft-ietf-oauth-v2-31, in the older
    vocabulary; xml2rfc converts and prepares it and [makeinfo] compiles
    it. *)
Definition oauth_env : Env :=
  mkEnv ["rfc2texi.py"; "/opt/rfc/xml/rfc6749.xml"] "/opt/rfc" (fun p => p)
        (fun _ _ => Fails "No such file or directory")
        (fun _ _ _ => NetError "no network" false)
        (fun _ => [])
        (fun _ _ _ => Ok oauth_draft_root)
        (fun _ _ _ => Ok (Some oauth_prepared_root))
        (fun _ _ _ _ => Ok tt)
        (fun _ _ _ => Ok ("", true)).

Definition oauth_world : World := mkWorld ["/opt/rfc/xml/rfc6749.xml"] [] [] [].

(** A prepared document without number and without document name, in a file
    whose name holds .info before its extension. *)
Definition notes_root : Root :=
  mkRoot (Some "2024-01-01T00:00:00Z") None None (Some ["Notes"]) [].

Definition notes_env : Env :=
  mkEnv ["rfc2texi.py"; "/opt/rfc/xml/draft.informational.xml"] "/opt/rfc"
        (fun p => p)
        (fun _ _ => Fails "No such file or directory")
        (fun _ _ _ => NetError "no network" false)
        (fun _ => [])
        (fun _ _ _ => Ok notes_root)
        (fun _ _ _ => Ok None)
        (fun _ _ _ _ => Ok tt)
        (fun _ _ _ => Ok ("", true)).

Definition notes_world : World :=
  mkWorld ["/opt/rfc/xml/draft.informational.xml"] [] [] [].

(** * Properties *)

(** ** Strings *)

Lemma append_empty_r (s : string) : s ++ "" = s.
Proof. induction s as [|c s IH]; simpl; [reflexivity | now rewrite IH]. Qed.

Lemma is_empty_true (s : string) : PyStr.is_empty s = true -> s = "".
Proof. destruct s; simpl; [reflexivity | discriminate]. Qed.

Lemma hash_not_space (c : ascii) :
  PyStr.isspace c = true -> Ascii.eqb c "#" = false.
Proof.
  intros H. destruct (Ascii.eqb_spec c "#") as [->|]; [discriminate H | reflexivity].
Qed.

Lemma lstrip_spaces (ws s : string) :
  spaces ws = true -> PyStr.lstrip (ws ++ s) = PyStr.lstrip s.
Proof.
  unfold spaces. induction ws as [|c ws IH]; simpl; [reflexivity|].
  intros H. apply andb_prop in H as [Hc Hws]. rewrite Hc. now apply IH.
Qed.

Lemma lstrip_head (s : string) :
  PyStr.lstrip s = ""
  \/ exists c r, PyStr.lstrip s = String c r /\ PyStr.isspace c = false.
Proof.
  induction s as [|c s IH]; simpl; [now left|].
  destruct (PyStr.isspace c) eqn:Hc; [exact IH|].
  right. now exists c, s.
Qed.

Lemma rstrip_cons_nonspace (c : ascii) (s : string) :
  PyStr.isspace c = false -> exists r, PyStr.rstrip (String c s) = String c r.
Proof.
  intros Hc. simpl. destruct (PyStr.rstrip s) as [|d r].
  - rewrite Hc. now exists "".
  - now exists (String d r).
Qed.

Lemma rstrip_empty_spaces (s : string) :
  PyStr.rstrip s = "" -> spaces s = true.
Proof.
  unfold spaces. induction s as [|c s IH]; simpl; [reflexivity|].
  destruct (PyStr.rstrip s) as [|d r].
  - destruct (PyStr.isspace c); [intros _; now apply IH | discriminate].
  - discriminate.
Qed.

Lemma rstrip_starts (s : string) :
  PyStr.starts_nonspace (PyStr.rstrip s) = PyStr.starts_nonspace s.
Proof.
  destruct s as [|c s]; [reflexivity|].
  destruct (PyStr.isspace c) eqn:Hc.
  - simpl. destruct (PyStr.rstrip s); rewrite ?Hc; simpl; now rewrite ?Hc.
  - destruct (rstrip_cons_nonspace c s Hc) as [r ->]. reflexivity.
Qed.

Lemma strip_head (s : string) :
  PyStr.strip s = ""
  \/ exists c r, PyStr.strip s = String c r /\ PyStr.isspace c = false.
Proof.
  unfold PyStr.strip. destruct (lstrip_head s) as [->|(c & r & -> & Hc)].
  - now left.
  - right. destruct (rstrip_cons_nonspace c r Hc) as [r' ->]. now exists c, r'.
Qed.

(** *** [split] *)

Lemma split_spaces (ws s : string) :
  spaces ws = true -> PyStr.split (ws ++ s) = PyStr.split s.
Proof.
  unfold spaces. induction ws as [|c ws IH]; simpl; [reflexivity|].
  intros H. apply andb_prop in H as [Hc Hws]. rewrite Hc. now apply IH.
Qed.

Lemma split_only_spaces (ws : string) :
  spaces ws = true -> PyStr.split ws = [].
Proof.
  intros H. rewrite <- (append_empty_r ws). now rewrite split_spaces.
Qed.

Lemma split_word (t s : string) :
  is_word t = true -> PyStr.starts_nonspace s = false ->
  PyStr.split (t ++ s) = t :: PyStr.split s.
Proof.
  unfold is_word. destruct t as [|c t]; [discriminate|]. simpl negb. rewrite andb_true_l.
  revert c. induction t as [|d t IH]; intros c H Hs.
  - simpl in H. rewrite andb_true_r in H. apply negb_true_iff in H.
    simpl. now rewrite H, Hs.
  - cbn [PyStr.all] in H. apply andb_prop in H as [Hc Hd].
    apply negb_true_iff in Hc.
    specialize (IH d Hd Hs).
    change (String c (String d t) ++ s) with (String c (String d t ++ s)).
    cbn [PyStr.split]. rewrite Hc, IH.
    cbn [PyStr.all] in Hd. apply andb_prop in Hd as [Hd _].
    simpl. now rewrite Hd.
Qed.

Lemma split_cons_nonspace (c : ascii) (s : string) :
  PyStr.isspace c = false -> PyStr.split (String c s) <> [].
Proof.
  intros Hc. simpl. rewrite Hc.
  destruct (PyStr.starts_nonspace s); [destruct (PyStr.split s)|]; discriminate.
Qed.

Lemma split_lstrip (s : string) : PyStr.split (PyStr.lstrip s) = PyStr.split s.
Proof.
  induction s as [|c s IH]; [reflexivity|].
  simpl. destruct (PyStr.isspace c) eqn:Hc; [exact IH|].
  simpl. now rewrite Hc.
Qed.

Lemma split_rstrip (s : string) : PyStr.split (PyStr.rstrip s) = PyStr.split s.
Proof.
  induction s as [|c s IH]; [reflexivity|].
  pose proof (rstrip_starts s) as Hst.
  cbn [PyStr.rstrip]. destruct (PyStr.rstrip s) as [|d r] eqn:Hr.
  - pose proof (split_only_spaces s (rstrip_empty_spaces s Hr)) as Hs.
    destruct (PyStr.isspace c) eqn:Hc; simpl; rewrite Hc, ?Hs; [reflexivity|].
    simpl in Hst. now rewrite <- Hst.
  - remember (String d r) as x eqn:Hx. clear Hx Hr.
    cbn [PyStr.split]. now rewrite IH, Hst.
Qed.

Lemma split_strip (s : string) : PyStr.split (PyStr.strip s) = PyStr.split s.
Proof. unfold PyStr.strip. now rewrite split_rstrip, split_lstrip. Qed.

(** *** Comments *)

Lemma contains_find (c : ascii) (s : string) :
  PyStr.contains c s = match PyStr.find c s with Some _ => true | None => false end.
Proof.
  induction s as [|d s IH]; simpl; [reflexivity|].
  destruct (Ascii.eqb d c); simpl; [reflexivity|].
  rewrite IH. now destruct (PyStr.find c s).
Qed.

Lemma before_cons (c d : ascii) (s : string) :
  before c (String d s) = if Ascii.eqb d c then "" else String d (before c s).
Proof.
  unfold before. simpl. destruct (Ascii.eqb d c); [reflexivity|].
  now destruct (PyStr.find c s).
Qed.

Lemma before_append (c : ascii) (a b : string) :
  PyStr.contains c a = false -> before c (a ++ b) = a ++ before c b.
Proof.
  induction a as [|d a IH]; simpl; [reflexivity|].
  intros H. apply orb_false_elim in H as [Hd Ha].
  now rewrite before_cons, Hd, IH.
Qed.

Lemma before_lstrip (c : ascii) (s : string) :
  PyStr.isspace c = false ->
  before c (PyStr.lstrip s) = PyStr.lstrip (before c s).
Proof.
  intros Hc. induction s as [|d s IH]; [reflexivity|].
  rewrite before_cons. simpl PyStr.lstrip at 1.
  destruct (PyStr.isspace d) eqn:Hd.
  - destruct (Ascii.eqb_spec d c) as [->|_]; [congruence|].
    simpl. now rewrite Hd.
  - rewrite before_cons. destruct (Ascii.eqb d c); [reflexivity|].
    simpl. now rewrite Hd.
Qed.

Lemma find_rstrip (c : ascii) (s : string) :
  PyStr.isspace c = false -> PyStr.find c (PyStr.rstrip s) = PyStr.find c s.
Proof.
  intros Hc. induction s as [|d s IH]; [reflexivity|].
  cbn [PyStr.rstrip]. destruct (PyStr.rstrip s) as [|e r] eqn:Hr.
  - simpl in IH. destruct (PyStr.isspace d) eqn:Hd.
    + simpl. destruct (Ascii.eqb_spec d c) as [->|_]; [congruence|].
      now rewrite <- IH.
    + simpl. destruct (Ascii.eqb d c); [reflexivity|]. now rewrite <- IH.
  - remember (String e r) as x eqn:Hx. clear Hx Hr.
    simpl. now rewrite IH.
Qed.

Lemma take_rstrip (c : ascii) (s : string) (i : nat) :
  PyStr.isspace c = false -> PyStr.find c s = Some i ->
  PyStr.take i (PyStr.rstrip s) = PyStr.take i s.
Proof.
  intros Hc. revert i. induction s as [|d s IH]; intros i Hf; [discriminate|].
  simpl in Hf. destruct (Ascii.eqb d c) eqn:Hd.
  - injection Hf as <-. now destruct (PyStr.rstrip (String d s)).
  - destruct (PyStr.find c s) as [j|] eqn:Hj; [|discriminate].
    injection Hf as <-.
    pose proof (find_rstrip c s Hc) as Hfr. rewrite Hj in Hfr.
    cbn [PyStr.rstrip]. destruct (PyStr.rstrip s) as [|e r] eqn:Hr;
      [discriminate|].
    simpl. f_equal. rewrite <- Hr in *. now apply IH.
Qed.

Lemma split_before_rstrip (c : ascii) (s : string) :
  PyStr.isspace c = false ->
  PyStr.split (before c (PyStr.rstrip s)) = PyStr.split (before c s).
Proof.
  intros Hc. unfold before. rewrite (find_rstrip c s Hc).
  destruct (PyStr.find c s) as [i|] eqn:Hf.
  - now rewrite (take_rstrip c s i Hc Hf).
  - apply split_rstrip.
Qed.

Lemma hash_isspace : PyStr.isspace "#" = false.
Proof. reflexivity. Qed.

(** The comment is removed without an exception, and the words of what is
    left are those of the text before the hash sign. *)
Lemma strip_inline_comment_split (l : string) :
  exists l1, strip_inline_comment l = Return l1
             /\ PyStr.split l1 = PyStr.split (before "#" l).
Proof.
  unfold strip_inline_comment, str_index, before.
  rewrite contains_find. destruct (PyStr.find "#" l) as [i|]; simpl.
  - eexists. split; [reflexivity | apply split_strip].
  - now exists l.
Qed.

Lemma fields_of_strip (line : string) :
  PyStr.split (before "#" (PyStr.strip line)) = fields_of line.
Proof.
  unfold fields_of, PyStr.strip.
  rewrite (split_before_rstrip _ _ hash_isspace).
  rewrite (before_lstrip _ _ hash_isspace). apply split_lstrip.
Qed.

Lemma prefix_hash (c : ascii) (r : string) :
  PyStr.startswith "#" (String c r) = Ascii.eqb c "#".
Proof.
  unfold PyStr.startswith. cbn [String.prefix].
  destruct (ascii_dec "#" c) as [<-|Hn].
  - rewrite Ascii.eqb_refl. now destruct r.
  - symmetry. apply Ascii.eqb_neq. congruence.
Qed.

(** A line that is not skipped starts, once stripped, with a character that
    is neither whitespace nor a hash sign. *)
Lemma not_skipped_head (line : string) :
  skipped (PyStr.strip line) = false ->
  exists c r, PyStr.strip line = String c r
              /\ PyStr.isspace c = false /\ Ascii.eqb c "#" = false.
Proof.
  intros H. destruct (strip_head line) as [E|(c & r & E & Hc)];
    rewrite E in H; [discriminate|].
  exists c, r. unfold skipped in H. cbn [PyStr.is_empty orb] in H.
  rewrite prefix_hash in H. now rewrite E.
Qed.

Lemma strip_inline_comment_head (c : ascii) (r : string) :
  PyStr.isspace c = false -> Ascii.eqb c "#" = false ->
  exists y, strip_inline_comment (String c r) = Return (String c y).
Proof.
  intros Hc Hh. unfold strip_inline_comment, str_index.
  rewrite contains_find. cbn [PyStr.find]. rewrite Hh.
  destruct (PyStr.find "#" r) as [j|]; cbn [exc_bind].
  - unfold PyStr.strip. cbn [PyStr.take PyStr.lstrip]. rewrite Hc.
    destruct (rstrip_cons_nonspace c (PyStr.take j r) Hc) as [y ->].
    now exists y.
  - now exists r.
Qed.

(** What the body of the loop does with a line it does not skip. *)
Lemma parse_specs_line_fields (line : string) :
  skipped (PyStr.strip line) = false ->
  exists l1,
    strip_inline_comment (PyStr.strip line) = Return l1
    /\ l1 <> "" /\ PyStr.split l1 = fields_of line /\ fields_of line <> []
    /\ forall specs w,
         parse_specs_line specs line w = parse_fields specs l1 (fields_of line) w.
Proof.
  intros H. destruct (not_skipped_head line H) as (c & r & E & Hc & Hh).
  destruct (strip_inline_comment_head c r Hc Hh) as [y Hy].
  destruct (strip_inline_comment_split (PyStr.strip line)) as (l1 & E1 & E2).
  rewrite fields_of_strip in E2.
  assert (l1 = String c y) as Hl1 by (rewrite E, Hy in E1; congruence).
  exists l1. repeat split; trivial.
  - rewrite Hl1. discriminate.
  - rewrite <- E2, Hl1. now apply split_cons_nonspace.
  - intros specs w. unfold parse_specs_line. rewrite H.
    unfold bind at 1, lift. rewrite E1, E2. reflexivity.
Qed.

Lemma parse_specs_line_skipped (line : string) specs w :
  skipped (PyStr.strip line) = true ->
  parse_specs_line specs line w = (Return specs, w).
Proof. intros H. unfold parse_specs_line. now rewrite H. Qed.

(** *** The dispatch on the fields *)

Lemma format_RFC_URL (num : string) :
  format RFC_URL "number" num
  = Return ("https://www.rfc-editor.org/rfc/rfc" ++ num ++ ".xml").
Proof. reflexivity. Qed.

Lemma format_DRAFT_URL (name : string) :
  format DRAFT_URL "name" name
  = Return ("https://www.ietf.org/archive/id/" ++ name ++ ".xml").
Proof. reflexivity. Qed.

Ltac run_fields :=
  unfold parse_fields, bind, lift, ret, print, getitem;
  cbn [nth_error List.length Nat.leb andb].

Lemma parse_fields_rfc l num rest specs w :
  parse_fields specs l ("rfc" :: num :: rest) w
  = (Return (specs ++ [(("https://www.rfc-editor.org/rfc/rfc" ++ num ++ ".xml")%string,
                        ("rfc" ++ num)%string)])%list, w).
Proof. run_fields. reflexivity. Qed.

Lemma parse_fields_draft l name rest specs w :
  parse_fields specs l ("draft" :: name :: rest) w
  = (Return (specs ++ [(("https://www.ietf.org/archive/id/" ++ name ++ ".xml")%string,
                        name)])%list, w).
Proof. run_fields. reflexivity. Qed.

Lemma parse_fields_url l url name rest specs w :
  parse_fields specs l ("url" :: url :: name :: rest) w
  = (Return (specs ++ [(url, name)])%list, w).
Proof. run_fields. reflexivity. Qed.

Lemma parse_fields_unrecognized l parts specs w :
  parts <> [] -> recognized_fields parts = false ->
  parse_fields specs l parts w = (Return specs, w_print (warning_for l) w).
Proof.
  intros Hne Hr. destruct parts as [|kw [|a rest]]; [congruence | |].
  - run_fields. rewrite !andb_false_r. reflexivity.
  - cbn [recognized_fields] in Hr.
    apply orb_false_elim in Hr as [Hr Hu].
    apply orb_false_elim in Hr as [Hr Hd].
    run_fields. rewrite Hr, Hd. cbn [andb].
    destruct rest as [|b rest].
    + rewrite andb_false_r. reflexivity.
    + cbn [is_nil negb] in Hu. rewrite andb_true_r in Hu. rewrite Hu. reflexivity.
Qed.

(** The dispatch never raises: it appends one entry and prints nothing, or
    it prints one warning and appends nothing. *)
Lemma parse_fields_cases l parts :
  parts <> [] ->
  (recognized_fields parts = true
   /\ exists e, forall specs w,
        parse_fields specs l parts w = (Return (specs ++ [e])%list, w))
  \/ (recognized_fields parts = false
      /\ forall specs w,
        parse_fields specs l parts w = (Return specs, w_print (warning_for l) w)).
Proof.
  intros Hne. destruct (recognized_fields parts) eqn:Hr.
  - left. split; [reflexivity|].
    destruct parts as [|kw [|a rest]]; try discriminate.
    cbn [recognized_fields] in Hr.
    destruct (String.eqb_spec kw "rfc") as [->|Hk1].
    { eexists. intros. apply parse_fields_rfc. }
    destruct (String.eqb_spec kw "draft") as [->|Hk2].
    { eexists. intros. apply parse_fields_draft. }
    cbn [orb] in Hr. apply andb_prop in Hr as [Hu Hn].
    apply String.eqb_eq in Hu as ->.
    destruct rest as [|b rest]; [discriminate|].
    eexists. intros. apply parse_fields_url.
  - right. split; [reflexivity|]. intros. now apply parse_fields_unrecognized.
Qed.

(** ** The configuration reader *)

Lemma w_prints_app a b w : w_prints (a ++ b) w = w_prints b (w_prints a w).
Proof. unfold w_prints. apply fold_left_app. Qed.

(** The body of the loop only appends to the list of entries and to the
    output, and never raises. *)
Lemma parse_specs_line_frame (line : string) specs w :
  parse_specs_line specs line w
  = (Return (specs ++ line_entries line)%list, w_prints (line_warnings line) w).
Proof.
  unfold line_entries, line_warnings.
  destruct (skipped (PyStr.strip line)) eqn:Hs.
  - rewrite !parse_specs_line_skipped by assumption. simpl.
    now rewrite app_nil_r.
  - destruct (parse_specs_line_fields line Hs) as (l1 & _ & _ & _ & Hne & Hrun).
    rewrite !Hrun.
    destruct (parse_fields_cases l1 (fields_of line) Hne)
      as [(_ & e & He)|(_ & Hw)].
    + rewrite !He. reflexivity.
    + rewrite !Hw. simpl. now rewrite app_nil_r.
Qed.

Lemma parse_specs_loop (lines : list string) specs w :
  for_each parse_specs_line lines specs w
  = (Return (specs ++ flat_map line_entries lines)%list,
     w_prints (flat_map line_warnings lines) w).
Proof.
  revert specs w. induction lines as [|line lines IH]; intros specs w.
  - simpl. now rewrite app_nil_r.
  - cbn [for_each flat_map]. unfold bind at 1.
    rewrite parse_specs_line_frame, IH, w_prints_app, app_assoc. reflexivity.
Qed.

(** *** Lines of a recognized shape *)

Lemma spaces_no_hash (ws : string) :
  spaces ws = true -> PyStr.contains "#" ws = false.
Proof.
  unfold spaces. induction ws as [|c ws IH]; simpl; [reflexivity|].
  intros H. apply andb_prop in H as [Hc Hws].
  now rewrite (hash_not_space c Hc), IH.
Qed.

Lemma field_chars_no_hash (f : string) :
  PyStr.all field_char f = true -> PyStr.contains "#" f = false.
Proof.
  induction f as [|c f IH]; simpl; [reflexivity|].
  intros H. apply andb_prop in H as [Hc Hf]. unfold field_char in Hc.
  apply andb_prop in Hc as [_ Hc]. apply negb_true_iff in Hc.
  now rewrite Hc, IH.
Qed.

Lemma field_chars_word (f : string) :
  PyStr.all field_char f = true ->
  PyStr.all (fun c => negb (PyStr.isspace c)) f = true.
Proof.
  induction f as [|c f IH]; simpl; [reflexivity|].
  intros H. apply andb_prop in H as [Hc Hf]. unfold field_char in Hc.
  apply andb_prop in Hc as [Hc _]. now rewrite Hc, IH.
Qed.

Lemma is_field_word (f : string) : is_field f = true -> is_word f = true.
Proof.
  unfold is_field, is_word. intros H. apply andb_prop in H as [-> H].
  now rewrite field_chars_word.
Qed.

Lemma fields_of_lead (lead s : string) :
  spaces lead = true -> fields_of (lead ++ s) = fields_of s.
Proof.
  intros H. unfold fields_of.
  rewrite before_append by now apply spaces_no_hash.
  now apply split_spaces.
Qed.

Lemma field_end_before (rest : string) :
  field_end rest = true -> PyStr.starts_nonspace (before "#" rest) = false.
Proof.
  destruct rest as [|c r]; [reflexivity|]. simpl field_end.
  rewrite before_cons. intros H.
  destruct (Ascii.eqb c "#"); [reflexivity|].
  rewrite orb_false_r in H. simpl. now rewrite H.
Qed.

Lemma fields_of_field (f rest : string) :
  is_field f = true -> field_end rest = true ->
  fields_of (f ++ rest) = f :: fields_of rest.
Proof.
  intros Hf Hr. unfold fields_of.
  rewrite before_append.
  - apply split_word; [now apply is_field_word | now apply field_end_before].
  - unfold is_field in Hf. apply andb_prop in Hf as [_ Hf].
    now apply field_chars_no_hash.
Qed.

Lemma field_end_sep (sep s : string) :
  PyStr.is_empty sep = false -> spaces sep = true -> field_end (sep ++ s) = true.
Proof.
  unfold spaces. destruct sep as [|c sep]; [discriminate|]. simpl.
  intros _ H. apply andb_prop in H as [-> _]. reflexivity.
Qed.

Lemma field_end_trailer (t : string) : is_trailer t = true -> field_end t = true.
Proof.
  unfold is_trailer, skipped. destruct t as [|c t]; [reflexivity|].
  simpl PyStr.lstrip. simpl field_end.
  destruct (PyStr.isspace c); [reflexivity|].
  cbn [PyStr.is_empty orb]. now rewrite prefix_hash.
Qed.

Lemma fields_of_trailer (t : string) : is_trailer t = true -> fields_of t = [].
Proof.
  unfold is_trailer, skipped, fields_of.
  induction t as [|c t IH]; [reflexivity|].
  simpl PyStr.lstrip. rewrite before_cons.
  destruct (PyStr.isspace c) eqn:Hc.
  - intros H. rewrite (hash_not_space c Hc). simpl. rewrite Hc. now apply IH.
  - cbn [PyStr.is_empty orb]. rewrite prefix_hash. now intros ->.
Qed.

(** A line that starts, after whitespace, with a field is not skipped. *)
Lemma field_not_skipped (lead f rest : string) :
  spaces lead = true -> is_field f = true ->
  skipped (PyStr.strip (lead ++ f ++ rest)) = false.
Proof.
  intros Hl Hf. unfold PyStr.strip. rewrite lstrip_spaces by assumption.
  unfold is_field in Hf. destruct f as [|c f]; [discriminate|].
  cbn [PyStr.is_empty negb andb PyStr.all] in Hf.
  apply andb_prop in Hf as [Hc _]. unfold field_char in Hc.
  apply andb_prop in Hc as [Hs Hh].
  apply negb_true_iff in Hs. apply negb_true_iff in Hh.
  change (String c f ++ rest) with (String c (f ++ rest)).
  cbn [PyStr.lstrip]. rewrite Hs.
  destruct (rstrip_cons_nonspace c (f ++ rest) Hs) as [y ->].
  unfold skipped. cbn [PyStr.is_empty orb]. now rewrite prefix_hash.
Qed.

(** A line made of a keyword and one field. *)
Lemma line_two_fields (lead kw sep f trail : string) :
  spaces lead = true -> is_field kw = true ->
  PyStr.is_empty sep = false -> spaces sep = true ->
  is_field f = true -> is_trailer trail = true ->
  let line := lead ++ kw ++ sep ++ f ++ trail in
  skipped (PyStr.strip line) = false /\ fields_of line = [kw; f].
Proof.
  intros Hl Hk Hne Hs Hf Ht line. split.
  - now apply field_not_skipped.
  - unfold line. rewrite fields_of_lead by assumption.
    rewrite fields_of_field by (trivial; now apply field_end_sep).
    rewrite fields_of_lead by assumption.
    rewrite fields_of_field by (trivial; now apply field_end_trailer).
    now rewrite fields_of_trailer.
Qed.

(** A line made of a keyword and two fields. *)
Lemma line_three_fields (lead kw sep1 f1 sep2 f2 trail : string) :
  spaces lead = true -> is_field kw = true ->
  PyStr.is_empty sep1 = false -> spaces sep1 = true -> is_field f1 = true ->
  PyStr.is_empty sep2 = false -> spaces sep2 = true -> is_field f2 = true ->
  is_trailer trail = true ->
  let line := lead ++ kw ++ sep1 ++ f1 ++ sep2 ++ f2 ++ trail in
  skipped (PyStr.strip line) = false /\ fields_of line = [kw; f1; f2].
Proof.
  intros Hl Hk Hne1 Hs1 Hf1 Hne2 Hs2 Hf2 Ht line. split.
  - now apply field_not_skipped.
  - unfold line. rewrite fields_of_lead by assumption.
    rewrite fields_of_field by (trivial; now apply field_end_sep).
    rewrite fields_of_lead by assumption.
    rewrite fields_of_field by (trivial; now apply field_end_sep).
    rewrite fields_of_lead by assumption.
    rewrite fields_of_field by (trivial; now apply field_end_trailer).
    now rewrite fields_of_trailer.
Qed.

(** *** The claims on the configuration reader *)

(** C10. [parse_specs_conf] returns a list for every sequence of lines the
    file holds and never raises.  The reason is the one given: a line that
    is not skipped is, once stripped and without its inline comment, a
    non-empty text whose list of words is not empty, so that [parts[0]]
    exists. *)
Theorem parse_specs_conf_total (env : Env) (conf_path : string)
        (lines : list string) (w : World) :
  open_lines env w conf_path = Ok lines ->
  (exists specs w', parse_specs_conf env conf_path w = (Return specs, w'))
  /\ (forall line,
        skipped (PyStr.strip line) = false ->
        exists l1 kind,
          strip_inline_comment (PyStr.strip line) = Return l1
          /\ l1 <> ""
          /\ PyStr.split l1 <> []
          /\ getitem (PyStr.split l1) 0 = Return kind).
Proof.
  intros Hopen. split.
  - unfold parse_specs_conf, bind at 1. rewrite Hopen. cbn [of_outcome].
    rewrite parse_specs_loop. eauto.
  - intros line Hs.
    destruct (parse_specs_line_fields line Hs) as (l1 & E & Hne & Hsp & Hf & _).
    rewrite <- Hsp in Hf.
    destruct (PyStr.split l1) as [|kind rest] eqn:Hparts; [congruence|].
    exists l1, kind.
    split; [exact E|]. split; [exact Hne|]. rewrite Hparts.
    split; [discriminate | reflexivity].
Qed.

Lemma parse_specs_conf_total_witness :
  open_lines (sample_env []) empty_world "/opt/rfc/specs.conf"
  = Ok sample_conf
  /\ exists specs w',
      parse_specs_conf (sample_env []) "/opt/rfc/specs.conf" empty_world
      = (Return specs, w').
Proof.
  split; [reflexivity|].
  exact (proj1 (parse_specs_conf_total (sample_env []) "/opt/rfc/specs.conf"
                  sample_conf empty_world eq_refl)).
Defined.

(** C4. A line that is empty or a comment once stripped gives no entry and
    no warning.  A line that is neither, and whose fields do not have one of
    the three recognized shapes ([rfc] or [draft] with a field, [url] with
    two fields), gives no entry and exactly one warning.  The parse goes on
    after such a line: the entries and the warnings of a file are those of
    its lines, in order. *)
Theorem parse_specs_conf_malformed (line : string) :
  (skipped (PyStr.strip line) = true ->
   line_entries line = [] /\ line_warnings line = [])
  /\ (skipped (PyStr.strip line) = false -> recognized_shape line = false ->
      line_entries line = []
      /\ exists l1, line_warnings line = [warning_for l1])
  /\ (forall env conf_path lines w,
        open_lines env w conf_path = Ok lines ->
        parse_specs_conf env conf_path w
        = (Return (flat_map line_entries lines),
           w_prints (flat_map line_warnings lines) w)).
Proof.
  split; [|split].
  - intros Hs. unfold line_entries, line_warnings.
    rewrite parse_specs_line_skipped by assumption. now split.
  - intros Hs Hr. unfold line_entries, line_warnings.
    destruct (parse_specs_line_fields line Hs) as (l1 & _ & _ & _ & Hne & Hrun).
    rewrite Hrun, parse_fields_unrecognized by assumption.
    split; [reflexivity | now exists l1].
  - intros env conf_path lines w Hopen.
    unfold parse_specs_conf, bind at 1. rewrite Hopen. cbn [of_outcome].
    now rewrite parse_specs_loop.
Qed.

Lemma parse_specs_conf_malformed_witness :
  (line_entries "bogus foo" = []
   /\ exists l1, line_warnings "bogus foo" = [warning_for l1])
  /\ (line_entries "rfc   # 9126" = []
      /\ exists l1, line_warnings "rfc   # 9126" = [warning_for l1])
  /\ (line_entries "   # rfc 9126" = [] /\ line_warnings "   # rfc 9126" = [])
  /\ parse_specs_conf (sample_env []) "/opt/rfc/specs.conf" empty_world
     = (Return (flat_map line_entries sample_conf),
        w_prints (flat_map line_warnings sample_conf) empty_world).
Proof.
  split; [|split; [|split]].
  - exact (proj1 (proj2 (parse_specs_conf_malformed "bogus foo"))
             eq_refl eq_refl).
  - exact (proj1 (proj2 (parse_specs_conf_malformed "rfc   # 9126"))
             eq_refl eq_refl).
  - exact (proj1 (parse_specs_conf_malformed "   # rfc 9126") eq_refl).
  - exact (proj2 (proj2 (parse_specs_conf_malformed "bogus foo"))
             (sample_env []) "/opt/rfc/specs.conf" sample_conf empty_world
             eq_refl).
Defined.

(** What [parse_specs_conf] returns for a file, around one of its lines. *)
Lemma parse_specs_conf_at env conf_path (pre post : list string) (line : string) w :
  open_lines env w conf_path = Ok (pre ++ line :: post)%list ->
  parse_specs_conf env conf_path w
  = (Return (flat_map line_entries pre ++ line_entries line
               ++ flat_map line_entries post)%list,
     w_prints (flat_map line_warnings pre ++ line_warnings line
                 ++ flat_map line_warnings post)%list w).
Proof.
  intros Ho. unfold parse_specs_conf, bind at 1. rewrite Ho. cbn [of_outcome].
  rewrite parse_specs_loop, !flat_map_app. reflexivity.
Qed.

Lemma line_with_entry (line : string) (e : string * string) :
  parse_specs_line [] line empty_world = (Return [e], empty_world) ->
  line_entries line = [e] /\ line_warnings line = [].
Proof.
  intros H. unfold line_entries, line_warnings. rewrite H. now split.
Qed.

(** C9. A line [rfc <number>] gives exactly one entry: its URL is
    https://www.rfc-editor.org/rfc/rfc<number>.xml and its output name is
    rfc<number>.  A line [draft <name>] gives exactly one entry whose URL is
    https://www.ietf.org/archive/id/<name>.xml.  The number and the name are
    fields; whitespace may precede the keyword, any amount of whitespace
    separates the two, and whitespace and a comment may follow.  This is so
    for the body of the loop, and for [parse_specs_conf] on every file that
    holds such a line: the list returned has that entry, and no other, between
    the entries of the lines before it and those of the lines after it, and
    the line prints nothing. *)
Theorem parse_specs_conf_rfc_draft (lead sep f trail : string)
        (specs : list (string * string)) (w : World) :
  spaces lead = true ->
  PyStr.is_empty sep = false -> spaces sep = true ->
  is_field f = true ->
  is_trailer trail = true ->
  parse_specs_line specs (lead ++ "rfc" ++ sep ++ f ++ trail) w
  = (Return (specs ++ [(("https://www.rfc-editor.org/rfc/rfc" ++ f ++ ".xml")%string,
                        ("rfc" ++ f)%string)])%list, w)
  /\ parse_specs_line specs (lead ++ "draft" ++ sep ++ f ++ trail) w
     = (Return (specs ++ [(("https://www.ietf.org/archive/id/" ++ f ++ ".xml")%string,
                           f)])%list, w)
  /\ format RFC_URL "number" f
     = Return ("https://www.rfc-editor.org/rfc/rfc" ++ f ++ ".xml")
  /\ format DRAFT_URL "name" f
     = Return ("https://www.ietf.org/archive/id/" ++ f ++ ".xml")
  /\ (forall env conf_path pre post w0,
        open_lines env w0 conf_path
        = Ok (pre ++ (lead ++ "rfc" ++ sep ++ f ++ trail)%string :: post)%list ->
        parse_specs_conf env conf_path w0
        = (Return (flat_map line_entries pre
                     ++ [(("https://www.rfc-editor.org/rfc/rfc" ++ f ++ ".xml")%string,
                          ("rfc" ++ f)%string)]
                     ++ flat_map line_entries post)%list,
           w_prints (flat_map line_warnings pre
                       ++ flat_map line_warnings post)%list w0))
  /\ (forall env conf_path pre post w0,
        open_lines env w0 conf_path
        = Ok (pre ++ (lead ++ "draft" ++ sep ++ f ++ trail)%string :: post)%list ->
        parse_specs_conf env conf_path w0
        = (Return (flat_map line_entries pre
                     ++ [(("https://www.ietf.org/archive/id/" ++ f ++ ".xml")%string,
                          f)]
                     ++ flat_map line_entries post)%list,
           w_prints (flat_map line_warnings pre
                       ++ flat_map line_warnings post)%list w0)).
Proof.
  intros Hl Hne Hs Hf Ht.
  assert (forall specs w,
            parse_specs_line specs (lead ++ "rfc" ++ sep ++ f ++ trail) w
            = (Return (specs ++ [(("https://www.rfc-editor.org/rfc/rfc" ++ f ++ ".xml")%string,
                                  ("rfc" ++ f)%string)])%list, w)) as Hrfc.
  { intros specs' w'.
    destruct (line_two_fields lead "rfc" sep f trail) as [Hk Hp]; trivial.
    destruct (parse_specs_line_fields _ Hk) as (l1 & _ & _ & _ & _ & Hrun).
    rewrite Hrun, Hp. apply parse_fields_rfc. }
  assert (forall specs w,
            parse_specs_line specs (lead ++ "draft" ++ sep ++ f ++ trail) w
            = (Return (specs ++ [(("https://www.ietf.org/archive/id/" ++ f ++ ".xml")%string,
                                  f)])%list, w)) as Hdraft.
  { intros specs' w'.
    destruct (line_two_fields lead "draft" sep f trail) as [Hk Hp]; trivial.
    destruct (parse_specs_line_fields _ Hk) as (l1 & _ & _ & _ & _ & Hrun).
    rewrite Hrun, Hp. apply parse_fields_draft. }
  split; [apply Hrfc|]. split; [apply Hdraft|].
  split; [reflexivity|]. split; [reflexivity|]. split.
  - intros env conf_path pre post w0 Ho.
    rewrite (parse_specs_conf_at env conf_path pre post _ w0 Ho).
    destruct (line_with_entry _ _ (Hrfc [] empty_world)) as [-> ->].
    reflexivity.
  - intros env conf_path pre post w0 Ho.
    rewrite (parse_specs_conf_at env conf_path pre post _ w0 Ho).
    destruct (line_with_entry _ _ (Hdraft [] empty_world)) as [-> ->].
    reflexivity.
Qed.

Lemma parse_specs_conf_rfc_draft_witness :
  parse_specs_line []
    ("rfc 9126" ++ "                                  # Fetch RFC by number")
    empty_world
  = (Return [("https://www.rfc-editor.org/rfc/rfc9126.xml", "rfc9126")],
     empty_world)
  /\ parse_specs_line []
       ("draft draft-ietf-oauth-browser-based-apps-26" ++ "  # Fetch IETF draft")
       empty_world
     = (Return [("https://www.ietf.org/archive/id/draft-ietf-oauth-browser-based-apps-26.xml",
                 "draft-ietf-oauth-browser-based-apps-26")],
        empty_world)
  /\ fst (parse_specs_conf (sample_env []) "/opt/rfc/specs.conf" empty_world)
     = Return [("https://www.rfc-editor.org/rfc/rfc9126.xml", "rfc9126");
               ("https://example.com/spec.xml", "name")]
  /\ fst (parse_specs_conf offline_env "/opt/rfc/specs.conf" offline_world)
     = Return [("https://www.rfc-editor.org/rfc/rfc9126.xml", "rfc9126");
               ("https://www.ietf.org/archive/id/draft-ietf-oauth-v2-1-13.xml",
                "draft-ietf-oauth-v2-1-13")].
Proof.
  split; [|split; [|split]].
  - exact (proj1 (parse_specs_conf_rfc_draft "" " " "9126"
                    "                                  # Fetch RFC by number"
                    [] empty_world eq_refl eq_refl eq_refl eq_refl eq_refl)).
  - exact (proj1 (proj2 (parse_specs_conf_rfc_draft "" " "
                           "draft-ietf-oauth-browser-based-apps-26"
                           "  # Fetch IETF draft"
                           [] empty_world eq_refl eq_refl eq_refl eq_refl eq_refl))).
  - exact (f_equal fst
             (proj1 (proj2 (proj2 (proj2 (proj2
                (parse_specs_conf_rfc_draft "" " " "9126"
                   ("                 # Fetch RFC by number" ++ String "010" "")
                   [] empty_world eq_refl eq_refl eq_refl eq_refl eq_refl)))))
                (sample_env []) "/opt/rfc/specs.conf"
                ["# specs to fetch" ++ String "010" ""]
                [String "010" ""; "bogus foo" ++ String "010" "";
                 "url https://example.com/spec.xml name" ++ String "010" ""]
                empty_world eq_refl)).
  - exact (f_equal fst
             (proj2 (proj2 (proj2 (proj2 (proj2
                (parse_specs_conf_rfc_draft "" " " "draft-ietf-oauth-v2-1-13" ""
                   [] empty_world eq_refl eq_refl eq_refl eq_refl eq_refl)))))
                offline_env "/opt/rfc/specs.conf" ["rfc 9126"] []
                offline_world eq_refl)).
Defined.

(** C3, as the configuration reader has it.  A line [url <url> <name>] whose
    URL and name are fields, that is, hold no hash sign, gives exactly the
    entry [(url, name)], both unchanged: in the body of the loop, and in the
    list [parse_specs_conf] returns for every file that holds such a line,
    where the entry stands between those of the lines before it and those of
    the lines after it, and the line prints nothing. *)
Theorem parse_specs_conf_url (lead sep1 url sep2 name trail : string)
        (specs : list (string * string)) (w : World) :
  spaces lead = true ->
  PyStr.is_empty sep1 = false -> spaces sep1 = true ->
  is_field url = true ->
  PyStr.is_empty sep2 = false -> spaces sep2 = true ->
  is_field name = true ->
  is_trailer trail = true ->
  parse_specs_line specs (lead ++ "url" ++ sep1 ++ url ++ sep2 ++ name ++ trail) w
  = (Return (specs ++ [(url, name)])%list, w)
  /\ (forall env conf_path pre post w0,
        open_lines env w0 conf_path
        = Ok (pre ++ (lead ++ "url" ++ sep1 ++ url ++ sep2 ++ name ++ trail)%string
                  :: post)%list ->
        parse_specs_conf env conf_path w0
        = (Return (flat_map line_entries pre ++ [(url, name)]
                     ++ flat_map line_entries post)%list,
           w_prints (flat_map line_warnings pre
                       ++ flat_map line_warnings post)%list w0)).
Proof.
  intros Hl Hn1 Hs1 Hu Hn2 Hs2 Hn Ht.
  assert (forall specs w,
            parse_specs_line specs
              (lead ++ "url" ++ sep1 ++ url ++ sep2 ++ name ++ trail) w
            = (Return (specs ++ [(url, name)])%list, w)) as Hurl.
  { intros specs' w'.
    destruct (line_three_fields lead "url" sep1 url sep2 name trail)
      as [Hk Hp]; trivial.
    destruct (parse_specs_line_fields _ Hk) as (l1 & _ & _ & _ & _ & Hrun).
    rewrite Hrun, Hp. apply parse_fields_url. }
  split; [apply Hurl|].
  intros env conf_path pre post w0 Ho.
  rewrite (parse_specs_conf_at env conf_path pre post _ w0 Ho).
  destruct (line_with_entry _ _ (Hurl [] empty_world)) as [-> ->].
  reflexivity.
Qed.

Lemma parse_specs_conf_url_witness :
  parse_specs_line []
    ("url https://example.com/spec.xml name" ++ "     # Fetch from arbitrary URL")
    empty_world
  = (Return [("https://example.com/spec.xml", "name")], empty_world)
  /\ fst (parse_specs_conf (sample_env []) "/opt/rfc/specs.conf" empty_world)
     = Return [("https://www.rfc-editor.org/rfc/rfc9126.xml", "rfc9126");
               ("https://example.com/spec.xml", "name")].
Proof.
  split.
  - exact (proj1 (parse_specs_conf_url "" " " "https://example.com/spec.xml" " "
                    "name" "     # Fetch from arbitrary URL" [] empty_world
                    eq_refl eq_refl eq_refl eq_refl eq_refl eq_refl eq_refl eq_refl)).
  - exact (f_equal fst
             (proj2 (parse_specs_conf_url "" " " "https://example.com/spec.xml" " "
                       "name" (String "010" "") [] empty_world
                       eq_refl eq_refl eq_refl eq_refl eq_refl eq_refl eq_refl eq_refl)
                (sample_env []) "/opt/rfc/specs.conf"
                ["# specs to fetch" ++ String "010" "";
                 "rfc 9126                 # Fetch RFC by number" ++ String "010" "";
                 String "010" ""; "bogus foo" ++ String "010" ""]
                [] empty_world eq_refl)).
Defined.

(** C3, as stated, fails: the text from the first hash sign on is a comment,
    also inside a URL.  The line below gives a warning and no entry, in the
    body of the loop and in [parse_specs_conf] on a file made of it. *)
Lemma parse_specs_conf_url_hash :
  let url := "https://example.com/spec.xml#section-2" in
  let line := "url " ++ url ++ " name" in
  parse_specs_line [] line empty_world
  = (Return [],
     w_print (warning_for "url https://example.com/spec.xml") empty_world)
  /\ fst (parse_specs_line [] line empty_world) <> Return [(url, "name")]
  /\ open_lines hash_env empty_world "/opt/rfc/specs.conf" = Ok [line]
  /\ parse_specs_conf hash_env "/opt/rfc/specs.conf" empty_world
     = (Return [],
        w_print (warning_for "url https://example.com/spec.xml") empty_world)
  /\ fst (parse_specs_conf hash_env "/opt/rfc/specs.conf" empty_world)
     <> Return [(url, "name")].
Proof.
  split; [reflexivity|]. split; [discriminate|]. split; [reflexivity|].
  split; [reflexivity | discriminate].
Qed.

(** ** The identifier of a document *)

Lemma series_info_loop_value (sis : list SeriesInfo) (rfc_num doc_id : string) :
  series_info_loop sis rfc_num doc_id
  = match series_rfc_value sis with
    | Some v => (v, "RFC " ++ v)
    | None => (rfc_num, doc_id)
    end.
Proof.
  induction sis as [|si sis IH]; simpl; [reflexivity|].
  destruct (si_name si) as [n|]; [|exact IH].
  destruct (n =? "RFC"); [reflexivity | exact IH].
Qed.

Lemma take_digits_all (d : string) :
  PyStr.all PyStr.isdigit d = true ->
  take_digits d = d /\ PyStr.drop (String.length d) d = "".
Proof.
  induction d as [|c d IH]; simpl; [now split|].
  intros H. apply andb_prop in H as [Hc Hd]. rewrite Hc.
  destruct (IH Hd) as [-> ->]. now split.
Qed.

Lemma prefix_append (a b : string) : String.prefix a (a ++ b) = true.
Proof.
  induction a as [|c a IH]; simpl; [now destruct b|].
  destruct (ascii_dec c c); [exact IH | congruence].
Qed.

(** A base name [rfc<digits>] matches the pattern, with the digits as its
    group. *)
Lemma rfc_basename_match_digits (d : string) :
  PyStr.is_empty d = false -> PyStr.all PyStr.isdigit d = true ->
  rfc_basename_match ("rfc" ++ d) = Some d.
Proof.
  intros Hne Hd. unfold rfc_basename_match, PyStr.startswith.
  rewrite prefix_append.
  change (PyStr.drop 3 ("rfc" ++ d)) with d.
  destruct (take_digits_all d Hd) as [-> ->]. now rewrite Hne.
Qed.

Lemma rfc_basename_match_nonempty (s d : string) :
  rfc_basename_match s = Some d -> PyStr.is_empty d = false.
Proof.
  unfold rfc_basename_match. destruct (PyStr.startswith "rfc" s); [|discriminate].
  destruct (PyStr.is_empty (take_digits (PyStr.drop 3 s))) eqn:He; [discriminate|].
  destruct (_ || _); [|discriminate]. now intros [= <-].
Qed.

(** ** The index generator *)

(** *** The order of strings *)

Lemma le_refl (a : string) : PyStr.le a a = true.
Proof.
  unfold PyStr.le, String.leb.
  replace (String.compare a a) with Eq; [reflexivity|].
  symmetry. now apply String_as_OT.cmp_eq.
Qed.

Lemma not_lt_le (a b : string) : PyStr.lt b a = false -> PyStr.le a b = true.
Proof.
  unfold PyStr.lt, PyStr.le, String.ltb, String.leb.
  rewrite (String.compare_antisym a b).
  now destruct (String.compare b a).
Qed.

Lemma lt_le (a b : string) : PyStr.lt a b = true -> PyStr.le a b = true.
Proof.
  unfold PyStr.lt, PyStr.le, String.ltb, String.leb.
  now destruct (String.compare a b).
Qed.

Lemma le_cases (a b : string) :
  PyStr.le a b = true <-> a = b \/ String_as_OT.lt a b.
Proof.
  unfold PyStr.le, String.leb. split.
  - destruct (String.compare a b) eqn:Hc; [| |discriminate]; intros _.
    + left. now apply String_as_OT.cmp_eq.
    + right. now apply String_as_OT.cmp_lt.
  - intros [->|H].
    + apply le_refl.
    + apply String_as_OT.cmp_lt in H. unfold String_as_OT.cmp in H.
      now rewrite H.
Qed.

Lemma le_trans (a b c : string) :
  PyStr.le a b = true -> PyStr.le b c = true -> PyStr.le a c = true.
Proof.
  rewrite !le_cases. intros [->|Hab] [->|Hbc]; auto.
  right. eapply String_as_OT.lt_trans; eassumption.
Qed.

Lemma le_empty (a : string) : PyStr.le "" a = true.
Proof. now destruct a. Qed.

Lemma le_empty_inv (a : string) : PyStr.le a "" = true -> a = "".
Proof. destruct a; [reflexivity | discriminate]. Qed.

(** *** [sorted] *)

Section SortedBy.

Context {A : Type} (key : A -> string).

Lemma insert_by_perm (x : A) (l : list A) :
  Permutation (insert_by key x l) (x :: l).
Proof.
  induction l as [|y l IH]; simpl; [reflexivity|].
  destruct (PyStr.lt (key y) (key x)); [|reflexivity].
  rewrite IH. apply perm_swap.
Qed.

Lemma sorted_perm (l : list A) : Permutation (sorted key l) l.
Proof.
  induction l as [|x l IH]; simpl; [reflexivity|].
  fold (sorted key l). now rewrite insert_by_perm, IH.
Qed.

Lemma insert_by_sorted (x : A) (l : list A) :
  StronglySorted (by_key key) l ->
  StronglySorted (by_key key) (insert_by key x l).
Proof.
  induction 1 as [|y l Hl IH Hy]; simpl.
  - constructor; constructor.
  - destruct (PyStr.lt (key y) (key x)) eqn:Hlt.
    + constructor; [exact IH|].
      apply (Permutation_Forall (Permutation_sym (insert_by_perm x l))).
      constructor; [now apply lt_le | exact Hy].
    + apply not_lt_le in Hlt.
      constructor; [now constructor|].
      constructor; [exact Hlt|].
      eapply Forall_impl; [|exact Hy].
      intros z Hz. unfold by_key in *. eapply le_trans; eassumption.
Qed.

Lemma sorted_sorted (l : list A) : StronglySorted (by_key key) (sorted key l).
Proof.
  induction l as [|x l IH]; simpl; [constructor|].
  now apply insert_by_sorted.
Qed.

(** Two sorted lists with the same elements are equal when no two distinct
    elements have the same key. *)
Lemma sorted_unique (l1 l2 : list A) :
  StronglySorted (by_key key) l1 -> StronglySorted (by_key key) l2 ->
  Permutation l1 l2 ->
  (forall a b, In a l1 -> In b l1 -> key a = key b -> a = b) ->
  l1 = l2.
Proof.
  intros H1. revert l2. induction H1 as [|a l1 Hl1 IH Ha]; intros l2 H2 Hp Hinj.
  - apply Permutation_nil in Hp. now subst.
  - destruct l2 as [|b l2].
    { apply Permutation_sym, Permutation_nil in Hp. discriminate. }
    inversion H2 as [|b' l2' Hl2 Hb]; subst.
    assert (In b (a :: l1)) as Hb1
      by (apply (Permutation_in _ (Permutation_sym Hp)); now left).
    assert (In a (b :: l2)) as Ha2
      by (apply (Permutation_in _ Hp); now left).
    assert (by_key key a b) as Hab.
    { destruct Hb1 as [<-|Hb1]; [apply le_refl|].
      rewrite Forall_forall in Ha. now apply Ha. }
    assert (by_key key b a) as Hba.
    { destruct Ha2 as [<-|Ha2]; [apply le_refl|].
      rewrite Forall_forall in Hb. now apply Hb. }
    assert (a = b) as <-.
    { apply Hinj; [now left | exact Hb1|].
      now apply String.leb_antisym. }
    f_equal. apply IH; [exact Hl2 | now apply Permutation_cons_inv in Hp|].
    intros x y Hx Hy. apply Hinj; now right.
Qed.

Lemma sorted_permuted (l1 l2 : list A) :
  Permutation l1 l2 ->
  (forall a b, In a l1 -> In b l1 -> key a = key b -> a = b) ->
  sorted key l1 = sorted key l2.
Proof.
  intros Hp Hinj. apply sorted_unique; try apply sorted_sorted.
  - now rewrite !sorted_perm.
  - intros a b Ha Hb. apply Hinj; eapply Permutation_in;
      try eassumption; apply sorted_perm.
Qed.

(** In a sorted list the elements with the empty key come first. *)
Lemma sorted_empty_first (l pre post : list A) (e : A) :
  StronglySorted (by_key key) l -> l = (pre ++ e :: post)%list ->
  key e = "" -> Forall (fun x => key x = "") pre.
Proof.
  intros Hs -> He. induction pre as [|x pre IH]; [constructor|].
  simpl in Hs. inversion Hs as [|x' l' Hl Hx]; subst.
  constructor; [|now apply IH].
  rewrite Forall_forall in Hx.
  specialize (Hx e (in_elt e pre post)). unfold by_key in Hx.
  rewrite He in Hx. now apply le_empty_inv.
Qed.

End SortedBy.

(** *** The claims on the index *)

(** C2, as [generate_dir_file] has it.  Two lists with the same entries, in
    any orders, give the same file, byte for byte, when no two distinct
    entries have the same identifier.  For every list, with or without
    repeated identifiers, the file written is the banner, the menu lines of
    the sorted entries and an empty line; the sorted entries are the entries
    of the list, ordered by their identifiers as strings; and the entries
    with an empty identifier come first. *)
Theorem generate_dir_file_deterministic
        (l1 l2 : list (string * string * string)) :
  (Permutation l1 l2 ->
   (forall e1 e2, In e1 l1 -> In e2 l1 -> entry_key e1 = entry_key e2 -> e1 = e2) ->
   dir_content l1 = dir_content l2
   /\ forall directory w,
        generate_dir_file directory l1 w = generate_dir_file directory l2 w)
  /\ (forall directory w,
        generate_dir_file directory l1 w
        = (Return tt,
           w_print (String "010" "Generated dir file: "
                      ++ OsPath.join directory "dir")
             (w_write_dir (OsPath.join directory "dir")
                (PyStr.join (String "010" "")
                   (dir_header ++ map menu_line (sorted entry_key l1) ++ [""])%list)
                w)))
  /\ dir_lines l1
     = (dir_header ++ map menu_line (sorted entry_key l1) ++ [""])%list
  /\ Permutation (sorted entry_key l1) l1
  /\ StronglySorted (by_key entry_key) (sorted entry_key l1)
  /\ (forall pre e post,
        sorted entry_key l1 = (pre ++ e :: post)%list -> entry_key e = "" ->
        Forall (fun x => entry_key x = "") pre).
Proof.
  split.
  { intros Hp Hinj.
    assert (dir_content l1 = dir_content l2) as Hc.
    { unfold dir_content, dir_lines.
      now rewrite (sorted_permuted entry_key l1 l2 Hp Hinj). }
    split; [exact Hc|].
    intros directory w. unfold generate_dir_file. now rewrite Hc. }
  split; [reflexivity|].
  split; [reflexivity|]. split; [apply sorted_perm|].
  split; [apply sorted_sorted|].
  intros pre e post Hs He.
  eapply sorted_empty_first; [apply sorted_sorted | exact Hs | exact He].
Qed.

Lemma generate_dir_file_deterministic_witness :
  let l1 := [("rfc9126.info", "RFC 9126", "OAuth 2.0 Pushed Authorization Requests");
             ("notes.info", "", "Notes");
             ("rfc6749.info", "RFC 6749", "The OAuth 2.0 Authorization Framework")] in
  let l2 := [("rfc6749.info", "RFC 6749", "The OAuth 2.0 Authorization Framework");
             ("rfc9126.info", "RFC 9126", "OAuth 2.0 Pushed Authorization Requests");
             ("notes.info", "", "Notes")] in
  dir_content l1 = dir_content l2
  /\ StronglySorted (by_key entry_key) (sorted entry_key [entry_b; entry_a]).
Proof.
  intros l1 l2. split.
  - refine (proj1 (proj1 (generate_dir_file_deterministic l1 l2) _ _)).
    + unfold l1, l2. apply Permutation_sym, (Permutation_cons_app [_; _] []).
      reflexivity.
    + intros e1 e2 H1 H2.
      simpl in H1, H2.
      destruct H1 as [<-|[<-|[<-|[]]]], H2 as [<-|[<-|[<-|[]]]];
        (reflexivity || (vm_compute; discriminate)).
  - exact (proj1 (proj2 (proj2 (proj2 (proj2
             (generate_dir_file_deterministic [entry_b; entry_a] [])))))).
Defined.

(** C2, as stated, fails: the sort is stable and its key is the identifier
    alone, so two entries with the same identifier stay in their input
    order. *)
Lemma generate_dir_file_order_sensitive :
  Permutation [entry_a; entry_b] [entry_b; entry_a]
  /\ dir_content [entry_a; entry_b] <> dir_content [entry_b; entry_a]
  /\ map menu_line (sorted entry_key [entry_a; entry_b])
     = ["* a: (a).  Document A."; "* b: (b).  Document B."]
  /\ map menu_line (sorted entry_key [entry_b; entry_a])
     = ["* b: (b).  Document B."; "* a: (a).  Document A."]
  /\ generate_dir_file "/opt/rfc" [entry_a; entry_b] empty_world
     <> generate_dir_file "/opt/rfc" [entry_b; entry_a] empty_world
  /\ dir_writes (snd (generate_dir_file "/opt/rfc" [entry_a; entry_b] empty_world))
     = [("/opt/rfc/dir", dir_content [entry_a; entry_b])]
  /\ dir_writes (snd (generate_dir_file "/opt/rfc" [entry_b; entry_a] empty_world))
     = [("/opt/rfc/dir", dir_content [entry_b; entry_a])].
Proof.
  assert (dir_content [entry_a; entry_b] <> dir_content [entry_b; entry_a])
    as Hne.
  { apply String.eqb_neq. vm_compute. reflexivity. }
  split; [apply perm_swap|]. split; [exact Hne|].
  split; [reflexivity|]. split; [reflexivity|].
  split; [|split; reflexivity].
  intros H. apply Hne.
  apply (f_equal (fun r => dir_writes (snd r))) in H.
  change (dir_writes (snd (generate_dir_file "/opt/rfc" [entry_a; entry_b]
                             empty_world)))
    with [("/opt/rfc/dir", dir_content [entry_a; entry_b])] in H.
  change (dir_writes (snd (generate_dir_file "/opt/rfc" [entry_b; entry_a]
                             empty_world)))
    with [("/opt/rfc/dir", dir_content [entry_b; entry_a])] in H.
  now injection H.
Qed.

(** The index is the banner followed by one menu line for each entry and
    by an empty line. *)
Lemma dir_lines_menu (entries : list (string * string * string)) :
  exists menu,
    dir_lines entries = (dir_header ++ menu ++ [""])%list
    /\ Permutation menu (map menu_line entries).
Proof.
  exists (map menu_line (sorted entry_key entries)). split; [reflexivity|].
  apply Permutation_map, sorted_perm.
Qed.

Lemma replace_info_suffix (base : string) :
  PyStr.contains "." base = false ->
  PyStr.replace ".info" "" (base ++ ".info") = base.
Proof.
  unfold PyStr.replace. induction base as [|c base IH]; [reflexivity|].
  cbn [PyStr.contains]. intros H. apply orb_false_elim in H as [Hc Hb].
  change (String c base ++ ".info") with (String c (base ++ ".info")).
  cbn [PyStr.replace_from String.prefix].
  destruct (ascii_dec "." c) as [<-|_]; [discriminate Hc|].
  now rewrite IH.
Qed.

(** For an output name without dot before its extension the menu line has
    the shape of the specification. *)
Lemma menu_line_plain (base doc_id title : string) :
  PyStr.contains "." base = false ->
  menu_line (base ++ ".info", doc_id, title)
  = "* " ++ (if PyStr.is_empty doc_id then base else doc_id)
      ++ ": (" ++ base ++ ").  " ++ title ++ ".".
Proof.
  intros H. unfold menu_line. rewrite (replace_info_suffix base H).
  now destruct (PyStr.is_empty doc_id).
Qed.

(** C8, where the code departs from it.  The name between the parentheses is
    the file name with every occurrence of .info removed, not the file name
    without its extension: for the XML file draft.informational.xml the
    converter writes draft.informational.info, whose name without extension
    is draft.informational, and the menu line names draftrmational, in the
    lines of the index, in the file [generate_dir_file] writes and in the
    file a run of [main] on that XML file writes. *)
Theorem menu_line_info_inside :
  let info_basename :=
    OsPath.splitext_root (OsPath.basename "/opt/rfc/xml/draft.informational.xml")
    ++ ".info" in
  info_basename = "draft.informational.info"
  /\ OsPath.splitext_root info_basename = "draft.informational"
  /\ menu_line (info_basename, "", "Notes")
     = "* draftrmational: (draftrmational).  Notes."
  /\ dir_lines [(info_basename, "", "Notes")]
     = (dir_header ++ ["* draftrmational: (draftrmational).  Notes."; ""])%list
  /\ dir_writes (snd (generate_dir_file "/opt/rfc" [(info_basename, "", "Notes")]
                        empty_world))
     = [("/opt/rfc/dir",
         PyStr.join (String "010" "")
           (dir_header
              ++ ["* draftrmational: (draftrmational).  Notes."; ""])%list)]
  /\ fst (convert_file notes_env "/opt/rfc/xml/draft.informational.xml"
            (Some "/opt/rfc") None notes_world)
     = Return (Some (info_basename, "", "Notes"))
  /\ fst (main notes_env notes_world) = Return tt
  /\ dir_writes (snd (main notes_env notes_world))
     = [("/opt/rfc/dir",
         PyStr.join (String "010" "")
           (dir_header
              ++ ["* draftrmational: (draftrmational).  Notes."; ""])%list)].
Proof.
  cbv zeta.
  split; [reflexivity|]. split; [reflexivity|]. split; [reflexivity|].
  split; [reflexivity|]. split; [vm_compute; reflexivity|].
  split; [vm_compute; reflexivity|]. split; vm_compute; reflexivity.
Qed.

(** ** Runs of the monad *)


Lemma quiet_ret {A} (a : A) : quiet (ret a).
Proof. intros w. split; [reflexivity | discriminate]. Qed.

Lemma quiet_print (msg : string) : quiet (print msg).
Proof. intros w. split; [reflexivity | discriminate]. Qed.

Lemma quiet_get_world : quiet get_world.
Proof. intros w. split; [reflexivity | discriminate]. Qed.

Lemma quiet_outcome {A} (f : World -> Outcome A) :
  quiet (fun w => (of_outcome (f w), w)).
Proof.
  intros w. split; [reflexivity|]. cbn [fst].
  destruct (f w); discriminate.
Qed.

Lemma quiet_bind {A B} (m : M A) (k : A -> M B) :
  quiet m -> (forall a, quiet (k a)) -> quiet (bind m k).
Proof.
  intros Hm Hk w. unfold bind. destruct (Hm w) as [Hd Hx].
  destruct (m w) as [[a|e] w']; cbn [fst snd] in *.
  - destruct (Hk a w') as [Hd' Hx']. split; [congruence | exact Hx'].
  - split; [exact Hd|]. intros code [= ->]. now elim (Hx code).
Qed.

Lemma quiet_try_except {A} (m : M A) (h : string -> M A) :
  quiet m -> (forall e, quiet (h e)) -> quiet (try_except m h).
Proof.
  intros Hm Hh w. unfold try_except. destruct (Hm w) as [Hd Hx].
  destruct (m w) as [[a|[msg|code]] w']; cbn [fst snd] in *.
  - split; [exact Hd | discriminate].
  - destruct (Hh msg w') as [Hd' Hx']. split; [congruence | exact Hx'].
  - now elim (Hx code).
Qed.

Lemma quiet_for_each {A S} (body : S -> A -> M S) (l : list A) (acc : S) :
  (forall acc x, quiet (body acc x)) -> quiet (for_each body l acc).
Proof.
  intros Hb. revert acc. induction l as [|x l IH]; intros acc.
  - apply quiet_ret.
  - cbn [for_each]. apply quiet_bind; [apply Hb | exact IH].
Qed.

Lemma quiet_if {A} (b : bool) (m1 m2 : M A) :
  quiet m1 -> quiet m2 -> quiet (if b then m1 else m2).
Proof. now destruct b. Qed.

Create HintDb quiet.

#[local] Hint Resolve quiet_ret quiet_print quiet_get_world quiet_outcome
  quiet_bind quiet_try_except quiet_for_each quiet_if : quiet.

(** ** The fetcher *)

Lemma path_exists_print p msg w :
  path_exists p (w_print msg w) = path_exists p w.
Proof. reflexivity. Qed.

Lemma path_exists_net_call p url dest w :
  path_exists p (w_net_call url dest w) = path_exists p w.
Proof. reflexivity. Qed.

Lemma path_exists_create p w : path_exists p (w_create p w) = true.
Proof.
  unfold w_create, path_exists. cbn [fs].
  destruct (existsb (String.eqb p) (fs w)) eqn:He; [exact He|].
  rewrite existsb_app, He. cbn. now rewrite String.eqb_refl.
Qed.

Lemma quiet_urlretrieve env url dest : quiet (call_urlretrieve env url dest).
Proof.
  intros w. unfold call_urlretrieve.
  destruct (urlretrieve env w url dest) as [|msg [|]];
    (split; [reflexivity | discriminate]).
Qed.

Lemma quiet_fetch_xml env url dest : quiet (fetch_xml env url dest).
Proof.
  intros w. unfold fetch_xml. destruct (path_exists dest w).
  - split; [reflexivity | discriminate].
  - apply quiet_bind; [apply quiet_print|]. intros _.
    apply quiet_bind; [apply quiet_urlretrieve|]. intros _. apply quiet_ret.
Qed.

Lemma fetch_xml_cached env url dest w :
  path_exists dest w = true ->
  fetch_xml env url dest w
  = (Return dest, w_print ("  [cached] " ++ OsPath.basename dest) w).
Proof. intros H. unfold fetch_xml. now rewrite H. Qed.

Lemma fetch_xml_retrieved env url dest w :
  path_exists dest w = false ->
  urlretrieve env (w_print ("  Fetching " ++ url ++ " ...") w) url dest
  = Retrieved ->
  fetch_xml env url dest w
  = (Return dest,
     w_create dest
       (w_net_call url dest (w_print ("  Fetching " ++ url ++ " ...") w))).
Proof.
  intros He Hn. unfold fetch_xml. rewrite He.
  unfold bind, print, call_urlretrieve. now rewrite Hn.
Qed.

Lemma fetch_xml_failed env url dest w msg partial :
  path_exists dest w = false ->
  urlretrieve env (w_print ("  Fetching " ++ url ++ " ...") w) url dest
  = NetError msg partial ->
  fetch_xml env url dest w
  = (Raise (Exception msg),
     let w1 := w_net_call url dest (w_print ("  Fetching " ++ url ++ " ...") w) in
     if partial then w_create dest w1 else w1).
Proof.
  intros He Hn. unfold fetch_xml. rewrite He.
  unfold bind, print, call_urlretrieve. now rewrite Hn.
Qed.

(** A call that returns leaves the destination in place. *)
Lemma fetch_xml_returns_exists env url dest w r w1 :
  fetch_xml env url dest w = (Return r, w1) ->
  r = dest /\ path_exists dest w1 = true
  /\ net_calls w1 = (if path_exists dest w then net_calls w
                      else net_calls w ++ [(url, dest)])%list.
Proof.
  unfold fetch_xml. destruct (path_exists dest w) eqn:He.
  - unfold bind, print, ret. intros [= <- <-].
    now rewrite path_exists_print.
  - unfold bind, print, call_urlretrieve, ret.
    destruct (urlretrieve env _ url dest) as [|msg partial]; [|discriminate].
    intros [= <- <-]. split; [reflexivity|]. split; [|reflexivity].
    apply path_exists_create.
Qed.

(** C6. When the destination exists, [fetch_xml] prints the cached notice
    and returns without calling [urlretrieve].  After a call that returned,
    a second call for the same destination is that cached path.  Two calls
    in a row for an absent destination whose download succeeds make exactly
    one call to [urlretrieve], and the second one prints the cached
    notice. *)
Theorem fetch_xml_idempotent (env : Env) (url dest : string) (w : World) :
  (path_exists dest w = true ->
   fetch_xml env url dest w
   = (Return dest, w_print ("  [cached] " ++ OsPath.basename dest) w)
   /\ net_calls (snd (fetch_xml env url dest w)) = net_calls w)
  /\ (forall r w1,
        fetch_xml env url dest w = (Return r, w1) ->
        fetch_xml env url dest w1
        = (Return dest, w_print ("  [cached] " ++ OsPath.basename dest) w1)
        /\ net_calls (snd (fetch_xml env url dest w1)) = net_calls w1)
  /\ (path_exists dest w = false ->
      urlretrieve env (w_print ("  Fetching " ++ url ++ " ...") w) url dest
      = Retrieved ->
      exists w2,
        (fetch_xml env url dest ;; fetch_xml env url dest) w = (Return dest, w2)
        /\ net_calls w2 = (net_calls w ++ [(url, dest)])%list
        /\ last (stdout w2) "" = "  [cached] " ++ OsPath.basename dest).
Proof.
  split; [|split].
  - intros He. rewrite (fetch_xml_cached env url dest w He). now split.
  - intros r w1 H1.
    destruct (fetch_xml_returns_exists env url dest w r w1 H1) as (_ & He & _).
    rewrite (fetch_xml_cached env url dest w1 He). now split.
  - intros He Hn. eexists. unfold bind at 1.
    rewrite (fetch_xml_retrieved env url dest w He Hn).
    rewrite fetch_xml_cached by apply path_exists_create.
    split; [reflexivity|]. split; [reflexivity|].
    cbn [w_print stdout]. apply last_last.
Qed.

Lemma fetch_xml_idempotent_witness :
  let env := sample_env [] in
  let url := "https://www.rfc-editor.org/rfc/rfc9126.xml" in
  let dest := "/opt/rfc/xml/rfc9126.xml" in
  (exists w2,
     (fetch_xml env url dest ;; fetch_xml env url dest) empty_world
     = (Return dest, w2)
     /\ net_calls w2 = [(url, dest)]
     /\ last (stdout w2) "" = "  [cached] rfc9126.xml")
  /\ fetch_xml env url dest (w_create dest empty_world)
     = (Return dest, w_print "  [cached] rfc9126.xml" (w_create dest empty_world)).
Proof.
  intros env url dest. split.
  - exact (proj2 (proj2 (fetch_xml_idempotent env url dest empty_world))
             eq_refl eq_refl).
  - exact (proj1 (proj1 (fetch_xml_idempotent env url dest
                           (w_create dest empty_world)) eq_refl)).
Defined.

(** ** The fetch loop of the orchestrator *)

Lemma fetch_loop_body_returns env xml_dir files spec w :
  exists add w',
    fetch_loop_body env xml_dir files spec w = (Return (files ++ add)%list, w').
Proof.
  destruct spec as [url name]. unfold fetch_loop_body, try_except, bind.
  destruct (quiet_fetch_xml env url (OsPath.join xml_dir (name ++ ".xml")) w)
    as [_ Hx].
  destruct (fetch_xml env url (OsPath.join xml_dir (name ++ ".xml")) w)
    as [[r|[msg|code]] w1]; cbn [fst] in Hx.
  - eexists [_], _. reflexivity.
  - exists [], (w_print ("  FAILED to fetch " ++ name ++ ": " ++ msg) w1).
    now rewrite app_nil_r.
  - now elim (Hx code).
Qed.

Lemma fetch_loop_returns env xml_dir specs files w :
  exists add w',
    for_each (fetch_loop_body env xml_dir) specs files w
    = (Return (files ++ add)%list, w').
Proof.
  revert files w. induction specs as [|spec specs IH]; intros files w.
  - exists [], w. now rewrite app_nil_r.
  - cbn [for_each]. unfold bind.
    destruct (fetch_loop_body_returns env xml_dir files spec w)
      as (add1 & w1 & ->).
    destruct (IH (files ++ add1)%list w1) as (add2 & w2 & ->).
    exists (add1 ++ add2)%list, w2. now rewrite app_assoc.
Qed.

(** ** The conversion loop of the orchestrator *)

Lemma quiet_convert_try env filepath basename texi_path names :
  quiet (convert_try env filepath basename texi_path names).
Proof.
  unfold convert_try.
  apply quiet_bind; [apply quiet_outcome|]. intros root.
  apply quiet_bind; [apply quiet_if; auto with quiet; apply quiet_outcome|].
  intros [root'|]; [|auto with quiet].
  apply quiet_bind; [|auto with quiet].
  intros w. destruct (texinfo_write env w root' texi_path names);
    (split; [reflexivity | discriminate]).
Qed.

Lemma quiet_call_makeinfo env info_path texi_path :
  quiet (call_makeinfo env info_path texi_path).
Proof.
  intros w. unfold call_makeinfo.
  destruct (makeinfo env w info_path texi_path) as [[stderr [|]]|msg];
    (split; [reflexivity | discriminate]).
Qed.

Lemma quiet_print_warnings stderr : quiet (print_warnings stderr).
Proof.
  unfold print_warnings. apply quiet_if; [|apply quiet_ret].
  apply quiet_bind; [apply quiet_for_each; intros; apply quiet_print|].
  intros _. apply quiet_if; auto with quiet.
Qed.

(** [convert_file] neither writes the index nor leaves through
    [sys.exit]. *)
Lemma quiet_convert_file env f output_dir names :
  quiet (convert_file env f output_dir names).
Proof.
  unfold convert_file.
  apply quiet_bind; [apply quiet_print|]. intros _.
  apply quiet_bind.
  - apply quiet_try_except; [apply quiet_convert_try|]. auto with quiet.
  - intros [[doc_id title]|]; [|apply quiet_ret].
    apply quiet_bind; [apply quiet_call_makeinfo|]. intros stderr.
    apply quiet_bind; [apply quiet_print_warnings|]. intros _.
    apply quiet_bind; [apply quiet_get_world|]. intros w'.
    apply quiet_if; auto with quiet.
Qed.

(** The identifier and the title [convert_file] returns are those of the
    tree it rendered: the parsed tree when it was prepared, else the tree
    the preparation gave. *)
Lemma convert_file_result env filepath output_dir names w info id title w' :
  convert_file env filepath output_dir names w
  = (Return (Some (info, id, title)), w') ->
  let w0 := w_print ("  Parsing " ++ OsPath.basename filepath ++ " ...") w in
  let names' := match names with Some l => l | None => [] end in
  exists root0 root,
    xml_parse env w0 filepath names' = Ok root0
    /\ (if PyStr.is_empty (attr_get (prepTime root0) "")
        then v2v3_prep env w0 root0 names' = Ok (Some root)
        else root = root0)
    /\ id = doc_id_of root (OsPath.splitext_root (OsPath.basename filepath))
    /\ title = title_of root.
Proof.
  unfold convert_file, bind at 1, print at 1.
  unfold bind at 1.
  destruct (try_except _ _ _) as [[[[doc_id title0]|]|e] w1] eqn:Htry;
    try discriminate.
  intros Hrest.
  assert (id = doc_id /\ title = title0) as [-> ->].
  { unfold bind in Hrest.
    destruct (call_makeinfo env _ _ w1) as [[stderr|e] w2]; [|discriminate].
    destruct (print_warnings stderr w2) as [[[]|e] w3]; [|discriminate].
    unfold get_world in Hrest.
    destruct (path_exists _ w3); unfold print, ret in Hrest;
      [|discriminate].
    injection Hrest as _ <- <- _. now split. }
  clear Hrest. cbv zeta.
  unfold try_except, convert_try, bind in Htry.
  set (w0 := w_print ("  Parsing " ++ OsPath.basename filepath ++ " ...") w) in *.
  set (names' := match names with Some l => l | None => [] end) in *.
  destruct (xml_parse env w0 filepath names') as [root0|msg] eqn:Hparse;
    cbn [of_outcome] in Htry.
  2:{ unfold print, ret in Htry. discriminate. }
  exists root0.
  destruct (PyStr.is_empty (attr_get (prepTime root0) "")).
  - destruct (v2v3_prep env w0 root0 names') as [[root|]|msg] eqn:Hprep;
      cbn [of_outcome] in Htry; unfold print, ret in Htry; try discriminate.
    match type of Htry with context [texinfo_write ?a ?b ?c ?d ?e] =>
      destruct (texinfo_write a b c d e) end; try discriminate.
    injection Htry as <- <- _. now exists root.
  - unfold ret at 1 in Htry.
    match type of Htry with context [texinfo_write ?a ?b ?c ?d ?e] =>
      destruct (texinfo_write a b c d e) end;
      unfold print, ret in Htry; try discriminate.
    injection Htry as <- <- _. now exists root0.
Qed.

(** C1, as [convert_file] has it.  The identifier is the first non-empty
    result of these strategies, in this order: the number attribute of the
    root, as RFC <number>; the value of the first series-info element named
    RFC, as RFC <value>; the digits of a base name rfc<digits>, as
    RFC <digits>; the document name attribute of the root.  This holds
    whenever the first series-info element named RFC, if there is one, has a
    non-empty value.  A non-empty number is final, and a base name
    rfc<digits> matches the pattern.  The identifier in a result of
    [convert_file] is the one so computed, from the tree xml2rfc rendered and
    the base name of the input file. *)
Theorem doc_id_of_strategies (root : Root) (basename : string) :
  series_rfc_value (front_seriesInfo root) <> Some "" ->
  doc_id_of root basename = first_nonempty (strategies root basename)
  /\ (PyStr.is_empty (attr_get (number root) "") = false ->
      doc_id_of root basename = "RFC " ++ attr_get (number root) "")
  /\ (forall d, PyStr.is_empty d = false -> PyStr.all PyStr.isdigit d = true ->
        rfc_basename_match ("rfc" ++ d) = Some d)
  /\ (forall env filepath output_dir names w w' info id title root0,
        let w0 := w_print ("  Parsing " ++ OsPath.basename filepath ++ " ...") w in
        let names' := match names with Some l => l | None => [] end in
        basename = OsPath.splitext_root (OsPath.basename filepath) ->
        xml_parse env w0 filepath names' = Ok root0 ->
        (if PyStr.is_empty (attr_get (prepTime root0) "")
         then v2v3_prep env w0 root0 names' = Ok (Some root)
         else root = root0) ->
        convert_file env filepath output_dir names w
        = (Return (Some (info, id, title)), w') ->
        id = first_nonempty (strategies root basename)).
Proof.
  intros Hs.
  assert (doc_id_of root basename = first_nonempty (strategies root basename))
    as Hmain.
  { unfold doc_id_of, strategies, by_number, by_series_info, by_file_name,
      by_doc_name, rfc_label.
    rewrite series_info_loop_value.
    destruct (PyStr.is_empty (attr_get (number root) "")) eqn:Hn;
      destruct (series_rfc_value (front_seriesInfo root)) as [[|c v]|];
      try congruence;
      destruct (rfc_basename_match basename) as [[|c' d]|] eqn:Hm;
      try (apply rfc_basename_match_nonempty in Hm; discriminate Hm);
      destruct (attr_get (docName root) "");
      cbn; rewrite ?Hn; reflexivity. }
  split; [exact Hmain|]. split; [|split].
  - intros Hn. rewrite Hmain. unfold strategies, by_number, rfc_label.
    cbn [first_nonempty]. now rewrite Hn.
  - exact rfc_basename_match_digits.
  - intros env filepath output_dir names w w' info id title root0 w0 names'
           Hb Hp Hprep Hrun.
    destruct (convert_file_result env filepath output_dir names w info id title
                w' Hrun) as (r0 & r & Hp' & Hprep' & Hid & _).
    fold w0 names' in Hp', Hprep'.
    rewrite Hp in Hp'. injection Hp' as <-.
    assert (r = root) as ->.
    { destruct (PyStr.is_empty (attr_get (prepTime root0) ""));
        [rewrite Hprep in Hprep'; now injection Hprep' | congruence]. }
    rewrite Hid, <- Hb. exact Hmain.
Qed.

Lemma doc_id_of_strategies_witness :
  series_rfc_value (front_seriesInfo series_info_root) <> Some ""
  /\ doc_id_of series_info_root "draft-ietf-oauth-par-10" = "RFC 9126"
  /\ fst (convert_file oauth_env "/opt/rfc/xml/rfc6749.xml" (Some "/opt/rfc")
            None oauth_world)
     = Return (Some ("rfc6749.info", "RFC 6749",
                     "The OAuth 2.0 Authorization Framework"))
  /\ "RFC 6749" = first_nonempty (strategies oauth_prepared_root "rfc6749").
Proof.
  assert (series_rfc_value (front_seriesInfo series_info_root) <> Some "") as H
    by (simpl; discriminate).
  split; [exact H|]. split.
  { exact (proj1 (doc_id_of_strategies series_info_root
                    "draft-ietf-oauth-par-10" H)). }
  set (r := convert_file oauth_env "/opt/rfc/xml/rfc6749.xml" (Some "/opt/rfc")
              None oauth_world).
  assert (r = (Return (Some ("rfc6749.info", "RFC 6749",
                             "The OAuth 2.0 Authorization Framework")), snd r))
    as Hr by (vm_compute; reflexivity).
  split; [exact (f_equal fst Hr)|].
  assert (series_rfc_value (front_seriesInfo oauth_prepared_root) <> Some "")
    as H' by (simpl; discriminate).
  exact (proj2 (proj2 (proj2 (doc_id_of_strategies oauth_prepared_root
                                "rfc6749" H')))
           oauth_env "/opt/rfc/xml/rfc6749.xml" (Some "/opt/rfc") None
           oauth_world (snd r) _ _ _ oauth_draft_root
           eq_refl eq_refl eq_refl Hr).
Defined.

(** C1, as stated, fails: a non-empty document name does not stop the later
    strategies.  The base name rfc6749 wins over the document name of the
    draft the file holds, and so does a series-info element named RFC; the
    result of [convert_file] for rfc6749.xml carries RFC 6749. *)
Lemma doc_id_of_doc_name_overridden :
  by_doc_name oauth_draft_root = "draft-ietf-oauth-v2-31"
  /\ first_nonempty (stated_strategies oauth_draft_root "rfc6749")
     = "draft-ietf-oauth-v2-31"
  /\ doc_id_of oauth_draft_root "rfc6749" = "RFC 6749"
  /\ first_nonempty (stated_strategies series_info_root "draft-ietf-oauth-par-10")
     = "draft-ietf-oauth-par-10"
  /\ doc_id_of series_info_root "draft-ietf-oauth-par-10" = "RFC 9126"
  /\ doc_id_of oauth_draft_root "rfc6749"
     <> first_nonempty (stated_strategies oauth_draft_root "rfc6749")
  /\ first_nonempty (stated_strategies oauth_prepared_root "rfc6749")
     = "draft-ietf-oauth-v2-31"
  /\ fst (convert_file oauth_env "/opt/rfc/xml/rfc6749.xml" (Some "/opt/rfc")
            None oauth_world)
     = Return (Some ("rfc6749.info", "RFC 6749",
                     "The OAuth 2.0 Authorization Framework")).
Proof.
  split; [reflexivity|]. split; [reflexivity|]. split; [reflexivity|].
  split; [reflexivity|]. split; [reflexivity|].
  split; [vm_compute; discriminate|]. split; [reflexivity|].
  vm_compute. reflexivity.
Qed.

(** One turn of the loop appends the result of a conversion that succeeds
    and nothing else. *)
Lemma convert_loop_body_run env names entries f w :
  convert_loop_body env names entries f w
  = (Return (entries ++ converted env names f w)%list, after_convert env names f w)
  /\ dir_writes (after_convert env names f w) = dir_writes w.
Proof.
  unfold after_convert, converted, convert_loop_body, try_except, bind.
  destruct (quiet_convert_file env f (Some (script_dir env)) (Some names) w)
    as [Hd Hx].
  destruct (convert_file env f (Some (script_dir env)) (Some names) w)
    as [[[r|]|[msg|code]] w']; cbn [fst snd] in *.
  - now split.
  - rewrite app_nil_r. now split.
  - rewrite app_nil_r. now split.
  - now elim (Hx code).
Qed.

Lemma convert_loop_run env names files entries w :
  exists w',
    for_each (convert_loop_body env names) files entries w
    = (Return (entries ++ run_results env names files w)%list, w')
    /\ dir_writes w' = dir_writes w.
Proof.
  revert entries w. induction files as [|f files IH]; intros entries w.
  - exists w. cbn. now rewrite app_nil_r.
  - cbn [for_each run_results]. unfold bind.
    destruct (convert_loop_body_run env names entries f w) as [-> Hd].
    destruct (IH (entries ++ converted env names f w)%list
                 (after_convert env names f w)) as (w' & -> & Hd').
    exists w'. rewrite app_assoc. split; [reflexivity | congruence].
Qed.

(** The part of [main] after the mode selection, for a list of files that
    is not empty. *)
Lemma convert_all_run env files w :
  is_nil files = false ->
  let entries := run_results env (local_info_names env files w) files w in
  exists w',
    convert_all env files w = (Return tt, w')
    /\ dir_writes w'
       = (if is_nil entries then dir_writes w
          else dir_writes w
                 ++ [(OsPath.join (script_dir env) "dir", dir_content entries)])%list
    /\ last (stdout w') "" = summary (List.length entries) (List.length files).
Proof.
  intros Hf entries. unfold convert_all. rewrite Hf.
  unfold bind at 1, ret at 1. unfold bind at 1, get_world at 1.
  unfold bind at 1.
  destruct (convert_loop_run env (local_info_names env files w) files [] w)
    as (w1 & -> & Hd).
  cbn [app]. fold entries.
  destruct entries as [|e entries'] eqn:He; cbn [is_nil negb].
  - eexists. unfold bind, ret, print. split; [reflexivity|].
    split; [exact Hd|]. cbn [w_print stdout]. apply last_last.
  - eexists. unfold bind, generate_dir_file, bind, ret, print.
    split; [reflexivity|]. split.
    + cbn [w_print w_write_dir w_create dir_writes]. now rewrite Hd.
    + cbn [w_print stdout]. apply last_last.
Qed.

(** ** The orchestrator *)

(** With file arguments [main] converts exactly these files. *)
Lemma main_explicit_files env w prog arg rest :
  argv env = prog :: arg :: rest ->
  (arg =? "--help") = false -> (arg =? "--sync") = false ->
  main env w = convert_all env (map (abspath env) (arg :: rest)) w.
Proof.
  intros Ha Hh Hs. unfold main. rewrite Ha.
  cbn [List.length Nat.leb nth andb skipn]. rewrite Hh, Hs. reflexivity.
Qed.

(** Without argument, or with [--sync], [main] fetches the entries of
    specs.conf in turn and converts the files it could fetch. *)
Lemma main_sync_mode env w lines :
  (2 <=? List.length (argv env))%nat && negb (nth 1 (argv env) "" =? "--sync")
  = false ->
  (nth 1 (argv env) "" =? "--help") = false ->
  let conf_path := OsPath.join (script_dir env) "specs.conf" in
  let xml_dir := OsPath.join (script_dir env) "xml" in
  let specs := flat_map line_entries lines in
  path_exists conf_path w = true ->
  open_lines env w conf_path = Ok lines ->
  is_nil specs = false ->
  main env w
  = (files <- for_each (fetch_loop_body env xml_dir) specs [] ;;
     convert_all env files)
      (w_print ("Found " ++ PyStr.of_nat (List.length specs)
                  ++ " specs in specs.conf" ++ String "010" "")
         (w_create xml_dir (w_prints (flat_map line_warnings lines) w))).
Proof.
  intros Hm Hh conf_path xml_dir specs He Ho Hs.
  unfold main. rewrite Hm, Hh, andb_false_r.
  unfold bind at 1, ret at 1. unfold bind at 1.
  unfold sync_files. fold conf_path. fold xml_dir.
  unfold bind at 1, get_world at 1. rewrite He. cbn [negb].
  unfold bind at 1, ret at 1.
  unfold bind at 1.
  unfold parse_specs_conf at 1. unfold bind at 1. rewrite Ho. cbn [of_outcome].
  rewrite parse_specs_loop. cbn [app]. fold specs. rewrite Hs.
  reflexivity.
Qed.




(** The first end-to-end scenario of the specification: the conversion
    result, the index line and the output of the run. *)
Example main_rfc9126 :
  let r := main rar_env rar_world in
  fst r = Return tt
  /\ run_results rar_env ["rfc9126"] ["/opt/rfc/xml/rfc9126.xml"] rar_world
     = [("rfc9126.info", "RFC 9126", "OAuth 2.0 Rich Authorization Requests")]
  /\ net_calls (snd r) = []
  /\ map fst (dir_writes (snd r)) = ["/opt/rfc/dir"]
  /\ map (fun pc => nth 9 (PyStr.split_on "010" (snd pc)) "") (dir_writes (snd r))
     = ["* RFC 9126: (rfc9126).  OAuth 2.0 Rich Authorization Requests."]
  /\ stdout (snd r)
     = [ "Found 1 specs in specs.conf" ++ String "010" "";
         "  [cached] rfc9126.xml";
         "  Parsing rfc9126.xml ...";
         "  -> rfc9126.info";
         String "010" "Generated dir file: /opt/rfc/dir";
         String "010" "Converted 1/1 files." ].
Proof.
  vm_compute. repeat split.
Qed.

(** * Further properties *)

(** ** The configuration reader, field by field *)

Lemma rstrip_idem (s : string) : PyStr.rstrip (PyStr.rstrip s) = PyStr.rstrip s.
Proof.
  induction s as [|c s IH]; [reflexivity|].
  cbn [PyStr.rstrip]. destruct (PyStr.rstrip s) as [|d r] eqn:Hr.
  - destruct (PyStr.isspace c) eqn:Hc; [reflexivity|].
    simpl. now rewrite Hc.
  - remember (String d r) as x eqn:Hx.
    cbn [PyStr.rstrip]. rewrite IH. rewrite Hx. reflexivity.
Qed.

Lemma strip_idem (s : string) : PyStr.strip (PyStr.strip s) = PyStr.strip s.
Proof.
  unfold PyStr.strip.
  destruct (lstrip_head s) as [->|(c & r & -> & Hc)]; [reflexivity|].
  destruct (rstrip_cons_nonspace c r Hc) as [r' Hr]. rewrite Hr.
  cbn [PyStr.lstrip]. rewrite Hc, <- Hr. apply rstrip_idem.
Qed.

Lemma strip_inline_comment_shown (line : string) :
  strip_inline_comment (PyStr.strip line) = Return (shown_line line).
Proof.
  unfold strip_inline_comment, str_index, shown_line, before.
  rewrite contains_find.
  destruct (PyStr.find "#" (PyStr.strip line)); cbn [exc_bind].
  - reflexivity.
  - now rewrite strip_idem.
Qed.

Lemma parse_fields_entry l parts specs w :
  parts <> [] ->
  parse_fields specs l parts w
  = match entry_of_fields parts with
    | Some e => (Return (specs ++ [e])%list, w)
    | None => (Return specs, w_print (warning_for l) w)
    end.
Proof.
  intros Hne. destruct parts as [|kind [|f1 rest]]; [congruence | |].
  - now apply parse_fields_unrecognized.
  - cbn [entry_of_fields].
    destruct (String.eqb_spec kind "rfc") as [->|H1]; [apply parse_fields_rfc|].
    destruct (String.eqb_spec kind "draft") as [->|H2];
      [apply parse_fields_draft|].
    destruct (String.eqb_spec kind "url") as [->|H3].
    + destruct rest as [|f2 rest]; [|apply parse_fields_url].
      now apply parse_fields_unrecognized.
    + apply parse_fields_unrecognized; [discriminate|].
      cbn [recognized_fields].
      apply String.eqb_neq in H1, H2, H3. now rewrite H1, H2, H3.
Qed.

(** X1. What [parse_specs_conf] does with a line it does not skip depends on
    the fields of the line alone, that is, on the words of the text before
    the first hash sign: [rfc] and [draft] with at least one field and [url]
    with at least two give the entry of [entry_of_fields] and print nothing,
    fields beyond these being ignored; every other line prints one warning
    showing the stripped line without its comment, and gives no entry. *)
Theorem parse_specs_line_by_fields (line : string)
        (specs : list (string * string)) (w : World) :
  skipped (PyStr.strip line) = false ->
  parse_specs_line specs line w
  = match entry_of_fields (fields_of line) with
    | Some e => (Return (specs ++ [e])%list, w)
    | None => (Return specs, w_print (warning_for (shown_line line)) w)
    end.
Proof.
  intros Hs.
  destruct (parse_specs_line_fields line Hs) as (l1 & E & _ & _ & Hne & Hrun).
  rewrite strip_inline_comment_shown in E. injection E as <-.
  rewrite Hrun. now apply parse_fields_entry.
Qed.

Lemma parse_specs_line_by_fields_witness :
  parse_specs_line [] "  rfc 9126 obsoleted # see the errata" empty_world
  = (Return [("https://www.rfc-editor.org/rfc/rfc9126.xml", "rfc9126")],
     empty_world)
  /\ parse_specs_line [] "RFC 9126  # upper case" empty_world
     = (Return [], w_print (warning_for "RFC 9126") empty_world).
Proof.
  split.
  - exact (parse_specs_line_by_fields "  rfc 9126 obsoleted # see the errata"
             [] empty_world eq_refl).
  - exact (parse_specs_line_by_fields "RFC 9126  # upper case"
             [] empty_world eq_refl).
Defined.

Lemma line_entries_warnings (line : string) :
  (line_entries line = [] /\ line_warnings line = [])
  \/ (exists e, line_entries line = [e] /\ line_warnings line = [])
  \/ (exists msg, line_entries line = [] /\ line_warnings line = [msg]).
Proof.
  unfold line_entries, line_warnings.
  destruct (skipped (PyStr.strip line)) eqn:Hs.
  - left. rewrite parse_specs_line_skipped by assumption. now split.
  - right. destruct (parse_specs_line_fields line Hs)
      as (l1 & _ & _ & _ & Hne & Hrun).
    rewrite Hrun. rewrite (parse_fields_entry l1 _ [] empty_world Hne).
    destruct (entry_of_fields (fields_of line)) as [e|].
    + left. now exists e.
    + right. now eexists.
Qed.

Lemma stdout_w_prints (l : list string) (w : World) :
  stdout (w_prints l w) = (stdout w ++ l)%list.
Proof.
  revert w. induction l as [|m l IH]; intros w; cbn.
  - now rewrite app_nil_r.
  - unfold w_prints in IH. rewrite IH. cbn. now rewrite <- app_assoc.
Qed.

(** X2. A line of the file gives at most one entry or one warning, never
    both: the entries and the warnings of a whole file together are at most
    as many as its lines. *)
Theorem parse_specs_conf_bounded (env : Env) (conf_path : string)
        (lines : list string) (w : World) :
  open_lines env w conf_path = Ok lines ->
  exists specs warnings,
    parse_specs_conf env conf_path w = (Return specs, w_prints warnings w)
    /\ stdout (w_prints warnings w) = (stdout w ++ warnings)%list
    /\ List.length specs + List.length warnings <= List.length lines.
Proof.
  intros Ho. exists (flat_map line_entries lines), (flat_map line_warnings lines).
  split; [|split].
  - unfold parse_specs_conf, bind at 1. rewrite Ho. cbn [of_outcome].
    now rewrite parse_specs_loop.
  - apply stdout_w_prints.
  - clear Ho. induction lines as [|line lines IH]; [reflexivity|].
    cbn [flat_map List.length]. rewrite !length_app.
    destruct (line_entries_warnings line)
      as [[-> ->]|[(e & -> & ->)|(msg & -> & ->)]]; cbn; lia.
Qed.

Lemma parse_specs_conf_bounded_witness :
  exists specs warnings,
    parse_specs_conf (sample_env []) "/opt/rfc/specs.conf" empty_world
    = (Return specs, w_prints warnings empty_world)
    /\ stdout (w_prints warnings empty_world) = ([] ++ warnings)%list
    /\ List.length specs + List.length warnings <= 5.
Proof.
  exact (parse_specs_conf_bounded (sample_env []) "/opt/rfc/specs.conf"
           sample_conf empty_world eq_refl).
Defined.

(** *** What a field is made of *)

Lemma all_app (p : ascii -> bool) (a b : string) :
  PyStr.all p (a ++ b) = PyStr.all p a && PyStr.all p b.
Proof.
  induction a as [|c a IH]; simpl; [reflexivity|].
  now rewrite IH, andb_assoc.
Qed.

Lemma all_both (p q : ascii -> bool) (s : string) :
  PyStr.all p s = true -> PyStr.all q s = true ->
  PyStr.all (fun c => p c && q c) s = true.
Proof.
  induction s as [|c s IH]; simpl; [reflexivity|].
  intros Hp Hq. apply andb_prop in Hp as [-> Hp]. apply andb_prop in Hq as [-> Hq].
  now rewrite IH.
Qed.

(** The characters of the words of [s] are characters of [s]. *)
Lemma all_split (p : ascii -> bool) (s : string) :
  PyStr.all p s = true -> Forall (fun t => PyStr.all p t = true) (PyStr.split s).
Proof.
  induction s as [|c s IH]; [constructor|].
  cbn [PyStr.all PyStr.split]. intros H. apply andb_prop in H as [Hc Hs].
  specialize (IH Hs).
  destruct (PyStr.isspace c); [exact IH|].
  destruct (PyStr.starts_nonspace s).
  - destruct (PyStr.split s) as [|t ts].
    + constructor; [|constructor]. simpl. now rewrite Hc.
    + inversion IH as [|t' ts' Ht Hts]; subst.
      constructor; [|exact Hts]. simpl. now rewrite Hc, Ht.
  - constructor; [|exact IH]. simpl. now rewrite Hc.
Qed.

(** The words of a text are not empty and hold no whitespace. *)
Lemma split_words (s : string) :
  Forall (fun t => is_word t = true) (PyStr.split s).
Proof.
  unfold is_word. induction s as [|c s IH]; [constructor|].
  cbn [PyStr.split]. destruct (PyStr.isspace c) eqn:Hc; [exact IH|].
  destruct (PyStr.starts_nonspace s).
  - destruct (PyStr.split s) as [|t ts].
    + constructor; [|constructor]. simpl. now rewrite Hc.
    + inversion IH as [|t' ts' Ht Hts]; subst.
      constructor; [|exact Hts]. simpl. rewrite Hc. simpl.
      now apply andb_prop in Ht as [_ ->].
  - constructor; [|exact IH]. simpl. now rewrite Hc.
Qed.

Lemma before_all_other (c : ascii) (s : string) :
  PyStr.all (fun d => negb (Ascii.eqb d c)) (before c s) = true.
Proof.
  induction s as [|d s IH]; [reflexivity|].
  rewrite before_cons. destruct (Ascii.eqb d c) eqn:Hd; [reflexivity|].
  simpl. now rewrite Hd, IH.
Qed.

(** The fields of a line are fields. *)
Lemma fields_of_fields (line : string) :
  Forall (fun t => is_field t = true) (fields_of line).
Proof.
  unfold fields_of.
  pose proof (split_words (before "#" line)) as Hw.
  pose proof (all_split _ _ (before_all_other "#" line)) as Hh.
  rewrite Forall_forall in *. intros t Ht.
  specialize (Hw t Ht). specialize (Hh t Ht). unfold is_word in Hw.
  apply andb_prop in Hw as [Hne Hw]. unfold is_field. rewrite Hne.
  apply (all_both _ _ t Hw Hh).
Qed.

Lemma is_field_around (a f b : string) :
  is_field a = true -> PyStr.all field_char b = true -> is_field f = true ->
  is_field (a ++ f ++ b) = true.
Proof.
  unfold is_field. intros Ha Hb Hf.
  apply andb_prop in Ha as [Hane Ha]. apply andb_prop in Hf as [_ Hf].
  rewrite !all_app, Ha, Hf, Hb. destruct a; [discriminate|reflexivity].
Qed.

Lemma entry_of_fields_fields (parts : list string) (url name : string) :
  Forall (fun t => is_field t = true) parts ->
  entry_of_fields parts = Some (url, name) ->
  is_field url = true /\ is_field name = true.
Proof.
  intros Hp. destruct parts as [|kind [|f1 rest]]; try discriminate.
  inversion Hp as [|k r Hk Hr]; subst. inversion Hr as [|k' r' Hf1 Hrest]; subst.
  cbn [entry_of_fields].
  destruct (kind =? "rfc").
  { intros [= <- <-]. split.
    - exact (is_field_around "https://www.rfc-editor.org/rfc/rfc" f1 ".xml"
               eq_refl eq_refl Hf1).
    - pose proof (is_field_around "rfc" f1 "" eq_refl eq_refl Hf1) as H.
      rewrite append_empty_r in H. exact H. }
  destruct (kind =? "draft").
  { intros [= <- <-]. split; [|exact Hf1].
    exact (is_field_around "https://www.ietf.org/archive/id/" f1 ".xml"
             eq_refl eq_refl Hf1). }
  destruct (kind =? "url"); [|discriminate].
  destruct rest as [|f2 rest]; [discriminate|].
  inversion Hrest; subst. now intros [= <- <-].
Qed.

Lemma line_entries_fields (line : string) :
  line_entries line
  = if skipped (PyStr.strip line) then []
    else match entry_of_fields (fields_of line) with
         | Some e => [e]
         | None => []
         end.
Proof.
  unfold line_entries. destruct (skipped (PyStr.strip line)) eqn:Hs.
  - now rewrite parse_specs_line_skipped.
  - destruct (parse_specs_line_fields line Hs) as (l1 & _ & _ & _ & Hne & Hrun).
    rewrite Hrun, (parse_fields_entry l1 _ [] empty_world Hne).
    now destruct (entry_of_fields (fields_of line)).
Qed.

(** X3. Whatever the file holds, the URL and the output name of every entry
    [parse_specs_conf] returns are not empty and hold neither whitespace nor
    a hash sign. *)
Theorem parse_specs_conf_entries_are_fields (env : Env) (conf_path : string)
        (lines : list string) (w w' : World) (specs : list (string * string)) :
  open_lines env w conf_path = Ok lines ->
  parse_specs_conf env conf_path w = (Return specs, w') ->
  Forall (fun e => is_field (fst e) = true /\ is_field (snd e) = true) specs.
Proof.
  intros Ho. unfold parse_specs_conf, bind at 1. rewrite Ho. cbn [of_outcome].
  rewrite parse_specs_loop. intros [= <- _]. cbn [app].
  rewrite Forall_forall. intros [url name] Hin.
  apply in_flat_map in Hin as (line & _ & Hin).
  rewrite line_entries_fields in Hin.
  destruct (skipped (PyStr.strip line)); [contradiction|].
  destruct (entry_of_fields (fields_of line)) as [e|] eqn:He; [|contradiction].
  destruct Hin as [->|[]].
  apply (entry_of_fields_fields _ _ _ (fields_of_fields line) He).
Qed.

Lemma parse_specs_conf_entries_are_fields_witness :
  Forall (fun e => is_field (fst e) = true /\ is_field (snd e) = true)
         [("https://www.rfc-editor.org/rfc/rfc9126.xml", "rfc9126");
          ("https://example.com/spec.xml", "name")].
Proof.
  exact (parse_specs_conf_entries_are_fields (sample_env [])
           "/opt/rfc/specs.conf" sample_conf empty_world _ _ eq_refl eq_refl).
Defined.

(** ** What a run leaves in place *)

Section Frames.

Variable R : World -> World -> Prop.
Hypothesis R_refl : forall w, R w w.
Hypothesis R_trans : forall w1 w2 w3, R w1 w2 -> R w2 w3 -> R w1 w3.

Lemma frames_ret {A} (a : A) : frames R (ret a).
Proof. intros w. apply R_refl. Qed.

Lemma frames_lift {A} (x : Exc A) : frames R (lift x).
Proof. intros w. apply R_refl. Qed.

Lemma frames_get_world : frames R get_world.
Proof. intros w. apply R_refl. Qed.

Lemma frames_sys_exit {A} (code : nat) : frames R (@sys_exit A code).
Proof. intros w. apply R_refl. Qed.

Lemma frames_outcome {A} (f : World -> Outcome A) :
  frames R (fun w => (of_outcome (f w), w)).
Proof. intros w. apply R_refl. Qed.

Lemma frames_bind {A B} (m : M A) (k : A -> M B) :
  frames R m -> (forall a, frames R (k a)) -> frames R (bind m k).
Proof.
  intros Hm Hk w. unfold bind. specialize (Hm w).
  destruct (m w) as [[a|e] w1]; cbn [snd] in *; [|exact Hm].
  eapply R_trans; [exact Hm | apply Hk].
Qed.

Lemma frames_try_except {A} (m : M A) (h : string -> M A) :
  frames R m -> (forall e, frames R (h e)) -> frames R (try_except m h).
Proof.
  intros Hm Hh w. unfold try_except. specialize (Hm w).
  destruct (m w) as [[a|[msg|code]] w1]; cbn [snd] in *; try exact Hm.
  eapply R_trans; [exact Hm | apply Hh].
Qed.

Lemma frames_for_each {A S} (body : S -> A -> M S) (l : list A) (acc : S) :
  (forall acc x, frames R (body acc x)) -> frames R (for_each body l acc).
Proof.
  intros Hb. revert acc. induction l as [|x l IH]; intros acc.
  - apply frames_ret.
  - cbn [for_each]. apply frames_bind; [apply Hb | exact IH].
Qed.

Lemma frames_if {A} (b : bool) (m1 m2 : M A) :
  frames R m1 -> frames R m2 -> frames R (if b then m1 else m2).
Proof. now destruct b. Qed.

Hypothesis R_print : forall msg w, R w (w_print msg w).
Hypothesis R_create : forall p w, R w (w_create p w).

Lemma frames_print (msg : string) : frames R (print msg).
Proof. intros w. apply R_print. Qed.

Lemma frames_parse_specs_line specs line : frames R (parse_specs_line specs line).
Proof.
  intros w. rewrite parse_specs_line_frame. cbn [snd].
  generalize (line_warnings line) as l. intros l. revert w.
  induction l as [|m l IH]; intros w; [apply R_refl|].
  cbn. eapply R_trans; [apply R_print | apply IH].
Qed.

Lemma frames_parse_specs_conf env conf_path :
  frames R (parse_specs_conf env conf_path).
Proof.
  unfold parse_specs_conf. apply frames_bind; [apply frames_outcome|].
  intros lines. apply frames_for_each. intros. apply frames_parse_specs_line.
Qed.

Lemma frames_convert_try env filepath basename texi_path names :
  frames R (convert_try env filepath basename texi_path names).
Proof.
  unfold convert_try.
  apply frames_bind; [apply frames_outcome|]. intros root.
  apply frames_bind;
    [apply frames_if; [apply frames_outcome | apply frames_ret]|].
  intros [root'|].
  - apply frames_bind; [|intros; apply frames_ret].
    intros w. destruct (texinfo_write env w root' texi_path names);
      cbn [snd]; [apply R_create | apply R_refl].
  - apply frames_bind; [apply frames_print | intros; apply frames_ret].
Qed.

Lemma frames_call_makeinfo env info_path texi_path :
  frames R (call_makeinfo env info_path texi_path).
Proof.
  intros w. unfold call_makeinfo.
  destruct (makeinfo env w info_path texi_path) as [[stderr [|]]|msg];
    cbn [snd]; [apply R_create | apply R_refl | apply R_refl].
Qed.

Lemma frames_print_warnings stderr : frames R (print_warnings stderr).
Proof.
  unfold print_warnings. apply frames_if; [|apply frames_ret].
  apply frames_bind; [apply frames_for_each; intros; apply frames_print|].
  intros _. apply frames_if; [apply frames_print | apply frames_ret].
Qed.

Lemma frames_convert_file env f output_dir names :
  frames R (convert_file env f output_dir names).
Proof.
  unfold convert_file.
  apply frames_bind; [apply frames_print|]. intros _.
  apply frames_bind.
  - apply frames_try_except; [apply frames_convert_try|]. intros e.
    apply frames_bind; [apply frames_print | intros; apply frames_ret].
  - intros [[doc_id title]|]; [|apply frames_ret].
    apply frames_bind; [apply frames_call_makeinfo|]. intros stderr.
    apply frames_bind; [apply frames_print_warnings|]. intros _.
    apply frames_bind; [apply frames_get_world|]. intros w'.
    apply frames_if;
      (apply frames_bind; [apply frames_print | intros; apply frames_ret]).
Qed.

Lemma frames_convert_loop env names files entries :
  frames R (for_each (convert_loop_body env names) files entries).
Proof.
  apply frames_for_each. intros acc f. unfold convert_loop_body.
  apply frames_try_except.
  - apply frames_bind; [apply frames_convert_file|].
    intros [r|]; apply frames_ret.
  - intros e. apply frames_bind; [apply frames_print | intros; apply frames_ret].
Qed.

End Frames.

Lemma fs_grows_refl w : fs_grows w w.
Proof. now intros p. Qed.

Lemma fs_grows_trans w1 w2 w3 : fs_grows w1 w2 -> fs_grows w2 w3 -> fs_grows w1 w3.
Proof. intros H1 H2 p Hp. now apply H2, H1. Qed.

Lemma fs_grows_print msg w : fs_grows w (w_print msg w).
Proof. now intros p. Qed.

Lemma fs_grows_net_call url dest w : fs_grows w (w_net_call url dest w).
Proof. now intros p. Qed.

Lemma fs_grows_create q w : fs_grows w (w_create q w).
Proof.
  intros p Hp. unfold w_create, path_exists in *. cbn [fs].
  destruct (existsb (String.eqb q) (fs w)); [exact Hp|].
  now rewrite existsb_app, Hp.
Qed.

Lemma same_net_refl w : same_net w w.
Proof. reflexivity. Qed.

Lemma same_net_trans w1 w2 w3 : same_net w1 w2 -> same_net w2 w3 -> same_net w1 w3.
Proof. unfold same_net. congruence. Qed.

Lemma stdout_grows_refl w : stdout_grows w w.
Proof. exists []. now rewrite app_nil_r. Qed.

Lemma stdout_grows_trans w1 w2 w3 :
  stdout_grows w1 w2 -> stdout_grows w2 w3 -> stdout_grows w1 w3.
Proof.
  intros [o1 H1] [o2 H2]. exists (o1 ++ o2)%list. now rewrite H2, H1, app_assoc.
Qed.

Lemma stdout_grows_print msg w : stdout_grows w (w_print msg w).
Proof. now exists [msg]. Qed.

Lemma stdout_grows_create p w : stdout_grows w (w_create p w).
Proof. exists []. cbn. now rewrite app_nil_r. Qed.

(** ** The fetcher, whatever the network does *)

Lemma fetch_xml_cases env url dest w :
  (path_exists dest w = true
   /\ fetch_xml env url dest w
      = (Return dest, w_print ("  [cached] " ++ OsPath.basename dest) w))
  \/ (path_exists dest w = false
      /\ fetch_xml env url dest w
         = (Return dest,
            w_create dest
              (w_net_call url dest (w_print ("  Fetching " ++ url ++ " ...") w))))
  \/ (path_exists dest w = false
      /\ exists (msg : string) (partial : bool),
           fetch_xml env url dest w
           = (Raise (Exception msg),
              let w1 := w_net_call url dest
                          (w_print ("  Fetching " ++ url ++ " ...") w) in
              if partial then w_create dest w1 else w1)).
Proof.
  destruct (path_exists dest w) eqn:He.
  - left. split; [reflexivity | now apply fetch_xml_cached].
  - right.
    destruct (urlretrieve env (w_print ("  Fetching " ++ url ++ " ...") w) url dest)
      as [|msg partial] eqn:Hn.
    + left. split; [reflexivity | now apply fetch_xml_retrieved].
    + right. split; [reflexivity|]. exists msg, partial.
      now apply fetch_xml_failed.
Qed.

Lemma fs_grows_fetched url dest w :
  fs_grows w (w_create dest
                (w_net_call url dest (w_print ("  Fetching " ++ url ++ " ...") w))).
Proof.
  intros p Hp. now apply fs_grows_create.
Qed.

Lemma fs_grows_fetching url dest w (partial : bool) :
  fs_grows w
    (let w1 := w_net_call url dest (w_print ("  Fetching " ++ url ++ " ...") w) in
     if partial then w_create dest w1 else w1).
Proof.
  destruct partial; cbv zeta; [apply fs_grows_fetched | now intros p].
Qed.

(** X4. Whatever the network does, one call of [fetch_xml] removes nothing,
    makes at most one call to [urlretrieve], and none when the destination
    exists.  When it returns, it returns its destination, which then
    exists, and a later call for that destination is the cached path for
    every URL: the URL of a cached file is never looked at.  When it raises,
    the exception is the one of the download, the destination was absent
    and the download was tried once. *)
Theorem fetch_xml_effects (env : Env) (url dest : string) (w : World) :
  let r := fst (fetch_xml env url dest w) in
  let w' := snd (fetch_xml env url dest w) in
  fs_grows w w'
  /\ (net_calls w' = net_calls w
      \/ (path_exists dest w = false
          /\ net_calls w' = (net_calls w ++ [(url, dest)])%list))
  /\ match r with
     | Return p =>
         p = dest /\ path_exists dest w' = true
         /\ forall url2,
              fetch_xml env url2 dest w'
              = (Return dest, w_print ("  [cached] " ++ OsPath.basename dest) w')
     | Raise e =>
         (exists msg, e = Exception msg)
         /\ path_exists dest w = false
         /\ net_calls w' = (net_calls w ++ [(url, dest)])%list
     end.
Proof.
  destruct (fetch_xml_cases env url dest w)
    as [[He ->]|[[He ->]|(He & msg & partial & ->)]]; cbn [fst snd].
  - split; [apply fs_grows_print|]. split; [now left|].
    split; [reflexivity|]. split; [exact He|].
    intros url2. now apply fetch_xml_cached.
  - split; [apply fs_grows_fetched|].
    split; [now right|]. split; [reflexivity|].
    split; [apply path_exists_create|].
    intros url2. apply fetch_xml_cached, path_exists_create.
  - split; [apply fs_grows_fetching|].
    split; [right; split; [exact He | now destruct partial]|].
    split; [now exists msg|]. split; [exact He | now destruct partial].
Qed.

(** ** The fetch loop, whatever the network does *)

Lemma fetch_loop_body_effects env xml_dir files spec w :
  exists add w1,
    fetch_loop_body env xml_dir files spec w = (Return (files ++ add)%list, w1)
    /\ (add = []
        \/ (add = [xml_target xml_dir spec]
            /\ path_exists (xml_target xml_dir spec) w1 = true))
    /\ fs_grows w w1
    /\ List.length (net_calls w1) <= S (List.length (net_calls w)).
Proof.
  destruct spec as [url name]. unfold xml_target. cbn [snd].
  unfold fetch_loop_body, try_except, bind at 1.
  set (dest := OsPath.join xml_dir (name ++ ".xml")).
  destruct (fetch_xml_cases env url dest w)
    as [[He ->]|[[He ->]|(He & msg & partial & ->)]].
  - exists [dest]. eexists. split; [reflexivity|].
    split; [right; split; [reflexivity | exact He]|].
    split; [apply fs_grows_print|]. cbn. lia.
  - exists [dest]. eexists. split; [reflexivity|].
    split; [right; split; [reflexivity | apply path_exists_create]|].
    split; [apply fs_grows_fetched|].
    cbn. rewrite length_app. cbn. lia.
  - exists []. eexists. unfold bind, print, ret. rewrite app_nil_r.
    split; [reflexivity|]. split; [now left|]. split.
    { eapply fs_grows_trans; [apply (fs_grows_fetching url dest w partial)|].
      apply fs_grows_print. }
    destruct partial; cbn; rewrite length_app; cbn; lia.
Qed.

(** X5. The fetch loop of [main] returns for every list of entries.  The
    files it hands on are, in the order of the entries, the destinations of
    the entries whose fetch returned; every one of them exists when the loop
    ends; nothing that existed is gone; and the loop makes at most one
    download per entry. *)
Theorem fetch_loop_files (env : Env) (xml_dir : string)
        (specs : list (string * string)) (files0 : list string) (w : World) :
  exists add w',
    for_each (fetch_loop_body env xml_dir) specs files0 w
    = (Return (files0 ++ add)%list, w')
    /\ subseq add (map (xml_target xml_dir) specs)
    /\ Forall (fun f => path_exists f w' = true) add
    /\ fs_grows w w'
    /\ List.length (net_calls w')
       <= List.length (net_calls w) + List.length specs.
Proof.
  revert files0 w. induction specs as [|spec specs IH]; intros files0 w.
  - exists [], w. cbn. rewrite app_nil_r.
    repeat split; try constructor; try lia. apply fs_grows_refl.
  - cbn [for_each map]. unfold bind.
    destruct (fetch_loop_body_effects env xml_dir files0 spec w)
      as (add1 & w1 & -> & Hadd & Hfs1 & Hn1).
    destruct (IH (files0 ++ add1)%list w1) as (add2 & w2 & -> & Hsub & Hex & Hfs2 & Hn2).
    exists (add1 ++ add2)%list, w2. rewrite app_assoc.
    split; [reflexivity|].
    split; [|split; [|split]].
    + destruct Hadd as [->|[-> _]]; cbn; now constructor.
    + destruct Hadd as [->|[-> He]]; cbn; [exact Hex|].
      constructor; [now apply Hfs2 | exact Hex].
    + eapply fs_grows_trans; eassumption.
    + cbn [List.length]. lia.
Qed.

(** ** The converter, step by step *)

Lemma for_each_print {A} (f : A -> string) (l : list A) (w : World) :
  for_each (fun _ x => print (f x)) l tt w = (Return tt, w_prints (map f l) w).
Proof.
  revert w. induction l as [|x l IH]; intros w; [reflexivity|].
  cbn [for_each map]. unfold bind, print at 1. now rewrite IH.
Qed.

Lemma print_warnings_run (stderr : string) (w : World) :
  print_warnings stderr w = (Return tt, w_prints (warning_lines stderr) w).
Proof.
  unfold print_warnings, warning_lines.
  destruct (PyStr.is_empty (PyStr.strip stderr)); cbn [negb]; [reflexivity|].
  unfold bind. rewrite for_each_print. rewrite w_prints_app.
  now destruct (_ <? _)%nat.
Qed.

(** X10. For the standard error of [makeinfo], [convert_file] prints nothing
    when the text is blank, and otherwise the first five lines of the
    stripped text and, when there are more, one line with the count of the
    others: at least one line and never more than six. *)
Theorem print_warnings_lines (stderr : string) (w : World) :
  print_warnings stderr w = (Return tt, w_prints (warning_lines stderr) w)
  /\ stdout (w_prints (warning_lines stderr) w)
     = (stdout w ++ warning_lines stderr)%list
  /\ List.length (warning_lines stderr) <= 6
  /\ (PyStr.strip stderr = "" <-> warning_lines stderr = []).
Proof.
  split; [apply print_warnings_run|]. split; [apply stdout_w_prints|].
  unfold warning_lines.
  destruct (PyStr.strip stderr) as [|c s] eqn:Hs; cbn [PyStr.is_empty].
  - split; [cbn; lia | now split].
  - set (ws := PyStr.split_on "010" (String c s)). split.
    + rewrite length_app, length_map, length_firstn.
      destruct (5 <? List.length ws)%nat; cbn [List.length]; lia.
    + split; [discriminate|].
      assert (ws <> []) as Hne.
      { unfold ws. cbn [PyStr.split_on].
        destruct (Ascii.eqb c "010"); [discriminate|].
        destruct (PyStr.split_on "010" s); discriminate. }
      destruct ws as [|x ws']; [congruence|]. discriminate.
Qed.

(** [convert_file], one step after the other. *)
Lemma convert_file_steps env filepath output_dir names w :
  let stem := stem_of filepath in
  let texi_path := texi_path_of filepath output_dir in
  let info_path := info_path_of filepath output_dir in
  let names' := match names with Some l => l | None => [] end in
  let w0 := w_print ("  Parsing " ++ OsPath.basename filepath ++ " ...") w in
  convert_file env filepath output_dir names w
  = match convert_try env filepath stem texi_path names' w0 with
    | (Return None, w1) => (Return None, w1)
    | (Raise (Exception e), w1) =>
        (Return None, w_print ("  ERROR in xml2rfc processing: " ++ e) w1)
    | (Raise (SystemExit code), w1) => (Raise (SystemExit code), w1)
    | (Return (Some (doc_id, title)), w1) =>
        match makeinfo env w1 info_path texi_path with
        | Fails msg => (Raise (Exception msg), w1)
        | Ok (stderr, created) =>
            let w2 := if created then w_create info_path w1 else w1 in
            let w3 := w_prints (warning_lines stderr) w2 in
            if path_exists info_path w3
            then (Return (Some (OsPath.basename info_path, doc_id, title)),
                  w_print ("  -> " ++ OsPath.basename info_path) w3)
            else (Return None,
                  w_print ("  FAILED: " ++ OsPath.basename info_path) w3)
        end
    end.
Proof.
  intros stem texi_path info_path names' w0.
  unfold convert_file. unfold bind at 1, print at 1. unfold bind at 1.
  fold (stem_of filepath). fold (out_dir_of filepath output_dir).
  fold (texi_path_of filepath output_dir). fold (info_path_of filepath output_dir).
  fold stem texi_path info_path names' w0.
  unfold try_except.
  destruct (convert_try env filepath stem texi_path names' w0)
    as [[[[doc_id title]|]|[e|code]] w1]; try reflexivity.
  unfold bind at 1, call_makeinfo.
  destruct (makeinfo env w1 info_path texi_path) as [[stderr created]|msg];
    [|reflexivity].
  unfold bind at 1. rewrite print_warnings_run.
  unfold bind at 1, get_world. cbv zeta.
  now destruct (path_exists info_path _).
Qed.

Lemma convert_try_no_exit env filepath basename texi_path names w code :
  fst (convert_try env filepath basename texi_path names w)
  <> Raise (SystemExit code).
Proof. apply quiet_convert_try. Qed.

(** X7. [convert_file] raises only when running [makeinfo] raises, and then
    with that exception: every failure of xml2rfc, in parsing, in preparing
    or in writing, is turned into the result [None].  A result other than
    [None] names a file that exists when [convert_file] returns. *)
Theorem convert_file_outcomes (env : Env) (filepath : string)
        (output_dir : option string) (names : option (list string)) (w : World) :
  let info_path := info_path_of filepath output_dir in
  let texi_path := texi_path_of filepath output_dir in
  let w' := snd (convert_file env filepath output_dir names w) in
  match fst (convert_file env filepath output_dir names w) with
  | Raise e =>
      exists msg w1, e = Exception msg
                     /\ makeinfo env w1 info_path texi_path = Fails msg
  | Return (Some (info, _, _)) =>
      info = OsPath.basename info_path /\ path_exists info_path w' = true
  | Return None => True
  end.
Proof.
  intros info_path texi_path w'. unfold w'.
  rewrite convert_file_steps. cbv zeta.
  fold info_path texi_path.
  pose proof (convert_try_no_exit env filepath (stem_of filepath) texi_path
                (match names with Some l => l | None => [] end)
                (w_print ("  Parsing " ++ OsPath.basename filepath ++ " ...") w))
    as Hx.
  destruct (convert_try _ _ _ _ _ _) as [[[[doc_id title]|]|[e|code]] w1];
    cbn [fst snd] in *; trivial.
  - destruct (makeinfo env w1 info_path texi_path) as [[stderr created]|msg] eqn:Hm.
    + destruct (path_exists info_path _) eqn:He; cbn [fst snd]; trivial.
      split; [reflexivity | exact He].
    + cbn [fst]. now exists msg, w1.
  - now elim (Hx code).
Qed.

(** ** Paths *)

Lemma str_app_assoc (a b c : string) : (a ++ b) ++ c = a ++ (b ++ c).
Proof. induction a as [|x a IH]; simpl; [reflexivity | now rewrite IH]. Qed.

Lemma contains_app (c : ascii) (a b : string) :
  PyStr.contains c (a ++ b) = PyStr.contains c a || PyStr.contains c b.
Proof.
  induction a as [|d a IH]; simpl; [reflexivity|]. now rewrite IH, orb_assoc.
Qed.

Lemma after_last_slash_plain (x : string) :
  PyStr.contains "/" x = false -> OsPath.after_last_slash x = (x, false).
Proof.
  induction x as [|c x IH]; [reflexivity|].
  cbn [PyStr.contains OsPath.after_last_slash]. intros H.
  apply orb_false_elim in H as [Hc Hx]. now rewrite (IH Hx), Hc.
Qed.

Lemma after_last_slash_app (a x : string) :
  PyStr.contains "/" x = false ->
  OsPath.after_last_slash (a ++ String "/" x) = (x, true).
Proof.
  intros Hx. induction a as [|c a IH].
  - cbn [String.append OsPath.after_last_slash].
    now rewrite (after_last_slash_plain x Hx).
  - change (String c a ++ String "/" x) with (String c (a ++ String "/" x)).
    cbn [OsPath.after_last_slash]. now rewrite IH.
Qed.

Lemma basename_no_slash (p : string) :
  PyStr.contains "/" (OsPath.basename p) = false.
Proof.
  unfold OsPath.basename. induction p as [|c p IH]; [reflexivity|].
  cbn [OsPath.after_last_slash].
  destruct (OsPath.after_last_slash p) as [t [|]]; cbn [fst] in *; [exact IH|].
  destruct (Ascii.eqb c "/") eqn:Hc; cbn [fst]; [exact IH|].
  cbn [PyStr.contains]. now rewrite Hc, IH.
Qed.

Lemma stem_no_slash (seen : bool) (name : string) :
  PyStr.contains "/" name = false ->
  PyStr.contains "/" (OsPath.stem seen name) = false.
Proof.
  revert seen. induction name as [|c name IH]; intros seen; [reflexivity|].
  cbn [PyStr.contains OsPath.stem]. intros H.
  apply orb_false_elim in H as [Hc Hn].
  destruct (Ascii.eqb c ".").
  - destruct (seen && _); [reflexivity|].
    cbn [PyStr.contains]. now rewrite Hc, IH.
  - cbn [PyStr.contains]. now rewrite Hc, IH.
Qed.

Lemma last_char (a : string) :
  a <> "" ->
  exists a' c, a = a' ++ String c "" /\ get (String.length a - 1) a = Some c.
Proof.
  induction a as [|d a IH]; [congruence|]. intros _.
  destruct a as [|e a].
  - now exists "", d.
  - destruct IH as (a' & c & Ha & Hg); [discriminate|].
    exists (String d a'), c. split; [simpl; now rewrite <- Ha|].
    cbn [String.length] in *.
    replace (S (String.length a) - 1) with (String.length a) in Hg by lia.
    replace (S (S (String.length a)) - 1) with (S (String.length a)) by lia.
    exact Hg.
Qed.

(** The base name of a path joined from a directory and a name without
    slash is that name. *)
Lemma basename_join (d x : string) :
  PyStr.contains "/" x = false -> OsPath.basename (OsPath.join d x) = x.
Proof.
  intros Hx. unfold OsPath.join, OsPath.basename.
  assert (PyStr.startswith "/" x = false) as ->.
  { destruct x as [|c x]; [reflexivity|]. unfold PyStr.startswith.
    cbn [String.prefix]. cbn [PyStr.contains] in Hx.
    apply orb_false_elim in Hx as [Hc _].
    destruct (ascii_dec "/" c) as [<-|_]; [discriminate Hc | reflexivity]. }
  destruct d as [|d0 d]; cbn [PyStr.is_empty].
  { now rewrite after_last_slash_plain. }
  destruct (last_char (String d0 d)) as (a' & c & Ha & ->); [discriminate|].
  rewrite Ha.
  destruct (Ascii.eqb_spec c "/") as [->|_].
  - rewrite str_app_assoc. cbn [String.append].
    now rewrite after_last_slash_app.
  - change ("/" ++ x) with (String "/" x).
    now rewrite after_last_slash_app.
Qed.

(** What precedes an extension without dot is the stem, as soon as a
    character other than a dot precedes it. *)
Lemma stem_extension (seen : bool) (s e : string) :
  PyStr.contains "." e = false ->
  seen || negb (PyStr.all (fun c => Ascii.eqb c ".") s) = true ->
  OsPath.stem seen (s ++ String "." e) = s.
Proof.
  intros He. revert seen. induction s as [|c s IH]; intros seen H.
  - cbn in H. rewrite orb_false_r in H. subst seen.
    cbn [String.append OsPath.stem Ascii.eqb Bool.eqb andb]. now rewrite He.
  - change (String c s ++ String "." e) with (String c (s ++ String "." e)).
    cbn [OsPath.stem]. cbn [PyStr.all] in H.
    destruct (Ascii.eqb c ".") eqn:Hc.
    + rewrite contains_app. cbn [PyStr.contains Ascii.eqb Bool.eqb andb orb].
      rewrite orb_true_r, andb_false_r. f_equal. now apply IH.
    + f_equal. now apply IH.
Qed.

Lemma stem_of_no_slash (filepath ext : string) :
  PyStr.contains "/" ext = false ->
  PyStr.contains "/" (stem_of filepath ++ ext) = false.
Proof.
  intros He. rewrite contains_app, He. unfold stem_of, OsPath.splitext_root.
  now rewrite stem_no_slash by apply basename_no_slash.
Qed.

Lemma info_basename (filepath : string) (output_dir : option string) :
  OsPath.basename (info_path_of filepath output_dir) = stem_of filepath ++ ".info".
Proof.
  unfold info_path_of. apply basename_join. now apply stem_of_no_slash.
Qed.

(** What the [try] block of [convert_file] did when it passes on an
    identifier and a title. *)
Lemma convert_try_result env filepath basename texi_path names w d t w1 :
  convert_try env filepath basename texi_path names w
  = (Return (Some (d, t)), w1) ->
  exists root0 root,
    xml_parse env w filepath names = Ok root0
    /\ (if PyStr.is_empty (attr_get (prepTime root0) "")
        then v2v3_prep env w root0 names = Ok (Some root)
        else root = root0)
    /\ texinfo_write env w root texi_path names = Ok tt
    /\ d = doc_id_of root basename
    /\ t = title_of root
    /\ w1 = w_create texi_path w.
Proof.
  unfold convert_try, bind. intros Htry.
  destruct (xml_parse env w filepath names) as [root0|msg] eqn:Hparse;
    cbn [of_outcome] in Htry; [|discriminate].
  exists root0.
  destruct (PyStr.is_empty (attr_get (prepTime root0) "")).
  - destruct (v2v3_prep env w root0 names) as [[root|]|msg] eqn:Hprep;
      cbn [of_outcome] in Htry; unfold print, ret in Htry; try discriminate.
    destruct (texinfo_write env w root texi_path names) as [[]|msg] eqn:Hw;
      try discriminate.
    injection Htry as <- <- <-. exists root. repeat split; trivial.
  - unfold ret at 1 in Htry.
    destruct (texinfo_write env w root0 texi_path names) as [[]|msg] eqn:Hw;
      unfold ret in Htry; try discriminate.
    injection Htry as <- <- <-. exists root0. repeat split; trivial.
Qed.

(** X8. A result of [convert_file] other than [None] is made of the base
    name of the input without its extension followed by .info, whatever the
    directories are, and of the identifier and the title of the tree
    xml2rfc rendered: the tree the parser gave for the input when it has a
    preparation time, otherwise the tree the conversion and preparation of
    that tree gave; the writer rendered this tree to the Texinfo file, and
    the Info file the result names exists in the output directory. *)
Theorem convert_file_success (env : Env) (filepath : string)
        (output_dir : option string) (names : option (list string))
        (w w' : World) (info id title : string) :
  convert_file env filepath output_dir names w
  = (Return (Some (info, id, title)), w') ->
  let w0 := w_print ("  Parsing " ++ OsPath.basename filepath ++ " ...") w in
  let names' := match names with Some l => l | None => [] end in
  info = stem_of filepath ++ ".info"
  /\ path_exists (info_path_of filepath output_dir) w' = true
  /\ exists root0 root,
       xml_parse env w0 filepath names' = Ok root0
       /\ (if PyStr.is_empty (attr_get (prepTime root0) "")
           then v2v3_prep env w0 root0 names' = Ok (Some root)
           else root = root0)
       /\ texinfo_write env w0 root (texi_path_of filepath output_dir) names'
          = Ok tt
       /\ id = doc_id_of root (stem_of filepath)
       /\ title = title_of root.
Proof.
  intros H w0 names'.
  rewrite convert_file_steps in H. cbv zeta in H. fold w0 names' in H.
  destruct (convert_try _ _ _ _ _ _) as [[[[d t]|]|[e|code]] w1] eqn:Htry;
    try discriminate.
  destruct (convert_try_result _ _ _ _ _ _ _ _ _ Htry)
    as (root0 & root & Hp & Hprep & Hw & -> & -> & _).
  destruct (makeinfo env w1 _ _) as [[stderr created]|msg]; [|discriminate].
  destruct (path_exists _ _) eqn:He; [|discriminate].
  injection H as <- <- <- <-.
  split; [apply info_basename|]. split; [exact He|].
  exists root0, root. repeat split; trivial.
Qed.

Lemma convert_file_success_witness :
  let r := convert_file rar_env "/opt/rfc/xml/rfc9126.xml" (Some "/opt/rfc")
             None rar_world in
  r = (Return (Some ("rfc9126.info", "RFC 9126",
                     "OAuth 2.0 Rich Authorization Requests")), snd r)
  /\ "rfc9126.info" = stem_of "/opt/rfc/xml/rfc9126.xml" ++ ".info"
  /\ path_exists (info_path_of "/opt/rfc/xml/rfc9126.xml" (Some "/opt/rfc"))
                 (snd r) = true
  /\ "RFC 9126" = doc_id_of rar_root (stem_of "/opt/rfc/xml/rfc9126.xml")
  /\ "OAuth 2.0 Rich Authorization Requests" = title_of rar_root.
Proof.
  intros r.
  assert (r = (Return (Some ("rfc9126.info", "RFC 9126",
                             "OAuth 2.0 Rich Authorization Requests")), snd r))
    as H by (vm_compute; reflexivity).
  split; [exact H|].
  pose proof (convert_file_success rar_env "/opt/rfc/xml/rfc9126.xml"
                (Some "/opt/rfc") None rar_world (snd r) _ _ _ H)
    as (Hi & He & root0 & root & Hp & Hprep & _ & Hid & Ht).
  injection Hp as <-. cbn in Hprep. subst root.
  split; [exact Hi|]. split; [exact He|]. split; [exact Hid | exact Ht].
Defined.

Lemma fs_grows_prints (l : list string) (w : World) : fs_grows w (w_prints l w).
Proof.
  revert w. induction l as [|m l IH]; intros w; [apply fs_grows_refl|].
  cbn. eapply fs_grows_trans; [apply fs_grows_print | apply IH].
Qed.

Lemma convert_try_rendered env filepath basename texi_path names w root0 root :
  xml_parse env w filepath names = Ok root0 ->
  (if PyStr.is_empty (attr_get (prepTime root0) "")
   then v2v3_prep env w root0 names = Ok (Some root)
   else root = root0) ->
  texinfo_write env w root texi_path names = Ok tt ->
  convert_try env filepath basename texi_path names w
  = (Return (Some (doc_id_of root basename, title_of root)),
     w_create texi_path w).
Proof.
  intros Hp Ht Hw. unfold convert_try, bind at 1. rewrite Hp. cbn [of_outcome].
  destruct (PyStr.is_empty (attr_get (prepTime root0) "")).
  - unfold bind at 1. rewrite Ht. cbn [of_outcome]. unfold bind.
    now rewrite Hw.
  - subst root0. unfold bind at 1, ret at 1. unfold bind. now rewrite Hw.
Qed.

(** X9. Success is read off the existence of the Info file alone: when the
    file is there before the conversion, left by an earlier run, and xml2rfc
    renders the document, [convert_file] returns its result whether or not
    [makeinfo] produced anything.  The document rendered is the parsed tree
    when it has a preparation time, and otherwise the tree its conversion and
    preparation gave. *)
Theorem convert_file_stale_output (env : Env) (filepath : string)
        (output_dir : option string) (names : option (list string))
        (w : World) (root0 root : Root) (stderr : string) (created : bool) :
  let stem := stem_of filepath in
  let texi_path := texi_path_of filepath output_dir in
  let info_path := info_path_of filepath output_dir in
  let names' := match names with Some l => l | None => [] end in
  let w0 := w_print ("  Parsing " ++ OsPath.basename filepath ++ " ...") w in
  xml_parse env w0 filepath names' = Ok root0 ->
  (if PyStr.is_empty (attr_get (prepTime root0) "")
   then v2v3_prep env w0 root0 names' = Ok (Some root)
   else root = root0) ->
  texinfo_write env w0 root texi_path names' = Ok tt ->
  makeinfo env (w_create texi_path w0) info_path texi_path
  = Ok (stderr, created) ->
  path_exists info_path w = true ->
  fst (convert_file env filepath output_dir names w)
  = Return (Some (stem ++ ".info", doc_id_of root stem, title_of root)).
Proof.
  intros stem texi_path info_path names' w0 Hp Ht Hw Hm He.
  rewrite convert_file_steps. cbv zeta.
  fold stem texi_path info_path names' w0.
  rewrite (convert_try_rendered env filepath stem texi_path names' w0 root0 root
             Hp Ht Hw).
  rewrite Hm.
  assert (path_exists info_path
            (w_prints (warning_lines stderr)
               (if created then w_create info_path (w_create texi_path w0)
                else w_create texi_path w0)) = true)
    as ->.
  { apply fs_grows_prints.
    destruct created; repeat apply fs_grows_create; exact He. }
  cbn [fst]. unfold info_path, stem. now rewrite info_basename.
Qed.

Lemma convert_file_stale_output_witness :
  makeinfo stale_env stale_world "/opt/rfc/rfc9126.info" "/opt/rfc/rfc9126.texi"
  = Ok ("rfc9126.texi:12: misplaced {" ++ String "010" "", false)
  /\ fst (convert_file stale_env "/opt/rfc/xml/rfc9126.xml" (Some "/opt/rfc")
            None stale_world)
     = Return (Some ("rfc9126.info", "RFC 9126",
                     "OAuth 2.0 Rich Authorization Requests"))
  /\ PyStr.is_empty (attr_get (prepTime oauth_draft_root) "") = true
  /\ fst (convert_file stale_v2_env "/opt/rfc/xml/rfc6749.xml" (Some "/opt/rfc")
            None stale_v2_world)
     = Return (Some ("rfc6749.info", "RFC 6749",
                     "The OAuth 2.0 Authorization Framework")).
Proof.
  split; [reflexivity|]. split; [|split; [reflexivity|]].
  - exact (convert_file_stale_output stale_env "/opt/rfc/xml/rfc9126.xml"
             (Some "/opt/rfc") None stale_world rar_root rar_root
             ("rfc9126.texi:12: misplaced {" ++ String "010" "") false
             eq_refl eq_refl eq_refl eq_refl eq_refl).
  - exact (convert_file_stale_output stale_v2_env "/opt/rfc/xml/rfc6749.xml"
             (Some "/opt/rfc") None stale_v2_world oauth_draft_root
             oauth_prepared_root "" false
             eq_refl eq_refl eq_refl eq_refl eq_refl).
Defined.

(** X16. The fetch loop and the converter agree on names: the XML of an
    entry whose output name has no slash and is not made of dots alone is
    stored under a path whose base name without extension is that output
    name, so that its Info file is <name>.info. *)
Theorem xml_target_stem (xml_dir url name : string) :
  PyStr.contains "/" name = false ->
  PyStr.all (fun c => Ascii.eqb c ".") name = false ->
  stem_of (xml_target xml_dir (url, name)) = name
  /\ forall output_dir,
       OsPath.basename (info_path_of (xml_target xml_dir (url, name)) output_dir)
       = name ++ ".info".
Proof.
  intros Hs Hd.
  assert (stem_of (xml_target xml_dir (url, name)) = name) as Hstem.
  { unfold stem_of, xml_target. cbn [snd].
    rewrite basename_join by (rewrite contains_app, Hs; reflexivity).
    unfold OsPath.splitext_root.
    apply (stem_extension false name "xml"); [reflexivity|].
    now rewrite Hd. }
  split; [exact Hstem|]. intros output_dir. now rewrite info_basename, Hstem.
Qed.

Lemma xml_target_stem_witness :
  stem_of (xml_target "/opt/rfc/xml"
             ("https://www.ietf.org/archive/id/draft-ietf-oauth-v2-1.13.xml",
              "draft-ietf-oauth-v2-1.13"))
  = "draft-ietf-oauth-v2-1.13".
Proof.
  exact (proj1 (xml_target_stem "/opt/rfc/xml"
                  "https://www.ietf.org/archive/id/draft-ietf-oauth-v2-1.13.xml"
                  "draft-ietf-oauth-v2-1.13" eq_refl eq_refl)).
Defined.

(** ** The index, entry by entry *)

Lemma lt_irrefl (a : string) : PyStr.lt a a = false.
Proof.
  unfold PyStr.lt, String.ltb.
  replace (String.compare a a) with Eq; [reflexivity|].
  symmetry. now apply String_as_OT.cmp_eq.
Qed.

Lemma insert_by_with_key (k : string) (x : string * string * string)
      (l : list (string * string * string)) :
  with_key k (insert_by entry_key x l)
  = if entry_key x =? k then x :: with_key k l else with_key k l.
Proof.
  unfold with_key. induction l as [|y l IH]; [reflexivity|].
  cbn [insert_by]. destruct (PyStr.lt (entry_key y) (entry_key x)) eqn:Hlt.
  - cbn [filter]. rewrite IH.
    destruct (String.eqb_spec (entry_key x) k) as [Hx|Hx]; [|reflexivity].
    destruct (String.eqb_spec (entry_key y) k) as [Hy|Hy]; [|reflexivity].
    rewrite Hx, Hy, lt_irrefl in Hlt. discriminate.
  - reflexivity.
Qed.

(** X11. The sort of the index is stable: the entries that share an
    identifier keep, in the menu, the order they had in the list of
    results, which is the order of the conversions. *)
Theorem generate_dir_file_stable (entries : list (string * string * string))
        (k : string) :
  with_key k (sorted entry_key entries) = with_key k entries
  /\ dir_lines entries
     = (dir_header ++ map menu_line (sorted entry_key entries) ++ [""])%list.
Proof.
  split; [|reflexivity].
  induction entries as [|e entries IH]; [reflexivity|].
  cbn [sorted fold_right]. fold (sorted entry_key entries).
  rewrite insert_by_with_key, IH. reflexivity.
Qed.

Lemma prefix_info_app (s : string) :
  s <> "" -> String.prefix ".info" s = false ->
  String.prefix ".info" (s ++ ".info") = false.
Proof.
  intros Hne H. revert H.
  destruct s as [|c1 [|c2 [|c3 [|c4 [|c5 r]]]]]; [congruence | | | | |];
    cbn [String.prefix String.append];
    repeat match goal with
           | |- context [ascii_dec ?a ?b] =>
               destruct (ascii_dec a b); try discriminate; subst
           end;
    intros; try reflexivity; try congruence.
  destruct r; discriminate.
Qed.

Lemma replace_info_extension (base : string) :
  occurs_in ".info" base = false ->
  PyStr.replace ".info" "" (base ++ ".info") = base.
Proof.
  unfold PyStr.replace. induction base as [|c base IH]; [reflexivity|].
  cbn [occurs_in]. intros H. apply orb_false_elim in H as [Hp Ho].
  pose proof (prefix_info_app (String c base) ltac:(discriminate) Hp) as Hq.
  change (String c base ++ ".info") with (String c (base ++ ".info")) in *.
  cbn [PyStr.replace_from]. rewrite Hq. now rewrite IH.
Qed.

(** X12. For an output file <base>.info whose base name does not contain
    .info, the menu line is * <label>: (<base>).  <title>. where the label
    is the identifier when it is not empty and the base name otherwise. *)
Theorem menu_line_shape (base doc_id title : string) :
  occurs_in ".info" base = false ->
  menu_line (base ++ ".info", doc_id, title)
  = "* " ++ (if PyStr.is_empty doc_id then base else doc_id)
      ++ ": (" ++ base ++ ").  " ++ title ++ ".".
Proof.
  intros H. unfold menu_line. rewrite (replace_info_extension base H).
  now destruct (PyStr.is_empty doc_id).
Qed.

Lemma menu_line_shape_witness :
  menu_line ("draft-ietf-oauth-v2-1.13" ++ ".info", "", "The OAuth 2.1 Framework")
  = "* draft-ietf-oauth-v2-1.13: (draft-ietf-oauth-v2-1.13).  The OAuth 2.1 Framework.".
Proof.
  exact (menu_line_shape "draft-ietf-oauth-v2-1.13" "" "The OAuth 2.1 Framework"
           eq_refl).
Defined.

(** ** The identifier, case by case *)

Lemma prefix_drop (a s : string) :
  String.prefix a s = true -> s = a ++ PyStr.drop (String.length a) s.
Proof.
  revert s. induction a as [|c a IH]; intros s H.
  - now destruct s.
  - destruct s as [|d s]; [discriminate|]. cbn [String.prefix] in H.
    destruct (ascii_dec c d) as [<-|]; [|discriminate].
    cbn. f_equal. now apply IH.
Qed.

Lemma take_digits_drop (s : string) :
  s = take_digits s ++ PyStr.drop (String.length (take_digits s)) s
  /\ PyStr.all PyStr.isdigit (take_digits s) = true.
Proof.
  induction s as [|c s [IH1 IH2]]; [now split|].
  cbn [take_digits]. destruct (PyStr.isdigit c) eqn:Hc; [|now split].
  cbn. rewrite Hc, IH2. split; [now rewrite <- IH1 | reflexivity].
Qed.

Lemma take_digits_newline (d : string) :
  PyStr.all PyStr.isdigit d = true ->
  take_digits (d ++ String "010" "") = d
  /\ PyStr.drop (String.length d) (d ++ String "010" "") = String "010" "".
Proof.
  induction d as [|c d IH]; [now split|].
  cbn. intros H. apply andb_prop in H as [Hc Hd]. rewrite Hc.
  destruct (IH Hd) as [-> ->]. now split.
Qed.

(** X13. The pattern of the file-name fallback matches exactly the base
    names made of rfc and one or more digits, followed by nothing or by one
    newline, and its group is the digits. *)
Theorem rfc_basename_match_iff (s d : string) :
  rfc_basename_match s = Some d
  <-> (PyStr.is_empty d = false /\ PyStr.all PyStr.isdigit d = true
       /\ (s = "rfc" ++ d \/ s = "rfc" ++ d ++ String "010" "")).
Proof.
  split.
  - unfold rfc_basename_match, PyStr.startswith. cbv zeta.
    destruct (String.prefix "rfc" s) eqn:Hp; [|discriminate].
    apply prefix_drop in Hp. change (String.length "rfc") with 3 in Hp.
    destruct (take_digits_drop (PyStr.drop 3 s)) as [Hsplit Hdig].
    destruct (PyStr.is_empty (take_digits (PyStr.drop 3 s))) eqn:Hne;
      [discriminate|].
    destruct (PyStr.is_empty _ || _) eqn:Ht; [|discriminate].
    intros [= <-]. split; [exact Hne|]. split; [exact Hdig|].
    apply orb_prop in Ht as [Ht|Ht].
    + left. apply is_empty_true in Ht. rewrite Ht, append_empty_r in Hsplit.
      etransitivity; [exact Hp|]. f_equal. exact Hsplit.
    + right. apply String.eqb_eq in Ht. rewrite Ht in Hsplit.
      etransitivity; [exact Hp|]. f_equal. exact Hsplit.
  - intros (Hne & Hd & [->| ->]); [now apply rfc_basename_match_digits|].
    unfold rfc_basename_match, PyStr.startswith. rewrite prefix_append.
    change (PyStr.drop 3 ("rfc" ++ d ++ String "010" ""))
      with (d ++ String "010" "").
    destruct (take_digits_newline d Hd) as [-> ->]. now rewrite Hne.
Qed.

(** X14. The identifier is empty, so that the index falls back to the base
    name as label, exactly when the root has no number and no document
    name, the front matter has no series-info element named RFC, and the
    base name does not match the pattern; an empty attribute counts as a
    missing one. *)
Theorem doc_id_of_empty_iff (root : Root) (basename : string) :
  doc_id_of root basename = ""
  <-> (attr_get (number root) "" = "" /\ attr_get (docName root) "" = ""
       /\ series_rfc_value (front_seriesInfo root) = None
       /\ rfc_basename_match basename = None).
Proof.
  unfold doc_id_of. rewrite series_info_loop_value.
  destruct (attr_get (number root) "") as [|c n];
    destruct (attr_get (docName root) "") as [|c' m];
    destruct (series_rfc_value (front_seriesInfo root)) as [[|c'' v]|];
    destruct (rfc_basename_match basename) as [dg|];
    cbn; split; try discriminate; try (intros (? & ? & ? & ?); discriminate);
    try (intros _; repeat split; reflexivity); try reflexivity.
Qed.

(** X15. A series-info element named RFC that has no value, or an empty
    one, still ends the search: when the root has no number and the base
    name does not match the pattern, the identifier is RFC followed by a
    space and nothing, whatever the document name is. *)
Theorem doc_id_of_series_without_value (root : Root) (basename : string) :
  attr_get (number root) "" = "" ->
  series_rfc_value (front_seriesInfo root) = Some "" ->
  rfc_basename_match basename = None ->
  doc_id_of root basename = "RFC ".
Proof.
  intros Hn Hs Hm. unfold doc_id_of.
  rewrite series_info_loop_value, Hn, Hs, Hm. reflexivity.
Qed.

Lemma doc_id_of_series_without_value_witness :
  doc_id_of (mkRoot None None (Some "draft-ietf-oauth-par-10") None
                    [mkSeriesInfo (Some "Internet-Draft") (Some "draft-ietf-oauth-par-10");
                     mkSeriesInfo (Some "RFC") None])
            "draft-ietf-oauth-par-10"
  = "RFC ".
Proof.
  exact (doc_id_of_series_without_value
           (mkRoot None None (Some "draft-ietf-oauth-par-10") None
                   [mkSeriesInfo (Some "Internet-Draft") (Some "draft-ietf-oauth-par-10");
                    mkSeriesInfo (Some "RFC") None])
           "draft-ietf-oauth-par-10" eq_refl eq_refl eq_refl).
Defined.

Lemma stem_of_xml_target (xml_dir url name : string) :
  PyStr.contains "/" name = false ->
  PyStr.all (fun c => Ascii.eqb c ".") name = false ->
  stem_of (xml_target xml_dir (url, name)) = name.
Proof.
  intros Hs Hd. unfold stem_of, xml_target. cbn [snd].
  rewrite basename_join by (rewrite contains_app, Hs; reflexivity).
  unfold OsPath.splitext_root.
  apply (stem_extension false name "xml"); [reflexivity|]. now rewrite Hd.
Qed.

Lemma digits_without (c : ascii) (d : string) :
  PyStr.isdigit c = false -> PyStr.all PyStr.isdigit d = true ->
  PyStr.contains c d = false.
Proof.
  intros Hc. induction d as [|x d IH]; [reflexivity|].
  cbn. intros H. apply andb_prop in H as [Hx Hd].
  destruct (Ascii.eqb_spec x c) as [->|_]; [congruence|]. now apply IH.
Qed.

(** X17. An entry [rfc <digits>] of specs.conf is always labelled as an RFC.
    Its XML is stored as rfc<digits>.xml, the base name matches the pattern,
    and so the identifier is RFC followed by the number of the root, else by
    the value of the series-info element named RFC, else by the digits of
    the entry; the document name of a draft fetched under that name is never
    the label. *)
Theorem rfc_entry_identifier (xml_dir url num : string) (root : Root) :
  PyStr.is_empty num = false -> PyStr.all PyStr.isdigit num = true ->
  let stem := stem_of (xml_target xml_dir (url, "rfc" ++ num)) in
  stem = "rfc" ++ num
  /\ (exists n, doc_id_of root stem = "RFC " ++ n)
  /\ (attr_get (number root) "" = "" ->
      series_rfc_value (front_seriesInfo root) = None
      \/ series_rfc_value (front_seriesInfo root) = Some "" ->
      doc_id_of root stem = "RFC " ++ num).
Proof.
  intros Hne Hd stem.
  assert (stem = "rfc" ++ num) as ->.
  { apply stem_of_xml_target; [|reflexivity].
    cbn [String.append PyStr.contains Ascii.eqb Bool.eqb andb orb].
    now apply digits_without. }
  split; [reflexivity|].
  unfold doc_id_of.
  rewrite series_info_loop_value, (rfc_basename_match_digits num Hne Hd).
  split.
  - destruct (attr_get (number root) "") as [|c n]; cbn [PyStr.is_empty negb].
    + destruct (series_rfc_value (front_seriesInfo root)) as [[|c v]|];
        cbn [PyStr.is_empty]; eauto.
    + eauto.
  - intros -> [-> | ->]; cbn [PyStr.is_empty negb]; [|reflexivity].
    now destruct (PyStr.is_empty (attr_get (docName root) "")).
Qed.

Lemma rfc_entry_identifier_witness :
  doc_id_of oauth_draft_root
            (stem_of (xml_target "/opt/rfc/xml"
                        ("https://www.rfc-editor.org/rfc/rfc6749.xml", "rfc6749")))
  = "RFC 6749".
Proof.
  exact (proj2 (proj2 (rfc_entry_identifier "/opt/rfc/xml"
                         "https://www.rfc-editor.org/rfc/rfc6749.xml" "6749"
                         oauth_draft_root eq_refl eq_refl))
           eq_refl (or_introl eq_refl)).
Defined.

(** ** What a whole run leaves in place *)

Ltac frames_step :=
  first [ assumption
        | apply frames_ret | apply frames_print | apply frames_get_world
        | apply frames_sys_exit | apply frames_outcome | apply frames_lift
        | apply frames_parse_specs_conf | apply frames_convert_loop
        | apply frames_if | apply frames_bind | apply frames_try_except
        | apply frames_for_each
        | match goal with |- forall _, _ => intro end ].

Section FramesSync.

Variable R : World -> World -> Prop.
Hypothesis R_refl : forall w, R w w.
Hypothesis R_trans : forall w1 w2 w3, R w1 w2 -> R w2 w3 -> R w1 w3.
Hypothesis R_print : forall msg w, R w (w_print msg w).
Hypothesis R_create : forall p w, R w (w_create p w).
Hypothesis R_net_call : forall url dest w, R w (w_net_call url dest w).

Lemma frames_urlretrieve env url dest : frames R (call_urlretrieve env url dest).
Proof.
  intros w. unfold call_urlretrieve.
  destruct (urlretrieve env w url dest) as [|msg [|]]; cbn [snd];
    try (eapply R_trans; [apply R_net_call | apply R_create]);
    apply R_net_call.
Qed.

Lemma frames_fetch_xml env url dest : frames R (fetch_xml env url dest).
Proof.
  intros w. unfold fetch_xml. destruct (path_exists dest w).
  - apply R_print.
  - assert (frames R (print ("  Fetching " ++ url ++ " ...") ;;
                      call_urlretrieve env url dest ;; ret dest)) as H.
    { repeat frames_step. apply frames_urlretrieve. }
    apply H.
Qed.


Lemma frames_sync_files env xml_dir : frames R (sync_files env xml_dir).
Proof.
  unfold sync_files.
  apply frames_bind; [assumption | repeat frames_step|]. intros w0.
  apply frames_bind; [assumption | repeat frames_step|]. intros _.
  apply frames_bind; [assumption | repeat frames_step|]. intros specs.
  apply frames_bind; [assumption | repeat frames_step|]. intros _.
  apply frames_bind; [assumption | intros w; apply R_create|]. intros _.
  apply frames_bind; [assumption | repeat frames_step|]. intros _.
  apply frames_for_each; [assumption | assumption|].
  intros files [url name]. unfold fetch_loop_body.
  apply frames_try_except; [assumption | | repeat frames_step].
  apply frames_bind; [assumption | apply frames_fetch_xml | repeat frames_step].
Qed.

End FramesSync.

Section FramesIndex.

Variable R : World -> World -> Prop.
Hypothesis R_refl : forall w, R w w.
Hypothesis R_trans : forall w1 w2 w3, R w1 w2 -> R w2 w3 -> R w1 w3.
Hypothesis R_print : forall msg w, R w (w_print msg w).
Hypothesis R_create : forall p w, R w (w_create p w).
Hypothesis R_write_dir : forall p content w, R w (w_write_dir p content w).

Lemma frames_generate_dir_file directory entries :
  frames R (generate_dir_file directory entries).
Proof.
  unfold generate_dir_file.
  apply frames_bind; [assumption | intros w; apply R_write_dir|].
  repeat frames_step.
Qed.

Lemma frames_convert_all env files : frames R (convert_all env files).
Proof.
  unfold convert_all.
  apply frames_bind; [assumption | repeat frames_step|]. intros _.
  apply frames_bind; [assumption | repeat frames_step|]. intros w0.
  apply frames_bind; [assumption | repeat frames_step|]. intros entries.
  apply frames_bind; [assumption | | repeat frames_step].
  apply frames_if; [apply frames_generate_dir_file | repeat frames_step].
Qed.

Hypothesis R_net_call : forall url dest w, R w (w_net_call url dest w).

Lemma frames_main env : frames R (main env).
Proof.
  unfold main.
  apply frames_bind; [assumption | repeat frames_step|]. intros _.
  apply frames_bind; [assumption | | intros; apply frames_convert_all].
  apply frames_if; [repeat frames_step | now apply frames_sync_files].
Qed.

End FramesIndex.

Lemma fs_grows_write_dir p content w : fs_grows w (w_write_dir p content w).
Proof.
  unfold w_write_dir. intros q Hq. apply fs_grows_create. exact Hq.
Qed.

Lemma stdout_grows_net_call url dest w : stdout_grows w (w_net_call url dest w).
Proof. exists []. cbn. now rewrite app_nil_r. Qed.

Lemma stdout_grows_write_dir p content w :
  stdout_grows w (w_write_dir p content w).
Proof. exists []. cbn. now rewrite app_nil_r. Qed.

Lemma convert_all_nil env w :
  convert_all env [] w
  = (Raise (SystemExit 1), w_print "No files to convert." w).
Proof. reflexivity. Qed.

Lemma sync_files_dir_writes env xml_dir w :
  dir_writes (snd (sync_files env xml_dir w)) = dir_writes w.
Proof.
  apply (frames_sync_files (fun w w' => dir_writes w' = dir_writes w));
    try reflexivity. intros w1 w2 w3 H1 H2. congruence.
Qed.

Lemma sync_files_outcomes env xml_dir w :
  let r := fst (sync_files env xml_dir w) in
  (exists files, r = Return files)
  \/ r = Raise (SystemExit 1)
  \/ exists msg,
       r = Raise (Exception msg)
       /\ open_lines env w (OsPath.join (script_dir env) "specs.conf") = Fails msg.
Proof.
  cbv zeta. remember (sync_files env xml_dir w) as res eqn:E.
  unfold sync_files in E. unfold bind at 1 in E. unfold get_world at 1 in E.
  cbv beta iota in E.
  destruct (path_exists (OsPath.join (script_dir env) "specs.conf") w);
    cbn [negb] in E.
  2:{ right. left. now subst res. }
  unfold bind at 1 in E. unfold ret at 1 in E. cbv beta iota in E.
  unfold bind at 1 in E. unfold parse_specs_conf at 1 in E.
  unfold bind at 1 in E.
  destruct (open_lines env w _) as [lines|msg] eqn:Ho; cbn [of_outcome] in E.
  2:{ right. right. exists msg. now subst res. }
  cbv beta iota in E. rewrite parse_specs_loop in E. cbn [app] in E.
  cbv beta iota in E.
  destruct (flat_map line_entries lines) as [|spec specs] eqn:Hs;
    cbn [is_nil] in E.
  { right. left. now subst res. }
  left. unfold bind at 1, ret at 1 in E. cbv beta iota in E.
  unfold bind at 1 in E. cbv beta iota in E.
  unfold bind at 1, print at 1 in E. cbv beta iota in E.
  match type of E with
  | context [for_each (fetch_loop_body env xml_dir) ?l [] ?w0] =>
      destruct (fetch_loop_returns env xml_dir l [] w0) as (add & w2 & Hl)
  end.
  rewrite Hl in E. subst res. now exists add.
Qed.

(** [main], mode by mode. *)
Lemma main_run env w :
  main env w
  = if (2 <=? List.length (argv env))%nat && (nth 1 (argv env) "" =? "--help")
    then (Raise (SystemExit 0), w_print module_doc w)
    else if (2 <=? List.length (argv env))%nat
            && negb (nth 1 (argv env) "" =? "--sync")
    then convert_all env (map (abspath env) (skipn 1 (argv env))) w
    else match sync_files env (OsPath.join (script_dir env) "xml") w with
         | (Return files, w1) => convert_all env files w1
         | (Raise e, w1) => (Raise e, w1)
         end.
Proof.
  unfold main. unfold bind at 1.
  destruct (_ && (nth 1 (argv env) "" =? "--help")); [reflexivity|].
  unfold ret at 1. unfold bind at 1.
  now destruct (_ && negb _).
Qed.

(** ** A failing download, in a whole run *)





(** X18. A run of [main] ends in one of four ways: it returns, it exits
    with 0 after printing the help, it exits with 1, or it is left by the
    exception of opening specs.conf; no failure of a download or of a
    conversion ends it.  Whatever the end, nothing that existed is gone,
    the output was only appended to, and the index was written at most
    once, in the script directory, by a run that returns. *)
Theorem main_outcomes (env : Env) (w : World) :
  let r := fst (main env w) in
  let w' := snd (main env w) in
  (r = Return tt \/ r = Raise (SystemExit 0) \/ r = Raise (SystemExit 1)
   \/ exists msg,
        r = Raise (Exception msg)
        /\ open_lines env w (OsPath.join (script_dir env) "specs.conf")
           = Fails msg)
  /\ fs_grows w w'
  /\ stdout_grows w w'
  /\ (dir_writes w' = dir_writes w
      \/ exists content,
           r = Return tt
           /\ dir_writes w'
              = (dir_writes w
                   ++ [(OsPath.join (script_dir env) "dir", content)])%list).
Proof.
  intros r w'.
  split; [|split; [|split]].
  2:{ apply (frames_main fs_grows fs_grows_refl fs_grows_trans fs_grows_print
               fs_grows_create fs_grows_write_dir fs_grows_net_call). }
  2:{ apply (frames_main stdout_grows stdout_grows_refl stdout_grows_trans
               stdout_grows_print stdout_grows_create stdout_grows_write_dir
               stdout_grows_net_call). }
  - unfold r. rewrite main_run.
    destruct (_ && (nth 1 (argv env) "" =? "--help"));
      [right; left; reflexivity|].
    destruct (_ && negb _) eqn:Hm.
    + destruct (convert_all_run env (map (abspath env) (skipn 1 (argv env))) w)
        as (w1 & -> & _); [|now left].
      apply andb_prop in Hm as [Hl _].
      destruct (argv env) as [|a0 [|a1 rest]]; try discriminate Hl. reflexivity.
    + pose proof (sync_files_outcomes env (OsPath.join (script_dir env) "xml") w)
        as Hs. cbv zeta in Hs.
      destruct (sync_files env _ w) as [[files|e] w1]; cbn [fst] in *.
      * destruct files as [|f files]; [right; right; left; reflexivity|].
        destruct (convert_all_run env (f :: files) w1 eq_refl) as (w2 & -> & _).
        now left.
      * destruct Hs as [[files Hf]|[[= ->]|(msg & [= ->] & Ho)]];
          [discriminate | |].
        -- right; right; left; reflexivity.
        -- right; right; right. now exists msg.
  - unfold r, w'. rewrite main_run.
    destruct (_ && (nth 1 (argv env) "" =? "--help")); [now left|].
    destruct (_ && negb _) eqn:Hm.
    + destruct (convert_all_run env (map (abspath env) (skipn 1 (argv env))) w)
        as (w1 & Hrun & Hd & _).
      { apply andb_prop in Hm as [Hl _].
        destruct (argv env) as [|a0 [|a1 rest]]; try discriminate Hl.
        reflexivity. }
      rewrite Hrun. cbn [fst snd]. rewrite Hd.
      destruct (is_nil _); [now left | right; now eexists].
    + pose proof (sync_files_dir_writes env (OsPath.join (script_dir env) "xml") w)
        as Hsd.
      destruct (sync_files env _ w) as [[files|e] w1]; cbn [fst snd] in *;
        [|now left].
      destruct files as [|f files]; [now left|].
      destruct (convert_all_run env (f :: files) w1 eq_refl) as (w2 & -> & Hd & _).
      cbn [fst snd]. rewrite Hd, Hsd.
      destruct (is_nil _); [now left | right; now eexists].
Qed.

(** X19. With file arguments [main] makes no download and returns, whatever
    specs.conf holds and whatever the conversions do. *)
Theorem main_explicit_offline (env : Env) (w : World) (prog arg : string)
        (rest : list string) :
  argv env = prog :: arg :: rest ->
  (arg =? "--help") = false -> (arg =? "--sync") = false ->
  fst (main env w) = Return tt
  /\ net_calls (snd (main env w)) = net_calls w.
Proof.
  intros Ha Hh Hs. rewrite (main_explicit_files env w prog arg rest Ha Hh Hs).
  split.
  - destruct (convert_all_run env (map (abspath env) (arg :: rest)) w eq_refl)
      as (w' & -> & _). reflexivity.
  - apply (frames_convert_all same_net same_net_refl same_net_trans);
      reflexivity.
Qed.

Lemma main_explicit_offline_witness :
  let env := sample_env ["rfc2texi.py"; "/tmp/broken.xml"] in
  fst (main env empty_world) = Return tt
  /\ net_calls (snd (main env empty_world)) = [].
Proof.
  exact (main_explicit_offline (sample_env ["rfc2texi.py"; "/tmp/broken.xml"])
           empty_world "rfc2texi.py" "/tmp/broken.xml" []
           eq_refl eq_refl eq_refl).
Defined.

Lemma dir_writes_w_prints (l : list string) (w : World) :
  dir_writes (w_prints l w) = dir_writes w.
Proof.
  revert w. induction l as [|m l IH]; intros w; [reflexivity|].
  cbn. unfold w_prints in IH. now rewrite IH.
Qed.

(** X20. In sync mode a run in which no entry could be fetched converts
    nothing: it prints that there are no files to convert and exits with 1,
    and the index is not written. *)
Theorem main_sync_nothing_fetched (env : Env) (w : World) (lines : list string) :
  (2 <=? List.length (argv env))%nat && negb (nth 1 (argv env) "" =? "--sync")
  = false ->
  (nth 1 (argv env) "" =? "--help") = false ->
  let conf_path := OsPath.join (script_dir env) "specs.conf" in
  let xml_dir := OsPath.join (script_dir env) "xml" in
  let specs := flat_map line_entries lines in
  let w1 := w_print ("Found " ++ PyStr.of_nat (List.length specs)
                       ++ " specs in specs.conf" ++ String "010" "")
              (w_create xml_dir (w_prints (flat_map line_warnings lines) w)) in
  path_exists conf_path w = true ->
  open_lines env w conf_path = Ok lines ->
  is_nil specs = false ->
  fst (for_each (fetch_loop_body env xml_dir) specs [] w1) = Return [] ->
  fst (main env w) = Raise (SystemExit 1)
  /\ last (stdout (snd (main env w))) "" = "No files to convert."
  /\ dir_writes (snd (main env w)) = dir_writes w.
Proof.
  intros Hm Hh conf_path xml_dir specs w1 He Ho Hs Hloop.
  rewrite (main_sync_mode env w lines Hm Hh He Ho Hs).
  fold conf_path xml_dir specs w1. unfold bind.
  pose proof (frames_for_each (fun w w' => dir_writes w' = dir_writes w)
                ltac:(reflexivity) ltac:(intros; congruence)
                (fetch_loop_body env xml_dir) specs [] ) as Hd.
  destruct (for_each (fetch_loop_body env xml_dir) specs [] w1)
    as [[files|e] w2] eqn:Hrun; cbn [fst] in Hloop; [|discriminate].
  injection Hloop as ->. rewrite convert_all_nil. cbn [fst snd].
  split; [reflexivity|]. split; [apply last_last|].
  cbn [w_print dir_writes].
  assert (dir_writes w2 = dir_writes w1) as ->.
  { change w2 with (snd (Return (@nil string), w2)). rewrite <- Hrun.
    apply Hd. intros files [url name]. unfold fetch_loop_body.
    apply frames_try_except; [intros; congruence | |].
    - apply frames_bind; [intros; congruence | |].
      + apply frames_fetch_xml; try reflexivity. intros; congruence.
      + intros; apply frames_ret. reflexivity.
    - intros. apply frames_bind; [intros; congruence | |].
      + apply frames_print. reflexivity.
      + intros. apply frames_ret. reflexivity. }
  unfold w1. cbn [w_print w_create dir_writes]. apply dir_writes_w_prints.
Qed.

Lemma main_sync_nothing_fetched_witness :
  fst (main offline_env offline_world) = Raise (SystemExit 1)
  /\ last (stdout (snd (main offline_env offline_world))) ""
     = "No files to convert."
  /\ dir_writes (snd (main offline_env offline_world)) = [].
Proof.
  exact (main_sync_nothing_fetched offline_env offline_world
           [ "rfc 9126"; "draft draft-ietf-oauth-v2-1-13" ]
           eq_refl eq_refl eq_refl eq_refl eq_refl eq_refl).
Defined.

(** ** The index, read back *)

Lemma split_on_plain (sep : ascii) (x : string) :
  PyStr.contains sep x = false -> PyStr.split_on sep x = [x].
Proof.
  induction x as [|c x IH]; [reflexivity|].
  cbn [PyStr.contains PyStr.split_on]. intros H.
  apply orb_false_elim in H as [Hc Hx]. now rewrite Hc, (IH Hx).
Qed.

Lemma split_on_app (sep : ascii) (x r : string) :
  PyStr.contains sep x = false ->
  PyStr.split_on sep (x ++ String sep r) = x :: PyStr.split_on sep r.
Proof.
  induction x as [|c x IH].
  - intros _. cbn. now rewrite Ascii.eqb_refl.
  - cbn [PyStr.contains]. intros H. apply orb_false_elim in H as [Hc Hx].
    change (String c x ++ String sep r) with (String c (x ++ String sep r)).
    cbn [PyStr.split_on]. now rewrite Hc, (IH Hx).
Qed.

Lemma split_on_join (sep : ascii) (ls : list string) :
  ls <> [] -> Forall (fun l => PyStr.contains sep l = false) ls ->
  PyStr.split_on sep (PyStr.join (String sep "") ls) = ls.
Proof.
  unfold PyStr.join. induction ls as [|x ls IH]; [congruence|].
  intros _ H. inversion H as [|x' ls' Hx Hls]; subst.
  destruct ls as [|y ls].
  - now apply split_on_plain.
  - change (String.concat (String sep "") (x :: y :: ls))
      with (x ++ String sep (String.concat (String sep "") (y :: ls))).
    rewrite split_on_app by assumption. f_equal.
    apply IH; [discriminate | exact Hls].
Qed.

Lemma contains_replace_from (c : ascii) (old new s : string) (skip : nat) :
  PyStr.contains c s = false -> PyStr.contains c new = false ->
  PyStr.contains c (PyStr.replace_from skip old new s) = false.
Proof.
  intros Hs Hn. revert skip. induction s as [|d s IH]; intros skip;
    [reflexivity|].
  cbn [PyStr.contains] in Hs. apply orb_false_elim in Hs as [Hd Hs].
  cbn [PyStr.replace_from]. destruct skip as [|k]; [|now apply IH].
  destruct (String.prefix old (String d s)).
  - rewrite contains_app, Hn. now apply IH.
  - cbn [PyStr.contains]. rewrite Hd. now apply IH.
Qed.

Lemma menu_line_one_line (e : string * string * string) :
  one_line_entry e = true -> PyStr.contains "010" (menu_line e) = false.
Proof.
  destruct e as [[info doc_id] title]. unfold one_line_entry, menu_line.
  intros H. apply andb_prop in H as [H Ht]. apply andb_prop in H as [Hi Hd].
  apply negb_true_iff in Hi, Hd, Ht.
  pose proof (contains_replace_from "010" ".info" "" info 0 Hi eq_refl) as Hn.
  fold (PyStr.replace ".info" "" info) in Hn.
  rewrite !contains_app, Hn, Ht.
  destruct (PyStr.is_empty doc_id); cbn [negb]; rewrite ?Hn, ?Hd; reflexivity.
Qed.

(** X6. The index holds the banner, one menu line for each entry and a
    final empty line, so that it ends with a newline: when no name,
    identifier or title holds a newline, the lines of the file written are
    the nine lines of the banner, as many menu lines as there are entries,
    each entry having its own, and one empty line. *)
Theorem dir_content_lines (entries : list (string * string * string)) :
  Forall (fun e => one_line_entry e = true) entries ->
  PyStr.split_on "010" (dir_content entries) = dir_lines entries
  /\ List.length (dir_lines entries) = 10 + List.length entries
  /\ exists menu,
       dir_lines entries = (dir_header ++ menu ++ [""])%list
       /\ Permutation menu (map menu_line entries).
Proof.
  intros H. split; [|split].
  - unfold dir_content. apply split_on_join.
    + unfold dir_lines, dir_header. discriminate.
    + unfold dir_lines. apply Forall_app. split; [|apply Forall_app; split].
      * unfold dir_header. repeat constructor.
      * rewrite Forall_map.
        apply (Permutation_Forall (Permutation_sym (sorted_perm entry_key entries))).
        eapply Forall_impl; [|exact H]. apply menu_line_one_line.
      * repeat constructor.
  - unfold dir_lines. rewrite !length_app, length_map.
    rewrite (Permutation_length (sorted_perm entry_key entries)).
    cbn. lia.
  - exists (map menu_line (sorted entry_key entries)). split; [reflexivity|].
    apply Permutation_map, sorted_perm.
Qed.

Lemma dir_content_lines_witness :
  PyStr.split_on "010"
    (dir_content [("rfc9126.info", "RFC 9126",
                   "OAuth 2.0 Pushed Authorization Requests");
                  ("notes.info", "", "Notes")])
  = (dir_header
       ++ ["* notes: (notes).  Notes.";
           "* RFC 9126: (rfc9126).  OAuth 2.0 Pushed Authorization Requests.";
           ""])%list.
Proof.
  refine (proj1 (dir_content_lines
                   [("rfc9126.info", "RFC 9126",
                     "OAuth 2.0 Pushed Authorization Requests");
                    ("notes.info", "", "Notes")] _)).
  repeat constructor.
Defined.
